(** * WebUnpack crawler core: path mapper, HTML rewriter, badge stripper,
    page crawler and asset fetcher, embedded from
    [src/scraper/base_spider.py], [src/scraper/framer_spider.py] and
    [src/services/general_scraper.py], with the helpers of
    [src/scraper/utils.py], the URL check of [src/main.py] and the
    platform variants of [src/scraper] that share one badge remover. *)

From Stdlib Require Import Ascii String List Bool Arith Lia.
From stdpp Require Import base option list gmap strings pretty.

Local Open Scope string_scope.
Local Open Scope list_scope.
Local Open Scope nat_scope.

(** ** Python [str] methods used by the crawler

    A Python string is modelled as a [string]; one [ascii] stands for one
    character.  Only the methods the embedded functions call are given. *)
Module Py.

(** [s.startswith(p)] *)
Fixpoint startswith (p s : string) : bool :=
  match p, s with
  | EmptyString, _ => true
  | String a p', String b s' => Ascii.eqb a b && startswith p' s'
  | String _ _, EmptyString => false
  end.

(** [s.endswith(suf)] *)
Fixpoint endswith (suf s : string) : bool :=
  String.eqb s suf ||
  match s with
  | EmptyString => false
  | String _ s' => endswith suf s'
  end.

(** [sub in s] *)
Fixpoint contains (sub s : string) : bool :=
  startswith sub s ||
  match s with
  | EmptyString => false
  | String _ s' => contains sub s'
  end.

(** [c in s] for a single character [c] *)
Fixpoint has_char (c : ascii) (s : string) : bool :=
  match s with
  | EmptyString => false
  | String a s' => Ascii.eqb a c || has_char c s'
  end.

(** Longest prefix without a character satisfying [p], and the rest
    (which starts at the first such character, or is empty). *)
Fixpoint break_on (p : ascii -> bool) (s : string) : string * string :=
  match s with
  | EmptyString => (EmptyString, EmptyString)
  | String c s' =>
      if p c then (EmptyString, s)
      else let (a, b) := break_on p s' in (String c a, b)
  end.

(** [s.split(sep, 1)[0]]: the text before the first [sep]. *)
Definition before (sep : ascii) (s : string) : string :=
  fst (break_on (Ascii.eqb sep) s).

(** [s.split(sep)] for a one-character separator: never the empty list. *)
Fixpoint split (sep : ascii) (s : string) : list string :=
  match s with
  | EmptyString => [EmptyString]
  | String c s' =>
      if Ascii.eqb c sep then EmptyString :: split sep s'
      else match split sep s' with
           | [] => [String c EmptyString]
           | h :: t => String c h :: t
           end
  end.

(** [sep.join(l)] *)
Fixpoint join (sep : string) (l : list string) : string :=
  match l with
  | [] => EmptyString
  | [x] => x
  | x :: l' => x +:+ sep +:+ join sep l'
  end.

(** [s.lstrip(c)] and [s.rstrip(c)] for one character, [s.strip(c)]. *)
Fixpoint lstrip (p : ascii -> bool) (s : string) : string :=
  match s with
  | EmptyString => EmptyString
  | String a s' => if p a then lstrip p s' else s
  end.

Fixpoint rstrip (p : ascii -> bool) (s : string) : string :=
  match s with
  | EmptyString => EmptyString
  | String a s' =>
      match rstrip p s' with
      | EmptyString => if p a then EmptyString else String a EmptyString
      | r => String a r
      end
  end.

Definition strip (p : ascii -> bool) (s : string) : string :=
  rstrip p (lstrip p s).

(** [(s[:i], s[i:])] with [i = s.rfind(c) + 1]. *)
Fixpoint rcut (c : ascii) (s : string) : string * string :=
  match s with
  | EmptyString => (EmptyString, EmptyString)
  | String a s' =>
      match rcut c s' with
      | (EmptyString, t) =>
          if Ascii.eqb a c then (String a EmptyString, t)
          else (EmptyString, String a t)
      | (h, t) => (String a h, t)
      end
  end.

(** Character classes.  A character of the model is a code point below
    256; [is_upper], [is_lower], [is_alpha] and [is_digit] are the ASCII
    ranges. *)
Definition code (c : ascii) : nat := nat_of_ascii c.

Definition is_upper (c : ascii) : bool := (65 <=? code c) && (code c <=? 90).
Definition is_lower (c : ascii) : bool := (97 <=? code c) && (code c <=? 122).
Definition is_alpha (c : ascii) : bool := is_upper c || is_lower c.
Definition is_digit (c : ascii) : bool := (48 <=? code c) && (code c <=? 57).
Definition is_ascii (c : ascii) : bool := code c <? 128.

(** [str.isspace] on the characters of the model: space, TAB, LF, VT, FF,
    CR, the separators FS, GS, RS, US, the next-line control (133) and the
    no-break space (160).  It is the white space of [str.strip],
    [str.split] and of the parser. *)
Definition is_space (c : ascii) : bool :=
  (code c =? 32) || ((9 <=? code c) && (code c <=? 13))
  || ((28 <=? code c) && (code c <=? 31))
  || (code c =? 133) || (code c =? 160).

(** The letters of the upper half of the alphabet: 192..222 without the
    multiplication sign are upper case, 223..255 without the division sign
    are lower case. *)
Definition is_upper_latin (c : ascii) : bool :=
  (192 <=? code c) && (code c <=? 222) && negb (code c =? 215).
Definition is_lower_latin (c : ascii) : bool :=
  (223 <=? code c) && (code c <=? 255) && negb (code c =? 247).

(** [s.lower()]: an upper-case letter is lowered, every other character of
    the model is left as it is. *)
Definition lower_char (c : ascii) : ascii :=
  if is_upper c || is_upper_latin c then ascii_of_nat (code c + 32) else c.

Fixpoint lower (s : string) : string :=
  match s with
  | EmptyString => EmptyString
  | String a s' => String (lower_char a) (lower s')
  end.

(** [all(p(c) for c in s)] *)
Fixpoint all_chars (p : ascii -> bool) (s : string) : bool :=
  match s with
  | EmptyString => true
  | String a s' => p a && all_chars p s'
  end.

(** Drop every character satisfying [p] (a chain of [s.replace(b, '')]). *)
Fixpoint remove_chars (p : ascii -> bool) (s : string) : string :=
  match s with
  | EmptyString => EmptyString
  | String a s' => if p a then remove_chars p s' else String a (remove_chars p s')
  end.

(** [s.replace(old, new)] for a non-empty [old]: leftmost, non-overlapping
    occurrences.  [skip] counts the characters of a match still to drop. *)
Fixpoint replace_from (old new : string) (skip : nat) (s : string) : string :=
  match s with
  | EmptyString => EmptyString
  | String a s' =>
      match skip with
      | S k => replace_from old new k s'
      | O =>
          if startswith old s
          then new +:+ replace_from old new (String.length old - 1) s'
          else String a (replace_from old new 0 s')
      end
  end.

Definition replace (old new s : string) : string := replace_from old new 0 s.

(** [s[n:]] *)
Fixpoint drop (n : nat) (s : string) : string :=
  match n, s with
  | O, _ => s
  | S k, String _ s' => drop k s'
  | S _, EmptyString => EmptyString
  end.

(** [x in l] for a list of strings *)
Definition mem (x : string) (l : list string) : bool :=
  existsb (String.eqb x) l.

End Py.

(** ** [urllib.parse]

    [urlsplit] and [urlparse] follow CPython 3.11 ([Lib/urllib/parse.py]).
    Two checks of the library are not part of the model and are taken as
    parameters, together with [urljoin]: the validation of a bracketed
    (IPv6 / IPvFuture) host and the NFKC check of a non-ASCII authority.
    All three can raise [ValueError]; [None] stands for the exception. *)
Class UrlLib := {
  check_bracketed_netloc : string -> bool;
  checknetloc_nfkc : string -> bool;
  urljoin : string -> string -> option string
}.

(** An instance used to evaluate the model on concrete URLs: it rejects
    every bracketed or non-ASCII authority and joins only what the examples
    need, a root-relative reference without dot segments onto an [https]
    base ([urljoin("https://host/a/b", "/p") = "https://host/p"]). *)
Definition example_lib : UrlLib := {|
  check_bracketed_netloc := fun _ => false;
  checknetloc_nfkc := fun _ => false;
  urljoin := fun base url =>
    if Py.startswith "/" url && negb (Py.startswith "//" url)
       && Py.startswith "https://" base
    then Some ("https://" +:+ Py.before "/" (Py.drop 8 base) +:+ url)
    else None
|}.

Module UrlParse.
Import Py.

Record ParseResult := {
  scheme : string;
  netloc : string;
  path : string;
  params : string;
  query : string;
  fragment : string
}.

Definition scheme_char (c : ascii) : bool :=
  is_alpha c || is_digit c || has_char c "+-.".

(** [_WHATWG_C0_CONTROL_OR_SPACE]: the characters 0x00 .. 0x20 *)
Definition c0_control_or_space (c : ascii) : bool := code c <=? 32.

(** [_UNSAFE_URL_BYTES_TO_REMOVE]: TAB, CR, LF *)
Definition unsafe_url_byte (c : ascii) : bool :=
  (code c =? 9) || (code c =? 13) || (code c =? 10).

(** [s.split(c, 1)], with an empty second part when [c] does not occur *)
Definition cut_at (c : ascii) (s : string) : string * string :=
  let (a, b) := break_on (Ascii.eqb c) s in (a, drop 1 b).

(** The scheme test of [urlsplit]: [i = url.find(':')], [i > 0], a leading
    ASCII letter and only scheme characters before the colon. *)
Definition split_scheme (url : string) : string * string :=
  match break_on (Ascii.eqb ":") url with
  | (String c0 pre, String _ rest) =>
      if is_ascii c0 && is_alpha c0 && all_chars scheme_char (String c0 pre)
      then (lower (String c0 pre), rest)
      else (EmptyString, url)
  | _ => (EmptyString, url)
  end.

(** [_splitnetloc(url, 2)] *)
Definition splitnetloc (url : string) : string * string :=
  break_on (fun c => has_char c "/?#") (drop 2 url).

Section WithLib.
Context `{UrlLib}.

(** The two [ValueError] tests on the authority. *)
Definition netloc_ok (nl : string) : bool :=
  match has_char "[" nl, has_char "]" nl with
  | true, true => check_bracketed_netloc nl
  | false, false => true
  | _, _ => false
  end
  && (all_chars is_ascii nl || checknetloc_nfkc nl).

(** [urlsplit(url)]: scheme, netloc, path, query, fragment *)
Definition urlsplit (url : string) : option (string * string * string * string * string) :=
  let url := remove_chars unsafe_url_byte (lstrip c0_control_or_space url) in
  let (sch, url) := split_scheme url in
  let (nl, url) := if startswith "//" url then splitnetloc url else (EmptyString, url) in
  let (url, frag) := cut_at "#" url in
  let (url, qry) := cut_at "?" url in
  if netloc_ok nl then Some (sch, nl, url, qry, frag) else None.

Definition uses_params : list string :=
  [""; "ftp"; "hdl"; "prospero"; "http"; "imap"; "https"; "shttp"; "rtsp";
   "rtspu"; "sip"; "sips"; "mms"; "sftp"; "tel"].

(** [_splitparams(url)], called when [';' in url] *)
Definition splitparams (url : string) : string * string :=
  if has_char "/" url then
    let (h, t) := rcut "/" url in
    if has_char ";" t
    then let (a, b) := cut_at ";" t in (h +:+ a, b)
    else (url, EmptyString)
  else cut_at ";" url.

Definition urlparse (url : string) : option ParseResult :=
  match urlsplit url with
  | None => None
  | Some (sch, nl, url, qry, frag) =>
      let (url, prm) :=
        if mem sch uses_params && has_char ";" url then splitparams url
        else (url, EmptyString) in
      Some {| scheme := sch; netloc := nl; path := url; params := prm;
              query := qry; fragment := frag |}
  end.

End WithLib.
End UrlParse.

(** ** Path mapper ([BaseSiteSpider.get_clean_path], [get_relative_path],
    [is_internal_link]) *)
Module PathMapper.
Import Py UrlParse.

Definition is_slash (c : ascii) : bool := Ascii.eqb c "/".

Definition nonempty (s : string) : bool :=
  match s with EmptyString => false | _ => true end.

(** The rewriting of [segments[-1]] in [get_clean_path]. *)
Definition html_name (seg : string) : string :=
  if has_char "." seg && negb (endswith ".html" seg)
  then before "." seg +:+ ".html"
  else if negb (endswith ".html" seg) then seg +:+ ".html"
  else seg.

(** [get_clean_path] on the path component of the parsed URL. *)
Definition clean_of_path (p : string) : string :=
  let p := strip is_slash p in
  if negb (nonempty p) then "index.html"
  else
    let segments := List.filter nonempty (split "/" p) in
    match segments with
    | [] => "index.html"
    | _ =>
        let segments := removelast segments ++ [html_name (List.last segments EmptyString)] in
        if length segments =? 1 then List.hd EmptyString segments
        else join "/" (removelast segments) +:+ "/" +:+ List.last segments EmptyString
    end.

(** [os.path.dirname] and [os.path.basename] (posixpath) *)
Definition dirname (p : string) : string :=
  let (head, _) := rcut "/" p in
  if nonempty head && negb (all_chars is_slash head)
  then rstrip is_slash head else head.

Definition basename (p : string) : string := snd (rcut "/" p).

(** The loop computing [common_length] in [get_relative_path]. *)
Fixpoint common_prefix_length (xs ys : list string) : nat :=
  match xs, ys with
  | x :: xs', y :: ys' =>
      if String.eqb x y then S (common_prefix_length xs' ys') else 0
  | _, _ => 0
  end.

Definition get_relative_path (from_path to_path : string) : string :=
  let from_dir := dirname from_path in
  let to_dir := dirname to_path in
  if String.eqb from_dir to_dir then basename to_path
  else
    let from_parts := if nonempty from_dir then split "/" from_dir else [] in
    let to_parts := if nonempty to_dir then split "/" to_dir else [] in
    let common_length := common_prefix_length from_parts to_parts in
    let up_levels := length from_parts - common_length in
    let down_path := join "/" (skipn common_length to_parts) in
    let relative_parts :=
      repeat ".." up_levels
      ++ (if nonempty down_path then [down_path] else [])
      ++ [basename to_path] in
    match relative_parts with
    | [] => basename to_path
    | _ => join "/" relative_parts
    end.




Definition external_domains : list string :=
  ["facebook.com"; "twitter.com"; "instagram.com"; "linkedin.com";
   "youtube.com"; "google.com"; "maps.google.com"].

(** [link.startswith(('mailto:', 'tel:', '#', 'javascript:'))] *)
Definition is_special_link (link : string) : bool :=
  startswith "mailto:" link || startswith "tel:" link
  || startswith "#" link || startswith "javascript:" link.

(** [url.split('#')[0].split('?')[0]] *)
Definition strip_fragment_query (url : string) : string :=
  before "?" (before "#" url).

Section WithLib.
Context `{UrlLib}.

Definition get_clean_path (url : string) : string :=
  match urlparse url with
  | Some parsed => clean_of_path (path parsed)
  | None => "index.html"
  end.

(** [is_internal_link]; a [ValueError] of [urlparse] is caught and gives
    [False]. *)
Definition is_internal_link (link current_url : string) : bool :=
  if negb (nonempty link) || is_special_link link then false
  else if startswith "http" link then
    match urlparse current_url, urlparse link with
    | Some cur, Some lnk =>
        if existsb (fun domain => contains domain (netloc lnk)) external_domains
        then false
        else String.eqb (netloc cur) (netloc lnk)
    | _, _ => false
    end
  else true.

End WithLib.
End PathMapper.

(** ** The parsed document (BeautifulSoup with [html.parser])

    A document is a forest of nodes.  [Text] is a [NavigableString];
    [Raw] stands for the strings that [get_text] does not count (comments,
    doctype, the content of [script], [style] and [template]).  Tag and
    attribute names are the lowercase names the parser produces; an
    attribute value is kept as the raw string, and a multi-valued attribute
    ([class]) is split at white space where it is matched. *)
Module Soup.
Import Py.

#[local] Unset Elimination Schemes.
Inductive node : Type :=
| Text (s : string)
| Raw (s : string)
| Element (name : string) (attrs : list (string * string)) (children : list node).
#[local] Set Elimination Schemes.

Definition soup : Type := list node.

(** Induction on a node, with the property known for every child. *)
Definition node_ind (P : node -> Prop)
  (HText : forall s, P (Text s))
  (HRaw : forall s, P (Raw s))
  (HElement : forall name attrs children,
      Forall P children -> P (Element name attrs children)) : forall n, P n :=
  fix go (n : node) : P n :=
    match n with
    | Text s => HText s
    | Raw s => HRaw s
    | Element name attrs children =>
        HElement name attrs children
          ((fix go_list (l : list node) : Forall P l :=
              match l with
              | [] => @List.Forall_nil node P
              | c :: l' => @List.Forall_cons node P c l' (go c) (go_list l')
              end) children)
    end.

(** [tag.get(key)] *)
Fixpoint get_attr (key : string) (attrs : list (string * string)) : option string :=
  match attrs with
  | [] => None
  | (k, v) :: rest => if String.eqb k key then Some v else get_attr key rest
  end.

(** [tag[key] = value] *)
Fixpoint set_attr (key value : string) (attrs : list (string * string))
  : list (string * string) :=
  match attrs with
  | [] => [(key, value)]
  | (k, v) :: rest =>
      if String.eqb k key then (k, value) :: rest
      else (k, v) :: set_attr key value rest
  end.

(** The white-space separated values of a multi-valued attribute. *)
Fixpoint words_from (cur : string) (s : string) : list string :=
  match s with
  | EmptyString => match cur with EmptyString => [] | _ => [cur] end
  | String a s' =>
      if is_space a
      then match cur with
           | EmptyString => words_from EmptyString s'
           | _ => cur :: words_from EmptyString s'
           end
      else words_from (cur +:+ String a EmptyString) s'
  end.

Definition words (s : string) : list string := words_from EmptyString s.

(** Match of a [class] value against a string: one of the classes, or the
    whole normalised value. *)
Definition has_class (c : string) (attrs : list (string * string)) : bool :=
  match get_attr "class" attrs with
  | Some v => mem c (words v) || String.eqb (join " " (words v)) c
  | None => false
  end.

(** [find_all]: the elements satisfying [p], in document order. *)
Fixpoint find_all (p : node -> bool) (n : node) : list node :=
  match n with
  | Element _ _ children =>
      (if p n then [n] else []) ++ flat_map (find_all p) children
  | _ => []
  end.

Definition find_all_in (p : node -> bool) (s : soup) : list node :=
  flat_map (find_all p) s.

(** [tag.get_text()] and [tag.get_text(strip=True)] *)
Fixpoint get_text (n : node) : string :=
  match n with
  | Text s => s
  | Raw _ => EmptyString
  | Element _ _ children =>
      fold_right (fun c acc => get_text c +:+ acc) EmptyString children
  end.

Fixpoint get_text_strip (n : node) : string :=
  match n with
  | Text s => strip is_space s
  | Raw _ => EmptyString
  | Element _ _ children =>
      fold_right (fun c acc => get_text_strip c +:+ acc) EmptyString children
  end.

(** [tag.string]: the only child when it is a string, looked up through
    single-child tags. *)
Fixpoint node_string (n : node) : option string :=
  match n with
  | Text s | Raw s => Some s
  | Element _ _ [c] => node_string c
  | Element _ _ _ => None
  end.

(** [for element in soup.find_all(...): if p(element): element.decompose()].
    The list is taken before the loop and is in document order, so an
    element is tested before its descendants, on its subtree as it was
    found; the descendants of a removed element are emptied by [decompose]
    and no longer match.  The loop therefore removes, from the top, every
    element that satisfies [p]. *)
Fixpoint prune (p : node -> bool) (n : node) : list node :=
  match n with
  | Element name attrs children =>
      if p n then [] else [Element name attrs (flat_map (prune p) children)]
  | _ => [n]
  end.

Definition prune_all (p : node -> bool) (s : soup) : soup := flat_map (prune p) s.

(** Every element of the subtree satisfies [q]. *)
Fixpoint every_element (q : node -> bool) (n : node) : bool :=
  match n with
  | Element _ _ children => q n && forallb (every_element q) children
  | _ => true
  end.

Definition is_element (names : list string) (n : node) : bool :=
  match n with
  | Element name _ _ => mem name names
  | _ => false
  end.

Definition attrs_of (n : node) : list (string * string) :=
  match n with
  | Element _ attrs _ => attrs
  | _ => []
  end.

(** [for link in soup.find_all('a', href=True): link['href'] = f(href)],
    where [f] can raise ([None]) or leave the attribute as it is
    ([Some None]). *)
Fixpoint rewrite_hrefs (f : string -> option (option string)) (n : node) : option node :=
  match n with
  | Element name attrs children =>
      let attrs' :=
        if String.eqb name "a" then
          match get_attr "href" attrs with
          | Some href =>
              match f href with
              | None => None
              | Some None => Some attrs
              | Some (Some href') => Some (set_attr "href" href' attrs)
              end
          | None => Some attrs
          end
        else Some attrs in
      let children' :=
        (fix go (l : list node) : option (list node) :=
           match l with
           | [] => Some []
           | c :: l' =>
               match rewrite_hrefs f c, go l' with
               | Some c', Some l'' => Some (c' :: l'')
               | _, _ => None
               end
           end) children in
      match attrs', children' with
      | Some a, Some c => Some (Element name a c)
      | _, _ => None
      end
  | _ => Some n
  end.

(** The [href] values of [soup.find_all('a', href=True)], in document order. *)
Definition anchor_hrefs (s : soup) : list string :=
  flat_map (fun n => match get_attr "href" (attrs_of n) with
                     | Some href => [href]
                     | None => []
                     end)
    (find_all_in (is_element ["a"]) s).

Fixpoint rewrite_hrefs_all (f : string -> option (option string)) (s : soup) : option soup :=
  match s with
  | [] => Some []
  | n :: s' =>
      match rewrite_hrefs f n, rewrite_hrefs_all f s' with
      | Some n', Some s'' => Some (n' :: s'')
      | _, _ => None
      end
  end.

End Soup.

(** The parser and the serialiser of BeautifulSoup, and the font pattern of
    [download_assets], are taken as parameters: [soup_parse] is
    [BeautifulSoup(markup, 'html.parser')] ([None] when it raises),
    [soup_str] is [str(soup)], [findall_font_urls] is [re.findall] with the
    pattern for [url(...)] references to font files. *)
Class SoupLib := {
  soup_parse : string -> option Soup.soup;
  soup_str : Soup.soup -> string;
  findall_font_urls : string -> list string
}.

(** ** HTML rewriter ([BaseSiteSpider.process_html_content]) *)
Module Rewriter.
Import Py UrlParse PathMapper Soup.

(** [re.sub(pattern, repl, html)] for the patterns
    [https?://<escaped domain><tail>]: leftmost non-overlapping matches of
    [https://domain tail] or [http://domain tail]. *)
Fixpoint sub_from (pats : list string) (repl : string) (skip : nat) (s : string) : string :=
  match s with
  | EmptyString => EmptyString
  | String a s' =>
      match skip with
      | S k => sub_from pats repl k s'
      | O =>
          match List.find (fun p => startswith p s) pats with
          | Some p => repl +:+ sub_from pats repl (String.length p - 1) s'
          | None => String a (sub_from pats repl 0 s')
          end
      end
  end.

Definition sub_origin (domain tail repl html : string) : string :=
  sub_from ["https://" +:+ domain +:+ tail; "http://" +:+ domain +:+ tail] repl 0 html.

(** The two textual substitutions that open [process_html_content]. *)
Definition prepass (domain html : string) : string :=
  sub_origin domain "" "." (sub_origin domain "/" "./" html).

Section WithLib.
Context `{UrlLib} `{SoupLib}.

(** The new value of one [href]; [None] is an exception, [Some None]
    leaves the link untouched. *)
Definition new_href (base_url current_page_path href : string) : option (option string) :=
  if startswith "mailto:" href || startswith "tel:" href || startswith "javascript:" href
  then Some None
  else if startswith "#" href then Some None
  else if startswith "/" href then
    if String.eqb href "/" || String.eqb href ""
    then Some (Some (get_relative_path current_page_path "index.html"))
    else
      match urljoin base_url href with
      | None => None
      | Some target_url =>
          Some (Some (get_relative_path current_page_path (get_clean_path target_url)))
      end
  else if startswith "http://" href || startswith "https://" href then
    match urlparse href, urlparse base_url with
    | Some l, Some b =>
        if String.eqb (netloc l) (netloc b)
        then Some (Some (get_relative_path current_page_path (get_clean_path href)))
        else Some None
    | _, _ => None
    end
  else Some None.

(** The part of the [try] body after the textual substitutions: parse,
    rewrite every link, serialise.  [None] when an exception is raised. *)
Definition rewrite_document (html base_url : string) : option string :=
  match soup_parse html with
  | None => None
  | Some soup =>
      let current_page_path := get_clean_path base_url in
      match rewrite_hrefs_all (new_href base_url current_page_path) soup with
      | None => None
      | Some soup' => Some (soup_str soup')
      end
  end.

(** [process_html_content]: the variable [html] is rebound by the two
    substitutions, and the handler returns [html]. *)
Definition process_html_content (html base_url : string) : string :=
  match urlparse base_url with
  | None => html
  | Some b =>
      let html := prepass (netloc b) html in
      match rewrite_document html base_url with
      | Some out => out
      | None => html
      end
  end.

End WithLib.
End Rewriter.

(** ** Platform stripper: the Framer variant
    ([FramerSpider.remove_platform_badge]) *)
Module Framer.
Import Py Soup.

Definition nl : string := String (ascii_of_nat 10) EmptyString.
Definition dq : string := String (ascii_of_nat 34) EmptyString.

(** [css_to_inject], line by line *)
Definition css_to_inject : string :=
  ("" +:+ nl) +:+
  ("        <style>" +:+ nl) +:+
  ("        #__framer-badge-container { display: none !important; }" +:+ nl) +:+
  ("        [data-framer-name=" +:+ dq +:+ "Made with Framer" +:+ dq +:+ "] { display: none !important; }" +:+ nl) +:+
  ("        .framer-badge { display: none !important; }" +:+ nl) +:+
  ("        a[href*=" +:+ dq +:+ "framer.com" +:+ dq +:+ "][target=" +:+ dq +:+ "_blank" +:+ dq +:+ "] { display: none !important; }" +:+ nl) +:+
  ("        /* Target the " +:+ dq +:+ "Edit template" +:+ dq +:+ " badge specifically */" +:+ nl) +:+
  ("        a[href*=" +:+ dq +:+ "framer.com/templates" +:+ dq +:+ "] { display: none !important; }" +:+ nl) +:+
  ("        [data-framer-name*=" +:+ dq +:+ "Edit template" +:+ dq +:+ "] { display: none !important; }" +:+ nl) +:+
  ("        [class*=" +:+ dq +:+ "edit-template" +:+ dq +:+ "] { display: none !important; }" +:+ nl) +:+
  ("        [class*=" +:+ dq +:+ "template-badge" +:+ dq +:+ "] { display: none !important; }" +:+ nl) +:+
  ("        button:contains(" +:+ dq +:+ "Edit template" +:+ dq +:+ ") { display: none !important; }" +:+ nl) +:+
  ("        div:has(a[href*=" +:+ dq +:+ "templates" +:+ dq +:+ "]) { display: none !important; }" +:+ nl) +:+
  ("        </style>" +:+ nl) +:+
  ("        ").


(** The three placements of the style block. *)
Definition inject_css (html_content : string) : string :=
  if contains "</head>" html_content
  then replace "</head>" (css_to_inject +:+ "</head>") html_content
  else if contains "<body>" html_content
  then replace "<body>" ("<body>" +:+ css_to_inject) html_content
  else css_to_inject +:+ html_content.

(** [soup.find_all('div', selector)] for the five entries of
    [badge_selectors].  The dictionary is passed as [attrs]; the second
    entry therefore asks for an attribute named [attrs] whose value is one
    of the keys of the inner dictionary. *)
Definition badge_selectors : list (list (string * string) -> bool) :=
  [ (fun attrs => match get_attr "id" attrs with
                  | Some v => String.eqb v "__framer-badge-container"
                  | None => false
                  end);
    (fun attrs => match get_attr "attrs" attrs with
                  | Some v => String.eqb v "data-framer-name"
                  | None => false
                  end);
    has_class "framer-badge";
    has_class "edit-template";
    has_class "template-badge" ].

Definition matches_selector (sel : list (string * string) -> bool) (n : node) : bool :=
  is_element ["div"] n && sel (attrs_of n).

(** The test of the second loop. *)
Definition is_edit_template_badge (n : node) : bool :=
  is_element ["a"; "button"; "div"; "span"] n
  && (let element_text := lower (get_text_strip n) in
      contains "edit template" element_text && (String.length element_text <? 50)).

Definition framer_keywords : list string :=
  ["made"; "framer"; "built"; "edit"; "template"; "free"].

(** The test of the third loop, on the links found with
    [href=lambda x: x and 'framer.com' in x]. *)
Definition is_framer_link (n : node) : bool :=
  is_element ["a"] n
  && match get_attr "href" (attrs_of n) with
     | Some x => PathMapper.nonempty x && contains "framer.com" x
     | None => false
     end
  && (let link_text := lower (get_text n) in
      existsb (fun keyword => contains keyword link_text) framer_keywords).


(** The three removal loops on the parsed document. *)
Definition strip_badges (s : soup) : soup :=
  let s := fold_left (fun s sel => prune_all (matches_selector sel) s) badge_selectors s in
  let s := prune_all is_edit_template_badge s in
  prune_all is_framer_link s.

Section WithLib.
Context `{SoupLib}.

(** [remove_platform_badge]; [None] when the parser raises. *)
Definition remove_platform_badge (html_content : string) : option string :=
  match soup_parse (inject_css html_content) with
  | None => None
  | Some soup => Some (soup_str (strip_badges soup))
  end.

End WithLib.
End Framer.

(** ** Documents for the examples

    A serialiser for simple documents and a parser given as a table of the
    documents the examples use; text without a tag parses to one string. *)
Module ExampleSoup.
Import Py Soup.

Definition render_attr (kv : string * string) : string :=
  " " +:+ fst kv +:+ "=" +:+ Framer.dq +:+ snd kv +:+ Framer.dq.

Fixpoint render (n : node) : string :=
  match n with
  | Text s | Raw s => s
  | Element name attrs children =>
      "<" +:+ name +:+ fold_right (fun kv acc => render_attr kv +:+ acc) "" attrs +:+ ">"
      +:+ fold_right (fun c acc => render c +:+ acc) "" children
      +:+ "</" +:+ name +:+ ">"
  end.

Definition render_all (s : soup) : string :=
  fold_right (fun c acc => render c +:+ acc) "" s.

(** The two links of the page used for [process_html_content], after the
    textual substitutions. *)
Definition two_links_markup : string :=
  "<a href='./x'>x</a><a href='http://[bad'>y</a>".

Definition two_links : soup :=
  [ Element "a" [("href", "./x")] [Text "x"];
    Element "a" [("href", "http://[bad")] [Text "y"] ].

(** The content of the injected [style] element. *)
Definition css_rules : string :=
  substring 16 (String.length Framer.css_to_inject - 33) Framer.css_to_inject.

(** The parser keeps of a string of white space between tags its line
    feed only. *)
Definition injected_style : soup :=
  [ Text Framer.nl;
    Element "style" [] [Raw css_rules];
    Text Framer.nl ].

(** A page without [head] and [body]: a badge and a paragraph of 66
    characters that mentions the platform. *)
Definition badge_markup : string :=
  "<div class='framer-badge'>Made in Framer</div>"
  +:+ "<p>We moved our whole site to framer last year and never looked back.</p>".

Definition badge_page : soup :=
  [ Element "div" [("class", "framer-badge")] [Text "Made in Framer"];
    Element "p" []
      [Text "We moved our whole site to framer last year and never looked back."] ].

(** The same badge as a [span]. *)
Definition span_markup : string := "<span class='framer-badge'>Made in Framer</span>".

Definition span_page : soup :=
  [ Element "span" [("class", "framer-badge")] [Text "Made in Framer"] ].

(** A start page with three links, two of them to the same page. *)
Definition home_markup : string :=
  "<a href='/a'>A</a><a href='/b'>B</a><a href='/a#top'>again</a>".

Definition home_page : soup :=
  [ Element "a" [("href", "/a")] [Text "A"];
    Element "a" [("href", "/b")] [Text "B"];
    Element "a" [("href", "/a#top")] [Text "again"] ].

Definition documents : list (string * soup) :=
  [ (two_links_markup, two_links);
    (home_markup, home_page);
    (Framer.css_to_inject +:+ badge_markup, injected_style ++ badge_page);
    (Framer.css_to_inject +:+ span_markup, injected_style ++ span_page) ].

Fixpoint lookup_document (markup : string) (table : list (string * soup)) : option soup :=
  match table with
  | [] => None
  | (m, d) :: rest => if String.eqb m markup then Some d else lookup_document markup rest
  end.

Definition example_soup : SoupLib := {|
  soup_parse := fun markup =>
    match lookup_document markup documents with
    | Some d => Some d
    | None => if has_char "<" markup then None else Some [Text markup]
    end;
  soup_str := render_all;
  findall_font_urls := fun _ => []
|}.

End ExampleSoup.

(** ** The world outside the crawler

    The network answers a GET by a response or by one of the exceptions the
    crawler names; the file system accepts or refuses a directory or a
    file.  Both are parameters.  The events are a record of what the
    crawler asks of them, kept next to its own state. *)
Inductive http_result : Type :=
| Response (status : nat) (content_type : string) (body : string)
| TimeoutError
| ClientError.

Class World := {
  http_get : string -> http_result;
  makedirs_ok : string -> bool;
  write_ok : string -> bool
}.

Inductive event : Type :=
| PageGet (url : string)
| AssetGet (url : string)
| Visit (url : string) (depth : nat)
| Follow (parent child : string)
| MakeDirs (path : string)
| WriteFile (path : string)
| RemoveTree (path : string).

(** What a trace says about the crawl: the pages requested, the links
    followed from a page, the depths at which pages were entered; the
    other events are [quiet]. *)
Definition page_gets (tr : list event) : list string :=
  flat_map (fun e => match e with PageGet u => [u] | _ => [] end) tr.

Definition follows (parent : string) (tr : list event) : list string :=
  flat_map (fun e => match e with
                     | Follow p c => if String.eqb p parent then [c] else []
                     | _ => []
                     end) tr.

Definition visits (tr : list event) : list (string * nat) :=
  flat_map (fun e => match e with Visit u d => [(u, d)] | _ => [] end) tr.

Definition asset_gets (tr : list event) : list string :=
  flat_map (fun e => match e with AssetGet u => [u] | _ => [] end) tr.

Definition quiet (e : event) : bool :=
  match e with
  | PageGet _ | Visit _ _ | Follow _ _ => false
  | _ => true
  end.

(** [for x in l: body(x)] over a state, where the body can run out of
    fuel. *)
Fixpoint for_each {A S : Type} (body : A -> S -> option S) (l : list A) (st : S)
  : option S :=
  match l with
  | [] => Some st
  | x :: l' =>
      match body x st with
      | Some st' => for_each body l' st'
      | None => None
      end
  end.

(** ** Page crawler ([BaseSiteSpider]) *)
Module BaseSiteSpider.
Import Py UrlParse PathMapper Soup Rewriter.

(** The fields set by [__init__] and never assigned again. *)
Record config : Type := {
  start_url : string;
  output_dir : string;
  scrape_mode : string;
  selected_pages : option (gset string);
  base_domain : string
}.

Record page_info : Type := {
  page_url : string;
  page_title : string;
  page_path : string
}.

(** The mutable fields, with the files written and the events so far. *)
Record state : Type := {
  visited_pages : gset string;
  assets : gset string;
  page_mapping : gmap string string;
  discovered_pages : list page_info;
  files : gmap string string;
  trace : list event
}.

Definition set_visited_pages (v : gset string) (st : state) : state :=
  {| visited_pages := v; assets := assets st; page_mapping := page_mapping st;
     discovered_pages := discovered_pages st; files := files st; trace := trace st |}.

Definition set_assets (a : gset string) (st : state) : state :=
  {| visited_pages := visited_pages st; assets := a; page_mapping := page_mapping st;
     discovered_pages := discovered_pages st; files := files st; trace := trace st |}.

Definition set_page_mapping (m : gmap string string) (st : state) : state :=
  {| visited_pages := visited_pages st; assets := assets st; page_mapping := m;
     discovered_pages := discovered_pages st; files := files st; trace := trace st |}.

Definition set_discovered_pages (d : list page_info) (st : state) : state :=
  {| visited_pages := visited_pages st; assets := assets st;
     page_mapping := page_mapping st; discovered_pages := d; files := files st;
     trace := trace st |}.

Definition set_files (f : gmap string string) (st : state) : state :=
  {| visited_pages := visited_pages st; assets := assets st;
     page_mapping := page_mapping st; discovered_pages := discovered_pages st;
     files := f; trace := trace st |}.

Definition log (e : event) (st : state) : state :=
  {| visited_pages := visited_pages st; assets := assets st;
     page_mapping := page_mapping st; discovered_pages := discovered_pages st;
     files := files st; trace := trace st ++ [e] |}.

(** The capability a platform variant provides; [None] is an exception
    (the base class raises [NotImplementedError]). *)
Record platform : Type := {
  remove_platform_badge : string -> option string;
  get_platform_name : option string
}.

(** Truth value of [self.selected_pages]: [None] and the empty set are
    false. *)
Definition has_selection (cfg : config) : bool :=
  match selected_pages cfg with
  | Some s => bool_decide (s ≠ ∅)
  | None => false
  end.

Definition in_selection (url : string) (cfg : config) : bool :=
  match selected_pages cfg with
  | Some s => bool_decide (url ∈ s)
  | None => false
  end.

Definition initial_state : state :=
  {| visited_pages := ∅; assets := ∅; page_mapping := ∅; discovered_pages := [];
     files := ∅; trace := [] |}.

(** [os.path.join(a, b)] *)
Definition path_join (a b : string) : string :=
  if startswith "/" b then b
  else if negb (nonempty a) || endswith "/" a then a +:+ b
  else a +:+ "/" +:+ b.

(** [str.title]: a character that follows a cased character is lowered,
    any other is put in title case.  The cased characters of the model are
    the letters of either half, the micro sign (181) and the two ordinal
    indicators (170, 186).  The title form of the sharp s (223) is the two
    letters [Ss]; the title forms of the micro sign and of the y with
    diaeresis (255) lie outside the alphabet of the model, and these two
    are left as they are. *)
Definition is_cased (c : ascii) : bool :=
  is_alpha c || is_upper_latin c || is_lower_latin c
  || (code c =? 170) || (code c =? 181) || (code c =? 186).

Definition upper_char (c : ascii) : ascii :=
  if is_lower c then ascii_of_nat (code c - 32) else c.

Definition title_char (c : ascii) : string :=
  if code c =? 223 then "Ss"
  else if is_lower_latin c && negb (code c =? 255)
  then String (ascii_of_nat (code c - 32)) EmptyString
  else String (upper_char c) EmptyString.

Fixpoint title_from (after_cased : bool) (s : string) : string :=
  match s with
  | EmptyString => EmptyString
  | String a s' =>
      (if after_cased then String (lower_char a) EmptyString else title_char a)
      +:+ title_from (is_cased a) s'
  end.

Definition title_case (s : string) : string := title_from false s.

(** [s.replace(c, d)] for single characters *)
Fixpoint replace_char (c d : ascii) (s : string) : string :=
  match s with
  | EmptyString => EmptyString
  | String a s' => String (if Ascii.eqb a c then d else a) (replace_char c d s')
  end.

(** The first element with a given tag name ([soup.find(name)]). *)
Definition find_first (name : string) (s : soup) : option node :=
  List.head (find_all_in (is_element [name]) s).

Section WithWorld.
Context `{UrlLib} `{SoupLib} `{World}.
Variable variant : platform.
Variable cfg : config.

(** [__init__]; [urlparse(url)] can raise. *)
Definition new_config (url output_dir scrape_mode : string)
    (selected : option (list string)) : option config :=
  match urlparse url with
  | None => None
  | Some parsed =>
      Some {| start_url := url; output_dir := output_dir; scrape_mode := scrape_mode;
              selected_pages :=
                match selected with
                | Some (x :: l) => Some (list_to_set (x :: l))
                | _ => None
                end;
              base_domain := netloc parsed |}
  end.

Definition get_page_name_from_url (url : string) : string :=
  match urlparse url with
  | None => "Page"
  | Some parsed =>
      let p := strip is_slash (path parsed) in
      if negb (nonempty p) then "Home"
      else
        let last_segment := List.last (split "/" p) "Page" in
        title_case (replace_char "_" " " (replace_char "-" " " last_segment))
  end.

(** The list [internal_links] built from the links of a page; [skip] is
    the extra test of [discover_page_links] ([clean_url != url]).  [None]
    when [urljoin] raises. *)
Fixpoint collect_links (base_url : string) (skip : string -> bool)
    (hrefs : list string) (internal_links : list string) : option (list string) :=
  match hrefs with
  | [] => Some internal_links
  | href :: rest =>
      if is_internal_link href base_url then
        match urljoin base_url href with
        | None => None
        | Some full_url =>
            let clean_url := strip_fragment_query full_url in
            if mem clean_url internal_links || skip clean_url
            then collect_links base_url skip rest internal_links
            else collect_links base_url skip rest (internal_links ++ [clean_url])
        end
      else collect_links base_url skip rest internal_links
  end.

(** The URL requested for a reference; [None] when [urljoin] raises. *)
Definition asset_full_url (asset_url base_url : string) : option string :=
  if startswith "//" asset_url then Some ("https:" +:+ asset_url)
  else if startswith "/" asset_url
  then Some ("https://" +:+ base_domain cfg +:+ asset_url)
  else if startswith "http" asset_url then Some asset_url
  else urljoin base_url asset_url.

(** [download_asset]: every exception is caught; nothing is returned. *)
Definition download_asset (asset_url base_url : string) (st : state) : state :=
  match asset_full_url asset_url base_url with
  | None => st
  | Some full_url =>
      let st := log (AssetGet full_url) st in
      match http_get full_url with
      | Response status _ content =>
          if status =? 200 then
            let local_path :=
              if startswith "//" asset_url then Some (drop 2 asset_url)
              else if startswith "/" asset_url then Some (drop 1 asset_url)
              else if startswith "http" asset_url then
                match urlparse asset_url with
                | Some parsed => Some (netloc parsed +:+ path parsed)
                | None => None
                end
              else Some asset_url in
            match local_path with
            | None => st
            | Some local_path =>
                let full_local_path := path_join (output_dir cfg) local_path in
                if makedirs_ok (dirname full_local_path) then
                  let st := log (MakeDirs (dirname full_local_path)) st in
                  if write_ok full_local_path then
                    log (WriteFile full_local_path)
                      (set_files (<[full_local_path := content]> (files st)) st)
                  else st
                else st
            end
          else st
      | TimeoutError | ClientError => st
      end
  end.

(** The references collected by [download_assets], in the order
    stylesheets, scripts, images, fonts. *)
Definition page_assets (soup : Soup.soup) : list string :=
  let attr_of (key : string) (n : node) : list string :=
    match get_attr key (attrs_of n) with Some v => [v] | None => [] end in
  let css_links :=
    List.filter nonempty
      (flat_map (attr_of "href")
         (find_all_in (fun n => is_element ["link"] n
                                && match get_attr "rel" (attrs_of n) with
                                   | Some v => mem "stylesheet" (words v)
                                               || String.eqb (join " " (words v)) "stylesheet"
                                   | None => false
                                   end) soup)) in
  let js_links := flat_map (attr_of "src") (find_all_in (is_element ["script"]) soup) in
  let img_links := flat_map (attr_of "src") (find_all_in (is_element ["img"]) soup) in
  let font_urls :=
    flat_map (fun style => match node_string style with
                           | Some css => if nonempty css then findall_font_urls css else []
                           | None => []
                           end)
      (find_all_in (is_element ["style"]) soup) in
  css_links ++ js_links ++ img_links ++ font_urls.

Definition download_assets (soup : Soup.soup) (base_url : string) (st : state) : state :=
  fold_left
    (fun st asset_url =>
       if nonempty asset_url && negb (bool_decide (asset_url ∈ assets st))
       then download_asset asset_url base_url
              (set_assets ({[asset_url]} ∪ assets st) st)
       else st)
    (page_assets soup) st.

(** The loop that ends [scrape_internal_links] and [discover_page_links]:
    [for link_url in links: if link_url not in self.visited_pages:
    await visit(link_url)]. *)
Definition follow_links (visit : string -> state -> option state) (url : string)
    (links : list string) (st : state) : option state :=
  for_each
    (fun link_url st =>
       if bool_decide (link_url ∈ visited_pages st) then Some st
       else visit link_url (log (Follow url link_url) st))
    links st.

(** The four tests that open [scrape_page]. *)
Definition blocked (url : string) (st : state) : bool :=
  bool_decide (url ∈ visited_pages st)
  || (String.eqb (scrape_mode cfg) "single_page" && negb (String.eqb url (start_url cfg)))
  || (has_selection cfg && negb (in_selection url cfg))
  || (150 <=? size (visited_pages st)).

(** [scrape_page], with [scrape_internal_links] inlined as its last step.
    [None] only when the fuel is used up. *)
Fixpoint scrape_page (fuel : nat) (url : string) (st : state) : option state :=
  match fuel with
  | O => None
  | S fuel' =>
      if blocked url st then Some st
      else
        let st := set_visited_pages ({[url]} ∪ visited_pages st) st in
        let st := log (PageGet url) st in
        match http_get url with
        | TimeoutError | ClientError => Some st
        | Response status _ html_content =>
            if negb (status =? 200) then Some st
            else
              match soup_parse html_content with
              | None => Some st
              | Some soup =>
                  let relative_path := get_clean_path url in
                  let full_file_path := path_join (output_dir cfg) relative_path in
                  if negb (makedirs_ok (dirname full_file_path)) then Some st
                  else
                    let st := log (MakeDirs (dirname full_file_path)) st in
                    let st := set_page_mapping (<[url := relative_path]> (page_mapping st)) st in
                    let processed_html := process_html_content html_content url in
                    match remove_platform_badge variant processed_html with
                    | None => Some st
                    | Some processed_html =>
                        if negb (write_ok full_file_path) then Some st
                        else
                          let st := log (WriteFile full_file_path)
                                      (set_files (<[full_file_path := processed_html]> (files st)) st) in
                          match get_platform_name variant with
                          | None => Some st
                          | Some _ =>
                              let st := download_assets soup url st in
                              if String.eqb (scrape_mode cfg) "multi_page"
                                 && negb (has_selection cfg)
                              then
                                (* scrape_internal_links *)
                                match collect_links url (fun _ => false) (anchor_hrefs soup) [] with
                                | None => Some st
                                | Some internal_links =>
                                    follow_links (scrape_page fuel') url internal_links st
                                end
                              else Some st
                          end
                    end
              end
        end
  end.

(** [scrape]: a set is iterated in some order, here the order of
    [elements]. *)
Definition scrape (fuel : nat) (st : state) : option state :=
  if String.eqb (scrape_mode cfg) "single_page" then scrape_page fuel (start_url cfg) st
  else if has_selection cfg then
    match selected_pages cfg with
    | Some s => for_each (scrape_page fuel) (elements s) st
    | None => Some st
    end
  else scrape_page fuel (start_url cfg) st.

(** [discover_page_links] *)
Fixpoint discover_page_links (fuel : nat) (url : string) (depth : nat) (st : state)
  : option state :=
  match fuel with
  | O => None
  | S fuel' =>
      if bool_decide (url ∈ visited_pages st) || (3 <? depth) then Some st
      else
        let st := set_visited_pages ({[url]} ∪ visited_pages st) st in
        let st := log (PageGet url) (log (Visit url depth) st) in
        match http_get url with
        | TimeoutError | ClientError => Some st
        | Response status _ html_content =>
            if negb (status =? 200) then Some st
            else
              match soup_parse html_content with
              | None => Some st
              | Some soup =>
                  let title :=
                    match find_first "title" soup with
                    | Some title_tag => strip is_space (get_text title_tag)
                    | None => get_page_name_from_url url
                    end in
                  let st := set_discovered_pages
                              (discovered_pages st
                               ++ [{| page_url := url; page_title := title;
                                      page_path := get_clean_path url |}]) st in
                  match collect_links url (String.eqb url) (anchor_hrefs soup) [] with
                  | None => Some st
                  | Some internal_links =>
                      follow_links
                        (fun link_url => discover_page_links fuel' link_url (depth + 1))
                        url (firstn 10 internal_links) st
                  end
              end
        end
  end.

(** [discover_pages] *)
Definition discover_pages (fuel : nat) (st : state) : option (list page_info * state) :=
  match discover_page_links fuel (start_url cfg) 0 st with
  | Some st' => Some (discovered_pages st', st')
  | None => None
  end.

End WithWorld.

(** The Framer variant of the capability. *)
Definition framer `{SoupLib} : platform :=
  {| remove_platform_badge := Framer.remove_platform_badge;
     get_platform_name := Some "Framer" |}.

End BaseSiteSpider.

(** ** A site for the examples

    The start page answers with [ExampleSoup.home_markup]; [/a] is a page
    of plain text, the request of [/b] times out, every other URL is
    answered by a 404.  The file system accepts everything. *)
Module ExampleWorld.
Import BaseSiteSpider.

Definition site : World := {|
  http_get := fun url =>
    if String.eqb url "https://example.com/"
    then Response 200 "text/html" ExampleSoup.home_markup
    else if String.eqb url "https://example.com/a"
    then Response 200 "text/html" "page a"
    else if String.eqb url "https://example.com/b" then TimeoutError
    else Response 404 "text/html" "";
  makedirs_ok := fun _ => true;
  write_ok := fun _ => true
|}.

(** A variant that leaves the page as it is. *)
Definition plain : platform :=
  {| remove_platform_badge := fun html => Some html;
     get_platform_name := Some "Plain" |}.

Definition mirror_job : config :=
  {| start_url := "https://example.com/"; output_dir := "app/static/job";
     scrape_mode := "multi_page"; selected_pages := None;
     base_domain := "example.com" |}.

(** A selection of 26 pages. *)
Definition selection_26 : list string :=
  [ "https://example.com/p01";
    "https://example.com/p02";
    "https://example.com/p03";
    "https://example.com/p04";
    "https://example.com/p05";
    "https://example.com/p06";
    "https://example.com/p07";
    "https://example.com/p08";
    "https://example.com/p09";
    "https://example.com/p10";
    "https://example.com/p11";
    "https://example.com/p12";
    "https://example.com/p13";
    "https://example.com/p14";
    "https://example.com/p15";
    "https://example.com/p16";
    "https://example.com/p17";
    "https://example.com/p18";
    "https://example.com/p19";
    "https://example.com/p20";
    "https://example.com/p21";
    "https://example.com/p22";
    "https://example.com/p23";
    "https://example.com/p24";
    "https://example.com/p25";
    "https://example.com/p26" ].

(** The start page alone. *)
Definition single_job : config :=
  {| start_url := "https://example.com/"; output_dir := "app/static/job";
     scrape_mode := "single_page"; selected_pages := None;
     base_domain := "example.com" |}.

Definition selected_job : config :=
  {| start_url := "https://example.com/"; output_dir := "app/static/job";
     scrape_mode := "multi_page";
     selected_pages := Some (list_to_set selection_26);
     base_domain := "example.com" |}.

End ExampleWorld.
(** ** General scraper ([GeneralScraper], [src/services/general_scraper.py])

    The MD5 digest is a parameter: [md5_hex8 url] is
    [hashlib.md5(url.encode()).hexdigest()[:8]]. *)
Class GeneralLib := {
  md5_hex8 : string -> string
}.

Module GeneralScraper.
Import Py UrlParse Soup.

Record state : Type := {
  downloaded_files : gmap string string;
  files : gmap string string;
  trace : list event
}.

Definition initial_state : state :=
  {| downloaded_files := ∅; files := ∅; trace := [] |}.

Definition log (e : event) (st : state) : state :=
  {| downloaded_files := downloaded_files st; files := files st;
     trace := trace st ++ [e] |}.

Definition set_files (f : gmap string string) (st : state) : state :=
  {| downloaded_files := downloaded_files st; files := f; trace := trace st |}.

Definition set_downloaded_files (d : gmap string string) (st : state) : state :=
  {| downloaded_files := d; files := files st; trace := trace st |}.

(** [s[:n]] *)
Fixpoint take (n : nat) (s : string) : string :=
  match n, s with
  | S k, String a s' => String a (take k s')
  | _, _ => EmptyString
  end.

(** [s[:-1]] *)
Fixpoint init (s : string) : string :=
  match s with
  | EmptyString => EmptyString
  | String a EmptyString => EmptyString
  | String a s' => String a (init s')
  end.

(** [os.path.splitext]: the extension starts at the last dot of the last
    component, unless only dots precede it there. *)
Definition splitext (p : string) : string * string :=
  let (dir, base) := rcut "/" p in
  match rcut "." base with
  | (EmptyString, _) => (p, EmptyString)
  | (h, t) =>
      let root := init h in
      if all_chars (fun c => Ascii.eqb c ".") root then (p, EmptyString)
      else (dir +:+ root, "." +:+ t)
  end.

(** The [re.sub] of [clean_filename] followed by [s.replace(' ', '_')]: the
    characters < > : / | ? *, the double quote, the backslash and the space
    all become an underscore. *)
Definition unsafe_filename_char (c : ascii) : bool :=
  has_char c "<>:/|?* " || (code c =? 34) || (code c =? 92).

Fixpoint sanitize (s : string) : string :=
  match s with
  | EmptyString => EmptyString
  | String a s' => String (if unsafe_filename_char a then "_"%char else a) (sanitize s')
  end.

Definition clean_filename (filename : string) : string :=
  let (name, ext) := splitext (sanitize filename) in
  (if 50 <? String.length name then take 50 name else name) +:+ ext.

Definition image_exts : list string := [".png"; ".jpg"; ".jpeg"; ".gif"; ".svg"; ".webp"].

Definition valid_exts : list string :=
  ["css"; "js"; "mjs"; "png"; "jpg"; "jpeg"; "gif"; "svg"; "ico";
   "woff"; "woff2"; "ttf"; "eot"; "otf"; "webp"; "avif"].

Definition content_map : list (string * string) :=
  [("text/css", ".css"); ("application/javascript", ".js"); ("text/javascript", ".js");
   ("application/x-javascript", ".js"); ("image/png", ".png"); ("image/jpeg", ".jpg");
   ("image/jpg", ".jpg"); ("image/gif", ".gif"); ("image/svg+xml", ".svg");
   ("image/webp", ".webp"); ("image/x-icon", ".ico"); ("font/woff", ".woff");
   ("font/woff2", ".woff2"); ("font/ttf", ".ttf"); ("font/otf", ".otf");
   ("application/font-woff", ".woff"); ("application/font-woff2", ".woff2");
   ("application/x-font-ttf", ".ttf"); ("application/x-font-otf", ".otf")].

Section WithWorld.
Context `{UrlLib} `{SoupLib} `{World} `{GeneralLib}.

(** [get_file_extension]; [None] when [urlparse] raises. *)
Definition get_file_extension (url content_type : string) : option string :=
  match urlparse url with
  | None => None
  | Some parsed =>
      let p := path parsed in
      let from_path :=
        if has_char "." p then
          let ext := before "?" (lower (List.last (split "." p) EmptyString)) in
          if mem ext valid_exts then Some ("." +:+ ext) else None
        else None in
      match from_path with
      | Some e => Some e
      | None =>
          if PathMapper.nonempty content_type then
            Some (match get_attr (strip is_space (before ";" content_type)) content_map with
                  | Some e => e
                  | None => EmptyString
                  end)
          else Some EmptyString
      end
  end.

(** [url_to_filename]; [None] when [urlparse] raises. *)
Definition url_to_filename (url : string) : option string :=
  match urlparse url with
  | None => None
  | Some parsed =>
      let p := path parsed in
      let filename :=
        if PathMapper.nonempty p && negb (String.eqb p "/") then
          let f := List.last (split "/" p) EmptyString in
          if PathMapper.nonempty f then f else "index"
        else "index" in
      let low := lower url in
      let filename :=
        if negb (has_char "." filename) then
          if contains "css" low then filename +:+ ".css"
          else if contains "js" low || contains "javascript" low then filename +:+ ".js"
          else match List.find (fun e => contains e low) image_exts with
               | Some e => filename +:+ e
               | None => filename
               end
        else filename in
      let (name, ext) := splitext filename in
      Some (clean_filename name +:+ "_" +:+ md5_hex8 url +:+ ext)
  end.

(** The stored relative path of a resource (the name and the folder
    chosen in [download_resource]). *)
Definition resource_path (url content_type subfolder : string) : option string :=
  match get_file_extension url content_type, url_to_filename url with
  | Some ext, Some filename =>
      let filename :=
        if negb (existsb (fun e => endswith e filename)
                   [".css"; ".js"; ".mjs"; ".png"; ".jpg"; ".jpeg"; ".gif"; ".svg";
                    ".ico"; ".woff"; ".woff2"; ".ttf"; ".eot"; ".otf"; ".webp"])
           && PathMapper.nonempty ext
        then filename +:+ ext else filename in
      Some
        (if existsb (fun e => endswith e filename) [".woff"; ".woff2"; ".ttf"; ".eot"; ".otf"]
         then "fonts/" +:+ filename
         else if endswith ".css" filename then "css/" +:+ filename
         else if existsb (fun e => endswith e filename) [".js"; ".mjs"]
         then "js/" +:+ filename
         else if existsb (fun e => endswith e filename)
                   [".png"; ".jpg"; ".jpeg"; ".gif"; ".svg"; ".ico"; ".webp"; ".avif"]
         then "images/" +:+ filename
         else subfolder +:+ "/" +:+ filename)
  | _, _ => None
  end.

(** [download_resource]: every exception is caught and gives back the
    URL. *)
Definition download_resource (url base_path subfolder : string) (st : state)
  : string * state :=
  match downloaded_files st !! url with
  | Some cached => (cached, st)
  | None =>
      if startswith "data:" url then (url, st)
      else
        let st := log (AssetGet url) st in
        match http_get url with
        | TimeoutError | ClientError => (url, st)
        | Response status content_type content =>
            if negb (status =? 200) then (url, st)
            else
              match resource_path url content_type subfolder with
              | None => (url, st)
              | Some relative_path =>
                  let file_path := BaseSiteSpider.path_join base_path relative_path in
                  if negb (makedirs_ok (PathMapper.dirname file_path)) then (url, st)
                  else
                    let st := log (MakeDirs (PathMapper.dirname file_path)) st in
                    if negb (write_ok file_path) then (url, st)
                    else
                      let st := log (WriteFile file_path)
                                  (set_files (<[file_path := content]> (files st)) st) in
                      (relative_path,
                       set_downloaded_files
                         (<[url := relative_path]> (downloaded_files st)) st)
              end
        end
  end.

(** A run of calls, one after the other, with the default subfolder, as
    the loops of [scrape_page] over scripts and images make them. *)
Fixpoint download_all (urls : list string) (base_path : string) (st : state)
  : list string * state :=
  match urls with
  | [] => ([], st)
  | url :: rest =>
      let (p, st) := download_resource url base_path "assets" st in
      let (ps, st) := download_all rest base_path st in
      (p :: ps, st)
  end.

Record page : Type := { page_url : string; page_title : string; page_path : string }.

(** [is_same_domain]; [None] when [urlparse] raises. *)
Definition is_same_domain (base_domain url : string) : option bool :=
  if negb (PathMapper.nonempty base_domain) then Some true
  else
    match urlparse url with
    | None => None
    | Some parsed =>
        Some (String.eqb (netloc parsed) base_domain
              || endswith ("." +:+ base_domain) (netloc parsed))
    end.

(** The loop over the links of a discovered page: it appends to
    [to_visit], and stops where an exception is raised. *)
Fixpoint add_links (base_domain url : string) (hrefs : list string)
    (visited : gset string) (to_visit : list string) : list string :=
  match hrefs with
  | [] => to_visit
  | href :: rest =>
      match urljoin url href with
      | None => to_visit
      | Some absolute_url =>
          match is_same_domain base_domain absolute_url with
          | None => to_visit
          | Some same =>
              if same
                 && negb (bool_decide (absolute_url ∈ visited))
                 && negb (mem absolute_url to_visit)
                 && negb (existsb (fun ext => contains ext (lower absolute_url))
                            [".pdf"; ".doc"; ".zip"; ".exe"])
                 && negb (has_char "#" absolute_url)
              then add_links base_domain url rest visited (to_visit ++ [absolute_url])
              else add_links base_domain url rest visited to_visit
          end
      end
  end.

(** The [while] loop of [discover_pages]; [None] when the fuel is used
    up. *)
Fixpoint discover_loop (fuel : nat) (base_domain : string) (to_visit : list string)
    (visited : gset string) (pages : list page) (st : state)
  : option (list page * state) :=
  match fuel with
  | O => None
  | S fuel' =>
      match to_visit with
      | [] => Some (pages, st)
      | url :: rest =>
          if 100 <=? length pages then Some (pages, st)
          else if bool_decide (url ∈ visited)
          then discover_loop fuel' base_domain rest visited pages st
          else
            let visited := {[url]} ∪ visited in
            let st := log (PageGet url) st in
            match http_get url with
            | TimeoutError | ClientError =>
                discover_loop fuel' base_domain rest visited pages st
            | Response status content_type content =>
                if negb (status =? 200) || negb (contains "text/html" content_type)
                then discover_loop fuel' base_domain rest visited pages st
                else
                  match soup_parse content, urlparse url with
                  | Some soup, Some parsed =>
                      let title_text :=
                        match BaseSiteSpider.find_first "title" soup with
                        | Some title => strip is_space (get_text title)
                        | None => path parsed
                        end in
                      let pages :=
                        pages ++ [{| page_url := url; page_title := title_text;
                                     page_path := if PathMapper.nonempty (path parsed)
                                                  then path parsed else "/" |}] in
                      discover_loop fuel' base_domain
                        (add_links base_domain url (anchor_hrefs soup) visited rest)
                        visited pages st
                  | _, _ => discover_loop fuel' base_domain rest visited pages st
                  end
            end
      end
  end.

(** [discover_pages]; the inner [None] is the [ValueError] of
    [urlparse(start_url)], which the function does not catch. *)
Definition discover_pages (fuel : nat) (start_url : string) (st : state)
  : option (option (list page) * state) :=
  match urlparse start_url with
  | None => Some (None, st)
  | Some parsed_start =>
      match discover_loop fuel (netloc parsed_start) [start_url] ∅ [] st with
      | Some (pages, st) => Some (Some pages, st)
      | None => None
      end
  end.

Inductive message : Type :=
| MaximumPagesAllowed           (* 'Maximum 25 pages allowed for multi-page scraping' *)
| SuccessfullyScraped (n : nat) (* f'Successfully scraped {n} page(s)' *)
| ScrapingFailed.               (* f'Scraping failed: {str(e)}' *)

Record site_result : Type := {
  success : bool;
  result_message : message;
  result_file_path : option string
}.

Definition failure (m : message) : site_result :=
  {| success := false; result_message := m; result_file_path := None |}.

Section Site.

(** [scrape_page url base_path page_name]: the page is requested,
    rewritten and written, and its resources are downloaded on the way.
    Its body is not part of the model; what [scrape_site] relies on is that
    it gives the name of the file it wrote or raises ([None]). *)
Variable scrape_page : string -> string -> string -> state -> option string * state.

(** The loop over [pages_to_scrape]: an exception of [scrape_page] is
    logged and the loop goes on. *)
Fixpoint scrape_pages (urls : list string) (i total : nat) (output_dir : string)
    (scraped_files : list string) (st : state) : list string * state :=
  match urls with
  | [] => (scraped_files, st)
  | url :: rest =>
      let page_name :=
        if i =? 0 then "index"
        else if 1 <? total then "page_" +:+ pretty (i + 1) else "index" in
      match scrape_page url output_dir page_name st with
      | (Some html_file, st) =>
          scrape_pages rest (i + 1) total output_dir (scraped_files ++ [html_file]) st
      | (None, st) => scrape_pages rest (i + 1) total output_dir scraped_files st
      end
  end.

(** The choice of [pages_to_scrape].  [TooManyPages] is the early return
    for a selection of more than 25 pages, [SelectionRaised] an exception
    of [urlparse] on one of the selected pages (their paths are computed
    when the list is built), [DiscoveryRaised] an exception of
    [discover_pages]; [None] when the discovery runs out of fuel. *)
Inductive chosen_pages : Type :=
| TooManyPages
| SelectionRaised
| DiscoveryRaised
| PagesToScrape (urls : list string).

Definition parses (page_url : string) : bool :=
  match urlparse page_url with Some _ => true | None => false end.

Definition choose_pages (fuel : nat) (url scrape_mode : string)
    (selected_pages : option (list string)) (st : state)
  : option (chosen_pages * state) :=
  if String.eqb scrape_mode "single_page" then Some (PagesToScrape [url], st)
  else
    match selected_pages with
    | Some (x :: l) =>
        if 25 <? length (x :: l) then Some (TooManyPages, st)
        else if forallb parses (x :: l) then Some (PagesToScrape (x :: l), st)
        else Some (SelectionRaised, st)
    | _ =>
        match discover_pages fuel url st with
        | Some (Some discovered, st) =>
            Some (PagesToScrape (map page_url (firstn 25 discovered)), st)
        | Some (None, st) => Some (DiscoveryRaised, st)
        | None => None
        end
    end.

(** [scrape_site], for a given job id.  [None] only when the discovery
    runs out of fuel.  The job id is one that the callers make: the letters
    [job_] followed by a URL-safe token, or a UUID.  It has no slash and is
    no dot segment, so [pathlib.Path] keeps the two paths as they are
    written here. *)
Definition scrape_site (fuel : nat) (url scrape_mode : string)
    (selected_pages : option (list string)) (job_id : string) (st : state)
  : option (site_result * state) :=
  let output_dir := "app/static/" +:+ job_id in
  if negb (makedirs_ok output_dir) then Some (failure ScrapingFailed, st)
  else
    let st := log (MakeDirs output_dir) st in
    match urlparse url with
    | None => Some (failure ScrapingFailed, st)
    | Some parsed_url =>
        match choose_pages fuel url scrape_mode selected_pages st with
        | None => None
        | Some (TooManyPages, st) => Some (failure MaximumPagesAllowed, st)
        | Some (SelectionRaised, st) => Some (failure ScrapingFailed, st)
        | Some (DiscoveryRaised, st) => Some (failure ScrapingFailed, st)
        | Some (PagesToScrape pages_to_scrape, st) =>
            let (scraped_files, st) :=
              scrape_pages pages_to_scrape 0 (length pages_to_scrape) output_dir [] st in
            let zip_path := "app/static/" +:+ job_id +:+ ".zip" in
            if negb (write_ok zip_path) then Some (failure ScrapingFailed, st)
            else
              let st := log (RemoveTree output_dir) (log (WriteFile zip_path) st) in
              Some ({| success := true;
                       result_message := SuccessfullyScraped (length scraped_files);
                       result_file_path := Some zip_path |}, st)
        end
    end.

End Site.
End WithWorld.
End GeneralScraper.

(** ** Helpers of [src/scraper/utils.py] *)
Module Utils.
Import Py UrlParse PathMapper.

Section WithLib.
Context `{UrlLib}.

(** [get_page_name]; [None] when [urlparse] raises. *)
Definition get_page_name (url : string) : option string :=
  match urlparse url with
  | None => None
  | Some parsed =>
      let p := strip is_slash (path parsed) in
      if negb (nonempty p) then Some "index"
      else Some (BaseSiteSpider.replace_char "." "_" (BaseSiteSpider.replace_char "/" "_" p))
  end.

(** [is_internal_link]; nothing is caught here, [None] when [urlparse]
    raises. *)
Definition is_internal_link (link current_url : string) : option bool :=
  if negb (nonempty link) then Some false
  else if is_special_link link then Some false
  else if startswith "http" link then
    match urlparse current_url with
    | None => None
    | Some cur =>
        match urlparse link with
        | None => None
        | Some lnk => Some (String.eqb (netloc cur) (netloc lnk))
        end
    end
  else Some true.

(** [process_html_content]: the two substitutions alone. *)
Definition process_html_content (html base_url : string) : option string :=
  match urlparse base_url with
  | None => None
  | Some b => Some (Rewriter.prepass (netloc b) html)
  end.

End WithLib.

(** [clean_asset_path] *)
Definition clean_asset_path (asset_path : string) : string :=
  lstrip is_slash (if startswith "//" asset_path then "https:" +:+ asset_path
                   else asset_path).

(** [ensure_dir]: the directory asked of the file system, if any. *)
Definition ensure_dir (file_path : string) : option string :=
  let directory := dirname file_path in
  if nonempty directory then Some directory else None.

End Utils.

(** ** The URL check of the API ([sanitize_url], [src/main.py]) *)
Module Main.
Import Py.

Inductive sanitized : Type :=
| Sanitized (url : string)
| InvalidURLProtocol          (* ValueError('Invalid URL protocol') *)
| URLTooLong.                 (* ValueError('URL too long') *)

(** [str.isspace] on the characters below 256: the ASCII white space, NEL
    and the no-break space. *)
Definition is_whitespace (c : ascii) : bool :=
  is_space c || (code c =? 133) || (code c =? 160).

Definition sanitize_url (url : string) : sanitized :=
  let url := strip is_whitespace url in
  if negb (startswith "http://" url || startswith "https://" url) then InvalidURLProtocol
  else if 2048 <? String.length url then URLTooLong
  else Sanitized url.

End Main.

(** ** The platform variants that drop a badge by class and by link

    [WebflowSpider], [WixSpider], [NotionSpider] and [SquarespaceSpider]
    (and others of [src/scraper]) have the same [remove_platform_badge],
    word for word, but for four data: the style block, the classes of the
    [div] elements to remove, the hosts of the links to look at and the
    keywords looked for in the text of such a link. *)
Module PlatformBadge.
Import Py Soup.

Record variant : Type := {
  css_to_inject : string;
  badge_classes : list string;
  link_hosts : list string;
  link_keywords : list string
}.

(** The three placements of the style block. *)
Definition inject_css (css html_content : string) : string :=
  if contains "</head>" html_content
  then replace "</head>" (css +:+ "</head>") html_content
  else if contains "<body>" html_content
  then replace "<body>" ("<body>" +:+ css) html_content
  else css +:+ html_content.

(** [soup.find_all('div', {'class': c})] *)
Definition is_badge_div (c : string) (n : node) : bool :=
  is_element ["div"] n && has_class c (attrs_of n).

(** The links found with [href=lambda x: x and (host in x or ...)] whose
    lowered text holds one of the keywords. *)
Definition is_platform_link (v : variant) (n : node) : bool :=
  is_element ["a"] n
  && match get_attr "href" (attrs_of n) with
     | Some x => PathMapper.nonempty x && existsb (fun host => contains host x) (link_hosts v)
     | None => false
     end
  && (let link_text := lower (get_text n) in
      existsb (fun keyword => contains keyword link_text) (link_keywords v)).

(** The two removal loops on the parsed document. *)
Definition strip_badges (v : variant) (s : soup) : soup :=
  let s := fold_left (fun s c => prune_all (is_badge_div c) s) (badge_classes v) s in
  prune_all (is_platform_link v) s.

Section WithLib.
Context `{SoupLib}.

(** [remove_platform_badge]; [None] when the parser raises. *)
Definition remove_platform_badge (v : variant) (html_content : string) : option string :=
  match soup_parse (inject_css (css_to_inject v) html_content) with
  | None => None
  | Some soup => Some (soup_str (strip_badges v soup))
  end.

End WithLib.
End PlatformBadge.

(** [WebflowSpider] ([src/scraper/webflow_spider.py]) *)
Module WebflowSpider.

(** [css_to_inject], line by line *)
Definition css_to_inject : string :=
  ("" +:+ Framer.nl) +:+
  ("        <style>" +:+ Framer.nl) +:+
  ("        .w-webflow-badge { display: none !important; }" +:+ Framer.nl) +:+
  ("        .webflow-badge { display: none !important; }" +:+ Framer.nl) +:+
  ("        .w-badge { display: none !important; }" +:+ Framer.nl) +:+
  ("        .buy-badge.w-inline-block { display: none !important; }" +:+ Framer.nl) +:+
  ("        a[href*=" +:+ Framer.dq +:+ "webflow.com" +:+ Framer.dq +:+ "] { display: none !important; }" +:+ Framer.nl) +:+
  ("        a[href*=" +:+ Framer.dq +:+ "webflow.io" +:+ Framer.dq +:+ "] { display: none !important; }" +:+ Framer.nl) +:+
  ("        a[href*=" +:+ Framer.dq +:+ "webflow.com/template/" +:+ Framer.dq +:+ "] { display: none !important; }" +:+ Framer.nl) +:+
  ("        a[href*=" +:+ Framer.dq +:+ "webflow.io/template/" +:+ Framer.dq +:+ "] { display: none !important; }" +:+ Framer.nl) +:+
  ("        [data-w-id*=" +:+ Framer.dq +:+ "badge" +:+ Framer.dq +:+ "] { display: none !important; }" +:+ Framer.nl) +:+
  ("        [data-w-id*=" +:+ Framer.dq +:+ "webflow" +:+ Framer.dq +:+ "] { display: none !important; }" +:+ Framer.nl) +:+
  ("        </style>" +:+ Framer.nl) +:+
  ("        ").

Definition variant : PlatformBadge.variant :=
  {| PlatformBadge.css_to_inject := css_to_inject;
     PlatformBadge.badge_classes := ["w-webflow-badge"; "webflow-badge"; "buy-badge.w-inline-block"; "w-badge"];
     PlatformBadge.link_hosts := ["webflow.com"; "webflow.io"];
     PlatformBadge.link_keywords := ["made"; "webflow"; "built"; "template"; "free"] |}.

Definition remove_platform_badge `{SoupLib} (html_content : string) : option string :=
  PlatformBadge.remove_platform_badge variant html_content.

Definition spider `{SoupLib} : BaseSiteSpider.platform :=
  {| BaseSiteSpider.remove_platform_badge := remove_platform_badge;
     BaseSiteSpider.get_platform_name := Some "Webflow" |}.

End WebflowSpider.


(** [WixSpider] ([src/scraper/wix_spider.py]) *)
Module WixSpider.

(** [css_to_inject], line by line *)
Definition css_to_inject : string :=
  ("" +:+ Framer.nl) +:+
  ("        <style>" +:+ Framer.nl) +:+
  ("        .wix-badge { display: none !important; }" +:+ Framer.nl) +:+
  ("        .wix-banner { display: none !important; }" +:+ Framer.nl) +:+
  ("        a[href*=" +:+ Framer.dq +:+ "wix.com" +:+ Framer.dq +:+ "] { display: none !important; }" +:+ Framer.nl) +:+
  ("        [data-wix-id*=" +:+ Framer.dq +:+ "badge" +:+ Framer.dq +:+ "] { display: none !important; }" +:+ Framer.nl) +:+
  ("        [class*=" +:+ Framer.dq +:+ "wix-badge" +:+ Framer.dq +:+ "] { display: none !important; }" +:+ Framer.nl) +:+
  ("        [id*=" +:+ Framer.dq +:+ "wix-badge" +:+ Framer.dq +:+ "] { display: none !important; }" +:+ Framer.nl) +:+
  ("        div[style*=" +:+ Framer.dq +:+ "position: fixed" +:+ Framer.dq +:+ "][style*=" +:+ Framer.dq +:+ "top" +:+ Framer.dq +:+ "] { display: none !important; }" +:+ Framer.nl) +:+
  ("        body { margin-top: 0 !important; padding-top: 0 !important; }" +:+ Framer.nl) +:+
  ("        </style>" +:+ Framer.nl) +:+
  ("        ").

Definition variant : PlatformBadge.variant :=
  {| PlatformBadge.css_to_inject := css_to_inject;
     PlatformBadge.badge_classes := ["wix-badge"; "wix-banner"];
     PlatformBadge.link_hosts := ["wix.com"];
     PlatformBadge.link_keywords := ["created"; "designed"; "website"; "free"; "build"] |}.

Definition remove_platform_badge `{SoupLib} (html_content : string) : option string :=
  PlatformBadge.remove_platform_badge variant html_content.

Definition spider `{SoupLib} : BaseSiteSpider.platform :=
  {| BaseSiteSpider.remove_platform_badge := remove_platform_badge;
     BaseSiteSpider.get_platform_name := Some "Wix" |}.

End WixSpider.


(** [NotionSpider] ([src/scraper/notion_spider.py]) *)
Module NotionSpider.

(** [css_to_inject], line by line *)
Definition css_to_inject : string :=
  ("" +:+ Framer.nl) +:+
  ("        <style>" +:+ Framer.nl) +:+
  ("        .notion-badge { display: none !important; }" +:+ Framer.nl) +:+
  ("        .made-with-notion { display: none !important; }" +:+ Framer.nl) +:+
  ("        a[href*=" +:+ Framer.dq +:+ "notion.so" +:+ Framer.dq +:+ "] { display: none !important; }" +:+ Framer.nl) +:+
  ("        a[href*=" +:+ Framer.dq +:+ "notion.site" +:+ Framer.dq +:+ "] { display: none !important; }" +:+ Framer.nl) +:+
  ("        [data-notion-badge] { display: none !important; }" +:+ Framer.nl) +:+
  ("        [class*=" +:+ Framer.dq +:+ "notion-badge" +:+ Framer.dq +:+ "] { display: none !important; }" +:+ Framer.nl) +:+
  ("        [id*=" +:+ Framer.dq +:+ "notion-badge" +:+ Framer.dq +:+ "] { display: none !important; }" +:+ Framer.nl) +:+
  ("        </style>" +:+ Framer.nl) +:+
  ("        ").

Definition variant : PlatformBadge.variant :=
  {| PlatformBadge.css_to_inject := css_to_inject;
     PlatformBadge.badge_classes := ["notion-badge"; "made-with-notion"];
     PlatformBadge.link_hosts := ["notion.so"; "notion.site"];
     PlatformBadge.link_keywords := ["notion"; "made"; "powered"] |}.

Definition remove_platform_badge `{SoupLib} (html_content : string) : option string :=
  PlatformBadge.remove_platform_badge variant html_content.

Definition spider `{SoupLib} : BaseSiteSpider.platform :=
  {| BaseSiteSpider.remove_platform_badge := remove_platform_badge;
     BaseSiteSpider.get_platform_name := Some "Notion" |}.

End NotionSpider.


(** [SquarespaceSpider] ([src/scraper/squarespace_spider.py]) *)
Module SquarespaceSpider.

(** [css_to_inject], line by line *)
Definition css_to_inject : string :=
  ("" +:+ Framer.nl) +:+
  ("        <style>" +:+ Framer.nl) +:+
  ("        .squarespace-badge { display: none !important; }" +:+ Framer.nl) +:+
  ("        .powered-by-link { display: none !important; }" +:+ Framer.nl) +:+
  ("        .sqs-svg-logo--wordmark { display: none !important; }" +:+ Framer.nl) +:+
  ("        .sqs-svg-logo--glyph { display: none !important; }" +:+ Framer.nl) +:+
  ("        a[href*=" +:+ Framer.dq +:+ "squarespace.com" +:+ Framer.dq +:+ "] { display: none !important; }" +:+ Framer.nl) +:+
  ("        [data-squarespace-badge] { display: none !important; }" +:+ Framer.nl) +:+
  ("        [class*=" +:+ Framer.dq +:+ "squarespace-badge" +:+ Framer.dq +:+ "] { display: none !important; }" +:+ Framer.nl) +:+
  ("        [id*=" +:+ Framer.dq +:+ "squarespace-badge" +:+ Framer.dq +:+ "] { display: none !important; }" +:+ Framer.nl) +:+
  ("        </style>" +:+ Framer.nl) +:+
  ("        ").

Definition variant : PlatformBadge.variant :=
  {| PlatformBadge.css_to_inject := css_to_inject;
     PlatformBadge.badge_classes := ["squarespace-badge"; "powered-by-link"];
     PlatformBadge.link_hosts := ["squarespace.com"];
     PlatformBadge.link_keywords := ["powered"; "squarespace"; "made"] |}.

Definition remove_platform_badge `{SoupLib} (html_content : string) : option string :=
  PlatformBadge.remove_platform_badge variant html_content.

Definition spider `{SoupLib} : BaseSiteSpider.platform :=
  {| BaseSiteSpider.remove_platform_badge := remove_platform_badge;
     BaseSiteSpider.get_platform_name := Some "Squarespace" |}.

End SquarespaceSpider.

(** ** What the removal loops of the Framer variant leave in place

    The place of a string of the document is the chain of elements above
    it, from the top.  Two tests on that chain, both on tags and attributes
    only: [never_tested] for the tags that none of the three loops looks
    at, [kept_shape] for an element that no selector picks out and that is
    no link to the platform. *)
Module FramerKept.
Import Py Soup Framer.





End FramerKept.

(** ** Resources for the examples

    A style sheet and an image that are served, a script whose request
    times out; every other URL is answered by a 404.  The digest is a
    constant. *)
Module ExampleAssets.

Definition site : World := {|
  http_get := fun url =>
    if String.eqb url "https://example.com/site.css"
    then Response 200 "text/css; charset=utf-8" "body { margin: 0 }"
    else if String.eqb url "https://example.com/logo"
    then Response 200 "image/png" "PNG"
    else if String.eqb url "https://example.com/app.js" then TimeoutError
    else if String.eqb url "https://example.com/"
    then Response 200 "text/html" ExampleSoup.home_markup
    else if String.eqb url "https://example.com/a"
    then Response 200 "text/html; charset=utf-8" "page a"
    else Response 404 "text/html" "";
  makedirs_ok := fun _ => true;
  write_ok := fun _ => true
|}.

Definition digest : GeneralLib := {| md5_hex8 := fun _ => "0f3a9c21" |}.

(** A page scraper that requests the page and writes it as it is. *)
Definition plain_page (url base_path page_name : string) (st : GeneralScraper.state)
  : option string * GeneralScraper.state :=
  let st := GeneralScraper.log (PageGet url) st in
  match http_get (World:=site) url with
  | Response 200 _ _ =>
      (Some (page_name +:+ ".html"),
       GeneralScraper.log
         (WriteFile (BaseSiteSpider.path_join base_path (page_name +:+ ".html"))) st)
  | _ => (None, st)
  end.

(** A Wix page without [head] and [body]: a badge, a promotional link,
    another link to the platform and a paragraph. *)
Definition wix_markup : string :=
  "<div class='wix-badge top'>Wix</div>"
  +:+ "<a href='https://www.wix.com/'>Created with Wix</a>"
  +:+ "<a href='https://www.wix.com/blog'>Our blog</a><p>Welcome</p>".

Definition wix_page : Soup.soup :=
  [ Soup.Element "div" [("class", "wix-badge top")] [Soup.Text "Wix"];
    Soup.Element "a" [("href", "https://www.wix.com/")] [Soup.Text "Created with Wix"];
    Soup.Element "a" [("href", "https://www.wix.com/blog")] [Soup.Text "Our blog"];
    Soup.Element "p" [] [Soup.Text "Welcome"] ].

(** The injected style block as the parser gives it: of the white space
    around the [style] element the line feed is kept. *)
Definition wix_rules : string :=
  substring 16 (String.length WixSpider.css_to_inject - 33) WixSpider.css_to_inject.

Definition wix_style : Soup.soup :=
  [ Soup.Text Framer.nl;
    Soup.Element "style" [] [Soup.Raw wix_rules];
    Soup.Text Framer.nl ].




(** A page with four links, before and after the two textual
    substitutions for the domain [example.com], and as the parser gives
    it. *)
Definition links_markup : string :=
  "<a href='mailto:hi@example.com'>mail</a><a href='about.html'>about</a>"
  +:+ "<a href='https://other.org/x'>other</a>"
  +:+ "<a href='https://example.com/docs/api/intro'>docs</a>".

Definition links_substituted : string :=
  "<a href='mailto:hi@example.com'>mail</a><a href='about.html'>about</a>"
  +:+ "<a href='https://other.org/x'>other</a>"
  +:+ "<a href='./docs/api/intro'>docs</a>".

Definition links_page : Soup.soup :=
  [ Soup.Element "a" [("href", "mailto:hi@example.com")] [Soup.Text "mail"];
    Soup.Element "a" [("href", "about.html")] [Soup.Text "about"];
    Soup.Element "a" [("href", "https://other.org/x")] [Soup.Text "other"];
    Soup.Element "a" [("href", "./docs/api/intro")] [Soup.Text "docs"] ].

Definition links_soup : SoupLib := {|
  soup_parse := fun markup =>
    if String.eqb markup links_substituted then Some links_page
    else if String.eqb markup ExampleSoup.home_markup then Some ExampleSoup.home_page
    else None;
  soup_str := ExampleSoup.render_all;
  findall_font_urls := fun _ => []
|}.

(** A parser that knows this one document. *)
Definition wix_soup : SoupLib := {|
  soup_parse := fun markup =>
    if String.eqb markup (WixSpider.css_to_inject +:+ wix_markup)
    then Some (wix_style ++ wix_page) else None;
  soup_str := ExampleSoup.render_all;
  findall_font_urls := fun _ => []
|}.

End ExampleAssets.

(** * Properties *)

#[local] Arguments String.append !s1 s2 / : simpl nomatch.
#[local] Arguments Ascii.eqb : simpl never.
#[local] Set Warnings "-clear-no-such-hyp".

(** ** Facts on the string functions *)
Module PyFacts.
Import Py.

Lemma append_empty_r (s : string) : s +:+ "" = s.
Proof. induction s as [|a s IH]; simpl; [reflexivity | now rewrite IH]. Qed.

Lemma append_assoc (a b c : string) : (a +:+ b) +:+ c = a +:+ (b +:+ c).
Proof. induction a as [|x a IH]; simpl; [reflexivity | now rewrite IH]. Qed.

Lemma has_char_append (c : ascii) (a b : string) :
  has_char c (a +:+ b) = has_char c a || has_char c b.
Proof.
  induction a as [|x a IH]; simpl; [reflexivity|].
  rewrite IH. now rewrite orb_assoc.
Qed.

Lemma all_chars_append (p : ascii -> bool) (a b : string) :
  all_chars p (a +:+ b) = all_chars p a && all_chars p b.
Proof.
  induction a as [|x a IH]; simpl; [reflexivity|].
  rewrite IH. now rewrite andb_assoc.
Qed.

Lemma endswith_self (suf : string) : endswith suf suf = true.
Proof. destruct suf; simpl; [reflexivity|]. now rewrite Ascii.eqb_refl, String.eqb_refl. Qed.

Lemma endswith_append (suf a b : string) :
  endswith suf b = true -> endswith suf (a +:+ b) = true.
Proof.
  intros Hb. induction a as [|x a IH]; simpl; [exact Hb|].
  rewrite IH. apply orb_true_r.
Qed.

Lemma endswith_nonempty (suf s : string) :
  suf <> "" -> endswith suf s = true -> s <> "".
Proof.
  intros Hsuf He ->. simpl in He. destruct suf; [congruence | discriminate].
Qed.

(** *** [break_on] *)

Lemma break_on_append (p : ascii -> bool) (s : string) :
  fst (break_on p s) +:+ snd (break_on p s) = s.
Proof.
  induction s as [|a s IH]; simpl; [reflexivity|].
  destruct (p a); simpl; [reflexivity|].
  destruct (break_on p s) as [x y]; simpl in *. now rewrite IH.
Qed.

Lemma break_on_fst_free (p : ascii -> bool) (s : string) :
  all_chars (fun c => negb (p c)) (fst (break_on p s)) = true.
Proof.
  induction s as [|a s IH]; simpl; [reflexivity|].
  destruct (p a) eqn:Hp; simpl; [reflexivity|].
  destruct (break_on p s) as [x y]; simpl in *. now rewrite Hp, IH.
Qed.

Lemma break_on_snd_head (p : ascii -> bool) (s : string) :
  match snd (break_on p s) with
  | EmptyString => True
  | String c _ => p c = true
  end.
Proof.
  induction s as [|a s IH]; simpl; [exact I|].
  destruct (p a) eqn:Hp; simpl; [exact Hp|].
  destruct (break_on p s) as [x y]; simpl in *. exact IH.
Qed.

(** Breaking [a ++ c :: b] at a [p]-character [c]: the break of [a]
    decides. *)
Lemma break_on_stop (p : ascii -> bool) (a b : string) (c : ascii) :
  p c = true ->
  break_on p (a +:+ String c b)
  = (fst (break_on p a), snd (break_on p a) +:+ String c b).
Proof.
  intros Hc. induction a as [|x a IH]; simpl.
  - now rewrite Hc.
  - destruct (p x); simpl; [reflexivity|].
    rewrite IH. destruct (break_on p a) as [u v]; reflexivity.
Qed.

Lemma break_on_free (p : ascii -> bool) (s : string) :
  all_chars (fun c => negb (p c)) s = true -> break_on p s = (s, "").
Proof.
  induction s as [|a s IH]; simpl; [reflexivity|].
  intros H. apply andb_true_iff in H as [Ha Hs].
  apply negb_true_iff in Ha. rewrite Ha, (IH Hs). reflexivity.
Qed.

(** *** [split] and [join] *)

Lemma split_not_nil (sep : ascii) (s : string) : split sep s <> [].
Proof.
  induction s as [|a s IH]; simpl; [discriminate|].
  destruct (Ascii.eqb a sep); [discriminate|].
  destruct (split sep s); [contradiction | discriminate].
Qed.

Lemma split_free (sep : ascii) (s : string) :
  has_char sep s = false -> split sep s = [s].
Proof.
  induction s as [|a s IH]; simpl; [reflexivity|].
  intros H. apply orb_false_iff in H as [Ha Hs].
  rewrite Ha, (IH Hs). reflexivity.
Qed.

Lemma split_cons (sep : ascii) (x r : string) :
  has_char sep x = false ->
  split sep (x +:+ String sep r) = x :: split sep r.
Proof.
  induction x as [|a x IH]; simpl; intros H.
  - now rewrite Ascii.eqb_refl.
  - apply orb_false_iff in H as [Ha Hx].
    rewrite Ha, (IH Hx). reflexivity.
Qed.

Lemma split_parts_free (sep : ascii) (s : string) :
  Forall (fun x => has_char sep x = false) (split sep s).
Proof.
  induction s as [|a s IH]; simpl.
  - constructor; [reflexivity | constructor].
  - destruct (Ascii.eqb a sep) eqn:Ha.
    + constructor; [reflexivity | exact IH].
    + destruct (split sep s) as [|h t]; [repeat constructor; simpl; now rewrite Ha|].
      inversion IH; subst. constructor; [simpl; now rewrite Ha | assumption].
Qed.

Lemma join_cons (sep x : string) (l : list string) :
  l <> [] -> join sep (x :: l) = x +:+ sep +:+ join sep l.
Proof. destruct l; [congruence | reflexivity]. Qed.

Lemma join_snoc (sep x : string) (l : list string) :
  l <> [] -> join sep (l ++ [x]) = join sep l +:+ sep +:+ x.
Proof.
  induction l as [|y l IH]; [congruence|]. intros _.
  destruct l as [|z l].
  - reflexivity.
  - change ((y :: z :: l) ++ [x]) with (y :: ((z :: l) ++ [x])).
    rewrite join_cons by (destruct l; discriminate).
    rewrite IH by discriminate.
    rewrite (join_cons sep y (z :: l)) by discriminate.
    now rewrite !append_assoc.
Qed.

Lemma split_join (sep : ascii) (l : list string) :
  l <> [] ->
  Forall (fun x => has_char sep x = false) l ->
  split sep (join (String sep "") l) = l.
Proof.
  induction l as [|x l IH]; [congruence|]. intros _ Hall.
  inversion Hall as [|? ? Hx Hl]; subst.
  destruct l as [|y l].
  - simpl. now apply split_free.
  - rewrite join_cons by discriminate.
    change (x +:+ String sep "" +:+ join (String sep "") (y :: l))
      with (x +:+ String sep (join (String sep "") (y :: l))).
    rewrite split_cons by exact Hx.
    now rewrite IH.
Qed.

End PyFacts.

(** ** Facts on [urlsplit] and [urlparse] *)
Module UrlFacts.
Import Py PyFacts UrlParse.

(** No [?] and no [#] in a string. *)
Definition qf_free (s : string) : Prop :=
  all_chars (fun c => negb (has_char c "?#")) s = true.

Definition is_qf (c : ascii) : Prop := c = "?"%char \/ c = "#"%char.

Lemma qf_free_cons (a : ascii) (s : string) :
  qf_free (String a s) <-> has_char a "?#" = false /\ qf_free s.
Proof.
  unfold qf_free; simpl. rewrite andb_true_iff, negb_true_iff. tauto.
Qed.

Lemma qf_free_append (a b : string) :
  qf_free (a +:+ b) <-> qf_free a /\ qf_free b.
Proof. unfold qf_free. rewrite all_chars_append, andb_true_iff. tauto. Qed.

Lemma qf_free_lstrip (p : ascii -> bool) (s : string) :
  qf_free s -> qf_free (lstrip p s).
Proof.
  induction s as [|a s IH]; simpl; [auto|]. intros Hs.
  destruct (p a); [|exact Hs]. apply IH. now apply qf_free_cons in Hs.
Qed.

Lemma qf_free_remove_chars (p : ascii -> bool) (s : string) :
  qf_free s -> qf_free (remove_chars p s).
Proof.
  induction s as [|a s IH]; simpl; [auto|]. intros Hs.
  apply qf_free_cons in Hs as [Ha Hs].
  destruct (p a); [now apply IH|]. apply qf_free_cons. auto.
Qed.

Lemma qf_free_drop (n : nat) (s : string) : qf_free s -> qf_free (drop n s).
Proof.
  revert s; induction n as [|n IH]; intros [|a s]; simpl; auto.
  intros Hs. apply IH. now apply qf_free_cons in Hs.
Qed.

Lemma qf_free_break_on (p : ascii -> bool) (s : string) :
  qf_free s -> qf_free (fst (break_on p s)) /\ qf_free (snd (break_on p s)).
Proof.
  intros Hs. apply qf_free_append. now rewrite break_on_append.
Qed.

Lemma lstrip_tail (p : ascii -> bool) (u t : string) (c : ascii) :
  p c = false -> lstrip p (u +:+ String c t) = lstrip p u +:+ String c t.
Proof.
  intros Hc. induction u as [|a u IH]; simpl; [now rewrite Hc|].
  destruct (p a); [exact IH | reflexivity].
Qed.

Lemma remove_chars_tail (p : ascii -> bool) (u t : string) (c : ascii) :
  p c = false ->
  remove_chars p (u +:+ String c t)
  = remove_chars p u +:+ String c (remove_chars p t).
Proof.
  intros Hc. induction u as [|a u IH]; simpl; [now rewrite Hc|].
  destruct (p a); simpl; now rewrite IH.
Qed.

(** Breaking an appended string. *)
Lemma break_on_app (p : ascii -> bool) (a b : string) :
  break_on p (a +:+ b)
  = match snd (break_on p a) with
    | EmptyString => (a +:+ fst (break_on p b), snd (break_on p b))
    | r => (fst (break_on p a), r +:+ b)
    end.
Proof.
  induction a as [|x a IH]; simpl.
  - now destruct (break_on p b).
  - destruct (p x); simpl; [reflexivity|].
    rewrite IH. destruct (break_on p a) as [u v]; simpl.
    destruct v; reflexivity.
Qed.

Lemma scheme_char_qf (c : ascii) : is_qf c -> scheme_char c = false.
Proof. intros [-> | ->]; reflexivity. Qed.

(** A query or fragment tail does not change the scheme split. *)
Lemma split_scheme_tail (v t : string) (c : ascii) :
  is_qf c ->
  split_scheme (v +:+ String c t)
  = (fst (split_scheme v), snd (split_scheme v) +:+ String c t).
Proof.
  intros Hc. unfold split_scheme. rewrite break_on_app.
  pose proof (break_on_append (Ascii.eqb ":") v) as Hv.
  destruct (break_on (Ascii.eqb ":") v) as [pre rest]; simpl in *.
  destruct rest as [|r rest].
  - (* no colon in [v]: the part before a later colon holds [c] *)
    rewrite append_empty_r in Hv; subst pre.
    assert (Hbad : forall w, all_chars scheme_char (v +:+ w) = true ->
                     forall x, w <> String c x).
    { intros w Hw x ->. rewrite all_chars_append in Hw. simpl in Hw.
      rewrite (scheme_char_qf c Hc) in Hw. now rewrite andb_false_r in Hw. }
    assert (Hc' : Ascii.eqb ":" c = false) by (destruct Hc as [-> | ->]; reflexivity).
    simpl. rewrite Hc'.
    destruct (break_on (Ascii.eqb ":") t) as [t1 t2]; simpl.
    destruct (v +:+ String c t1) as [|c0 pre'] eqn:Hpre.
    + now destruct v.
    + destruct t2 as [|y t2]; [now destruct v|].
      match goal with |- context [if ?b then _ else _] => destruct b eqn:Hs end.
      * apply andb_true_iff in Hs as [_ Hs].
        change (all_chars scheme_char (String c0 pre') = true) in Hs.
        rewrite <- Hpre in Hs.
        exfalso. eapply Hbad; [exact Hs | reflexivity].
      * now destruct v.
  - destruct pre as [|c0 pre]; [reflexivity|].
    match goal with |- context [if ?b then _ else _] => destruct b end;
      simpl; [reflexivity|].
    now rewrite <- Hv.
Qed.

Lemma split_scheme_qf_free (v : string) :
  qf_free v -> qf_free (snd (split_scheme v)).
Proof.
  intros Hv. unfold split_scheme.
  pose proof (qf_free_break_on (Ascii.eqb ":") v Hv) as [_ H2].
  destruct (break_on (Ascii.eqb ":") v) as [pre rest]; simpl in *.
  destruct pre as [|c0 pre]; [exact Hv|].
  destruct rest as [|r rest]; [exact Hv|].
  destruct (_ && _); simpl; [|exact Hv].
  now apply qf_free_cons in H2.
Qed.

Lemma startswith_slashes_tail (w t : string) (c : ascii) :
  is_qf c -> startswith "//" (w +:+ String c t) = startswith "//" w.
Proof.
  intros Hc. destruct w as [|a [|b w]]; simpl.
  - destruct Hc as [-> | ->]; reflexivity.
  - destruct (Ascii.eqb "/" a); [|reflexivity].
    destruct Hc as [-> | ->]; reflexivity.
  - reflexivity.
Qed.

Lemma drop2_tail (w x : string) :
  startswith "//" w = true -> drop 2 (w +:+ x) = drop 2 w +:+ x.
Proof. destruct w as [|a [|b w]]; simpl; try discriminate; [now rewrite andb_false_r | reflexivity]. Qed.

Lemma splitnetloc_tail (w t : string) (c : ascii) :
  is_qf c -> startswith "//" w = true ->
  splitnetloc (w +:+ String c t)
  = (fst (splitnetloc w), snd (splitnetloc w) +:+ String c t).
Proof.
  intros Hc Hw. unfold splitnetloc. rewrite drop2_tail by exact Hw.
  apply break_on_stop. destruct Hc as [-> | ->]; reflexivity.
Qed.

Lemma qf_free_without (c : ascii) (w : string) :
  is_qf c -> qf_free w -> all_chars (fun x => negb (Ascii.eqb c x)) w = true.
Proof.
  intros Hc. induction w as [|a w IH]; simpl; [reflexivity|]. intros Hw.
  apply qf_free_cons in Hw as [Ha Hw]. rewrite (IH Hw), andb_true_r.
  simpl in Ha. apply orb_false_iff in Ha as [H1 H2].
  apply orb_false_iff in H2 as [H2 _].
  destruct Hc as [-> | ->]; [now rewrite H1 | now rewrite H2].
Qed.

(** The path cut out of [w ++ c :: t] is [w]. *)
Lemma cut_path_tail (w t : string) (c : ascii) :
  qf_free w -> is_qf c ->
  fst (cut_at "?" (fst (cut_at "#" (w +:+ String c t)))) = w.
Proof.
  intros Hw Hc. unfold cut_at.
  pose proof (qf_free_without "#" w (or_intror eq_refl) Hw) as Hh.
  pose proof (qf_free_without "?" w (or_introl eq_refl) Hw) as Hq.
  rewrite (break_on_app (Ascii.eqb "#") w), (break_on_free _ _ Hh). simpl.
  destruct Hc as [-> | ->]; simpl.
  - destruct (break_on (Ascii.eqb "#") t) as [t1 t2]; simpl.
    rewrite (break_on_stop (Ascii.eqb "?") w t1 "?") by reflexivity.
    now rewrite (break_on_free _ _ Hq).
  - rewrite append_empty_r. now rewrite (break_on_free _ _ Hq).
Qed.

Lemma cut_path_free (w : string) :
  qf_free w -> fst (cut_at "?" (fst (cut_at "#" w))) = w.
Proof.
  intros Hw. unfold cut_at.
  pose proof (qf_free_without "#" w (or_intror eq_refl) Hw) as Hh.
  pose proof (qf_free_without "?" w (or_introl eq_refl) Hw) as Hq.
  rewrite (break_on_free _ _ Hh). simpl. now rewrite (break_on_free _ _ Hq).
Qed.

Lemma strip_fragment_query_split (url : string) :
  qf_free (PathMapper.strip_fragment_query url)
  /\ (url = PathMapper.strip_fragment_query url
      \/ exists c t, is_qf c
           /\ url = PathMapper.strip_fragment_query url +:+ String c t).
Proof.
  unfold PathMapper.strip_fragment_query, before.
  pose proof (break_on_append (Ascii.eqb "#") url) as E1.
  pose proof (break_on_fst_free (Ascii.eqb "#") url) as F1.
  pose proof (break_on_snd_head (Ascii.eqb "#") url) as S1.
  destruct (break_on (Ascii.eqb "#") url) as [u1 r1]; simpl in *.
  pose proof (break_on_append (Ascii.eqb "?") u1) as E2.
  pose proof (break_on_fst_free (Ascii.eqb "?") u1) as F2.
  pose proof (break_on_snd_head (Ascii.eqb "?") u1) as S2.
  destruct (break_on (Ascii.eqb "?") u1) as [u r2]; simpl in *.
  split.
  - rewrite <- E2, all_chars_append in F1. apply andb_true_iff in F1 as [F1 _].
    clear -F1 F2. induction u as [|a u IH]; [reflexivity|].
    simpl in F1, F2. apply andb_true_iff in F1 as [A1 F1].
    apply andb_true_iff in F2 as [A2 F2].
    apply qf_free_cons. split; [|now apply IH].
    simpl. apply negb_true_iff in A1, A2. now rewrite A1, A2.
  - destruct r2 as [|c2 r2].
    + rewrite append_empty_r in E2. subst u1.
      destruct r1 as [|c1 r1].
      * left. now rewrite append_empty_r in E1.
      * right. exists c1, r1. apply Ascii.eqb_eq in S1. subst c1.
        split; [now right | now symmetry].
    + right. exists c2, (r2 +:+ r1). apply Ascii.eqb_eq in S2. subst c2.
      split; [now left|]. rewrite <- E1, <- E2. now rewrite append_assoc.
Qed.

Section WithLib.
Context `{UrlLib}.

(** A query or fragment tail changes neither the scheme, the authority
    nor the path that [urlsplit] returns, nor whether it raises. *)
Lemma urlsplit_tail (u t : string) (c : ascii) :
  qf_free u -> is_qf c ->
  match urlsplit u with
  | Some (s, n, p, _, _) =>
      exists q f, urlsplit (u +:+ String c t) = Some (s, n, p, q, f)
  | None => urlsplit (u +:+ String c t) = None
  end.
Proof.
  intros Hu Hc. unfold urlsplit.
  rewrite lstrip_tail by (destruct Hc as [-> | ->]; reflexivity).
  rewrite remove_chars_tail by (destruct Hc as [-> | ->]; reflexivity).
  assert (Hv : qf_free (remove_chars unsafe_url_byte (lstrip c0_control_or_space u)))
    by now apply qf_free_remove_chars, qf_free_lstrip.
  set (v := remove_chars unsafe_url_byte (lstrip c0_control_or_space u)) in *.
  set (t' := remove_chars unsafe_url_byte t).
  rewrite (split_scheme_tail v t' c Hc).
  pose proof (split_scheme_qf_free v Hv) as Hw.
  destruct (split_scheme v) as [sch w]; simpl in Hw; cbn [fst snd].
  rewrite (startswith_slashes_tail w t' c Hc).
  assert (Hgen : forall nl w2, qf_free w2 ->
    match (let (url, frag) := cut_at "#" w2 in
           let (url0, qry) := cut_at "?" url in
           if netloc_ok nl then Some (sch, nl, url0, qry, frag) else None) with
    | Some (s, n, p, _, _) =>
        exists q f,
          (let (url, frag) := cut_at "#" (w2 +:+ String c t') in
           let (url0, qry) := cut_at "?" url in
           if netloc_ok nl then Some (sch, nl, url0, qry, frag) else None)
          = Some (s, n, p, q, f)
    | None =>
        (let (url, frag) := cut_at "#" (w2 +:+ String c t') in
         let (url0, qry) := cut_at "?" url in
         if netloc_ok nl then Some (sch, nl, url0, qry, frag) else None) = None
    end).
  { intros nl w2 Hw2.
    pose proof (cut_path_tail w2 t' c Hw2 Hc) as P1.
    pose proof (cut_path_free w2 Hw2) as P2.
    destruct (cut_at "#" (w2 +:+ String c t')) as [x1 f1]; simpl in P1.
    destruct (cut_at "?" x1) as [x2 q1]; simpl in P1.
    destruct (cut_at "#" w2) as [y1 g1]; simpl in P2.
    destruct (cut_at "?" y1) as [y2 q2]; simpl in P2.
    subst x2 y2. destruct (netloc_ok nl); [eauto | reflexivity]. }
  destruct (startswith "//" w) eqn:Hs.
  - rewrite (splitnetloc_tail w t' c Hc Hs).
    assert (Hw2 : qf_free (snd (splitnetloc w))).
    { unfold splitnetloc. apply qf_free_break_on. now apply qf_free_drop. }
    destruct (splitnetloc w) as [nl w2]; simpl in Hw2; cbn [fst snd].
    apply Hgen; assumption.
  - apply Hgen; assumption.
Qed.

Lemma urlparse_tail (u t : string) (c : ascii) :
  qf_free u -> is_qf c ->
  match urlparse u with
  | Some r =>
      exists r', urlparse (u +:+ String c t) = Some r'
                 /\ scheme r' = scheme r /\ netloc r' = netloc r
                 /\ path r' = path r
  | None => urlparse (u +:+ String c t) = None
  end.
Proof.
  intros Hu Hc. unfold urlparse.
  pose proof (urlsplit_tail u t c Hu Hc) as Hs.
  destruct (urlsplit u) as [[[[[s n] p] q] f]|].
  - destruct Hs as (q' & f' & ->).
    destruct (if mem s uses_params && has_char ";" p then splitparams p else (p, ""))
      as [p' prm]. eexists; split; [reflexivity|]. simpl. auto.
  - now rewrite Hs.
Qed.

End WithLib.
End UrlFacts.

(** ** Facts on the path mapper *)
Module PathFacts.
Import Py PyFacts UrlParse UrlFacts PathMapper.

(** A path segment: not empty and without a slash. *)
Definition segment (s : string) : Prop := s <> "" /\ has_char "/" s = false.

Lemma nonempty_true (s : string) : nonempty s = true <-> s <> "".
Proof. destruct s; simpl; split; congruence. Qed.

Lemma segments_of_split (p : string) :
  Forall segment (List.filter nonempty (split "/" p)).
Proof.
  apply List.Forall_forall. intros x Hx. apply filter_In in Hx as [Hin Hne].
  split; [now apply nonempty_true|].
  pose proof (split_parts_free "/" p) as Hall.
  rewrite List.Forall_forall in Hall. now apply Hall.
Qed.

(** *** [rcut], [dirname] and [basename] on joined segments *)

Lemma rcut_free (c : ascii) (s : string) :
  has_char c s = false -> rcut c s = ("", s).
Proof.
  induction s as [|a s IH]; simpl; [reflexivity|]. intros Hs.
  apply orb_false_iff in Hs as [Ha Hs]. now rewrite (IH Hs), Ha.
Qed.

Lemma rcut_last (c : ascii) (a b : string) :
  has_char c b = false ->
  rcut c (a +:+ String c b) = (a +:+ String c "", b).
Proof.
  intros Hb. induction a as [|x a IH]; simpl.
  - now rewrite (rcut_free c b Hb), Ascii.eqb_refl.
  - rewrite IH. now destruct a.
Qed.








Lemma join_snoc_segments (dirs : list string) (file : string) :
  join "/" (dirs ++ [file])
  = match dirs with
    | [] => file
    | _ => join "/" dirs +:+ String "/" file
    end.
Proof.
  destruct dirs as [|d dirs]; [reflexivity|].
  now rewrite join_snoc by discriminate.
Qed.

Lemma basename_join (dirs : list string) (file : string) :
  has_char "/" file = false ->
  basename (join "/" (dirs ++ [file])) = file.
Proof.
  intros Hf. unfold basename. rewrite join_snoc_segments.
  destruct dirs as [|d dirs].
  - now rewrite rcut_free.
  - now rewrite rcut_last.
Qed.


(** *** [get_clean_path] *)

Lemma html_name_endswith (seg : string) : endswith ".html" (html_name seg) = true.
Proof.
  unfold html_name.
  destruct (has_char "." seg && negb (endswith ".html" seg)).
  - apply endswith_append, endswith_self.
  - destruct (endswith ".html" seg) eqn:E; simpl;
      [exact E | apply endswith_append, endswith_self].
Qed.

Lemma before_free (c d : ascii) (s : string) :
  has_char c s = false -> has_char c (before d s) = false.
Proof.
  intros Hs. unfold before.
  rewrite <- (break_on_append (Ascii.eqb d) s), has_char_append in Hs.
  now apply orb_false_iff in Hs as [Hs _].
Qed.

Lemma before_without (d : ascii) (s : string) : has_char d (before d s) = false.
Proof.
  unfold before. pose proof (break_on_fst_free (Ascii.eqb d) s) as H.
  induction (fst (break_on (Ascii.eqb d) s)) as [|a u IH]; [reflexivity|].
  simpl in H |- *. apply andb_true_iff in H as [Ha Hu].
  apply negb_true_iff in Ha. now rewrite (Ascii.eqb_sym a d), Ha, (IH Hu).
Qed.

Lemma html_name_segment (seg : string) :
  has_char "/" seg = false -> segment (html_name seg).
Proof.
  intros Hs. split.
  - apply (endswith_nonempty ".html"); [discriminate | apply html_name_endswith].
  - unfold html_name.
    destruct (has_char "." seg && negb (endswith ".html" seg)).
    + rewrite has_char_append, (before_free "/" "." seg Hs). reflexivity.
    + destruct (endswith ".html" seg); simpl; [exact Hs|].
      rewrite has_char_append, Hs. reflexivity.
Qed.

(** The value of [get_clean_path] in terms of the non-empty segments of the
    stripped path. *)
Lemma clean_of_path_segments (p : string) :
  clean_of_path p
  = match List.filter nonempty (split "/" (strip is_slash p)) with
    | [] => "index.html"
    | segs => join "/" (removelast segs ++ [html_name (List.last segs "")])
    end.
Proof.
  unfold clean_of_path.
  destruct (strip is_slash p) as [|a q] eqn:Ep; [reflexivity|].
  cbn [nonempty negb].
  destruct (List.filter nonempty (split "/" (String a q))) as [|s segs]; [reflexivity|].
  set (l := removelast (s :: segs)). set (h := html_name (List.last (s :: segs) "")).
  rewrite removelast_last, last_last, length_app. simpl length.
  destruct l as [|d l].
  - reflexivity.
  - replace (length (d :: l) + 1 =? 1) with false
      by (symmetry; apply Nat.eqb_neq; simpl; lia).
    now rewrite join_snoc by discriminate.
Qed.

Lemma removelast_segments (l : list string) :
  Forall segment l -> Forall segment (removelast l).
Proof.
  intros Hl. apply List.Forall_forall. intros x Hx.
  rewrite List.Forall_forall in Hl. apply Hl.
  destruct l as [|y l]; [contradiction|].
  destruct (exists_last (l:=y :: l)) as (l' & z & E); [discriminate|].
  rewrite E in Hx |- *. rewrite removelast_last in Hx.
  apply in_or_app. now left.
Qed.

Lemma last_segment (l : list string) :
  l <> [] -> Forall segment l -> segment (List.last l "").
Proof.
  intros Hne Hl. rewrite List.Forall_forall in Hl. apply Hl.
  destruct (exists_last Hne) as (l' & z & ->).
  rewrite last_last. apply in_or_app. right. now left.
Qed.

(** Every clean path is a list of directory segments followed by a file
    name that ends in [.html]. *)
Lemma clean_of_path_shape (p : string) :
  exists dirs file,
    clean_of_path p = join "/" (dirs ++ [file])
    /\ Forall segment dirs /\ segment file /\ endswith ".html" file = true.
Proof.
  rewrite clean_of_path_segments.
  pose proof (segments_of_split (strip is_slash p)) as Hseg.
  destruct (List.filter nonempty (split "/" (strip is_slash p))) as [|s segs].
  - exists [], "index.html". repeat split; (constructor || discriminate || reflexivity).
  - exists (removelast (s :: segs)), (html_name (List.last (s :: segs) "")).
    split; [reflexivity|]. split; [now apply removelast_segments|].
    split; [|apply html_name_endswith].
    apply html_name_segment. now apply last_segment.
Qed.

Lemma join_segments_free (l : list string) :
  l <> [] -> Forall segment l -> split "/" (join "/" l) = l.
Proof.
  intros Hne Hl. apply split_join; [exact Hne|].
  eapply List.Forall_impl; [|exact Hl]. now intros x [_ Hx].
Qed.

(** *** [get_relative_path] *)

(** A segment that is neither [.] nor [..]. *)
Definition plain (s : string) : Prop := segment s /\ s <> "." /\ s <> "..".














End PathFacts.

(** ** Facts on the HTML rewriter *)
Module RewriterFacts.
Import Py PyFacts UrlParse PathMapper Soup Rewriter.

Lemma startswith_append_false (p t s : string) :
  startswith p s = false -> startswith (p +:+ t) s = false.
Proof.
  revert s. induction p as [|a p IH]; intros s; simpl; [discriminate|].
  destruct s as [|b s]; [reflexivity|].
  destruct (Ascii.eqb a b); simpl; [apply IH | reflexivity].
Qed.

Lemma contains_cons_false (p : string) (a : ascii) (s : string) :
  contains p (String a s) = false ->
  startswith p (String a s) = false /\ contains p s = false.
Proof. cbn [contains]. intros Hc. now apply orb_false_iff in Hc. Qed.

(** A substitution leaves a text without an occurrence as it is. *)
Lemma sub_origin_id (domain tail repl html : string) :
  contains ("https://" +:+ domain) html = false ->
  contains ("http://" +:+ domain) html = false ->
  sub_origin domain tail repl html = html.
Proof.
  unfold sub_origin. induction html as [|a html IH]; intros H1 H2; [reflexivity|].
  apply contains_cons_false in H1 as [S1 C1].
  apply contains_cons_false in H2 as [S2 C2].
  cbn [sub_from List.find].
  rewrite <- (append_assoc "https://" domain tail).
  rewrite <- (append_assoc "http://" domain tail).
  rewrite (startswith_append_false _ tail _ S1).
  rewrite (startswith_append_false _ tail _ S2).
  rewrite !append_assoc. now rewrite (IH C1 C2).
Qed.

Lemma prepass_id (domain html : string) :
  contains ("https://" +:+ domain) html = false ->
  contains ("http://" +:+ domain) html = false ->
  prepass domain html = html.
Proof.
  intros H1 H2. unfold prepass.
  rewrite (sub_origin_id domain "/" "./" html H1 H2).
  now apply sub_origin_id.
Qed.

(** *** When the link pass raises *)

Lemma rewrite_hrefs_element (f : string -> option (option string))
    (name : string) (attrs : list (string * string)) (children : list node) :
  rewrite_hrefs f (Element name attrs children)
  = match (if String.eqb name "a" then
             match get_attr "href" attrs with
             | Some href =>
                 match f href with
                 | None => None
                 | Some None => Some attrs
                 | Some (Some href') => Some (set_attr "href" href' attrs)
                 end
             | None => Some attrs
             end
           else Some attrs),
          rewrite_hrefs_all f children with
    | Some a, Some c => Some (Element name a c)
    | _, _ => None
    end.
Proof.
  cbn [rewrite_hrefs].
  replace ((fix go (l : list node) : option (list node) :=
              match l with
              | [] => Some []
              | c :: l' =>
                  match rewrite_hrefs f c, go l' with
                  | Some c', Some l'' => Some (c' :: l'')
                  | _, _ => None
                  end
              end) children) with (rewrite_hrefs_all f children); [reflexivity|].
  induction children as [|c l IH]; [reflexivity|].
  cbn [rewrite_hrefs_all]. now rewrite IH.
Qed.

Lemma anchor_hrefs_cons (n : node) (s : soup) :
  anchor_hrefs (n :: s) = anchor_hrefs [n] ++ anchor_hrefs s.
Proof.
  unfold anchor_hrefs, find_all_in. cbn [flat_map].
  now rewrite app_nil_r, flat_map_app.
Qed.

Lemma anchor_hrefs_element (name : string) (attrs : list (string * string))
    (children : list node) :
  anchor_hrefs [Element name attrs children]
  = (if String.eqb name "a" then
       match get_attr "href" attrs with Some href => [href] | None => [] end
     else [])
    ++ anchor_hrefs children.
Proof.
  unfold anchor_hrefs, find_all_in.
  cbn [flat_map find_all is_element mem existsb]. rewrite app_nil_r, orb_false_r.
  rewrite flat_map_app. f_equal.
  destruct (String.eqb name "a"); [|reflexivity].
  cbn [flat_map attrs_of]. now rewrite app_nil_r.
Qed.

(** The link pass raises exactly when the rewriting of one of the links
    found by [find_all('a', href=True)] raises. *)
Lemma rewrite_hrefs_all_none (f : string -> option (option string)) (s : soup) :
  rewrite_hrefs_all f s = None
  <-> exists href, In href (anchor_hrefs s) /\ f href = None.
Proof.
  assert (Hnode : forall n,
    rewrite_hrefs f n = None
    <-> exists href, In href (anchor_hrefs [n]) /\ f href = None).
  { induction n as [t|t|name attrs children IH] using Soup.node_ind.
    - split; [discriminate | now intros (h & [] & _)].
    - split; [discriminate | now intros (h & [] & _)].
    - rewrite rewrite_hrefs_element, anchor_hrefs_element.
      assert (Hch : rewrite_hrefs_all f children = None
                    <-> exists href, In href (anchor_hrefs children) /\ f href = None).
      { clear -IH. induction children as [|c l IHl]; cbn [rewrite_hrefs_all].
        - split; [discriminate | now intros (h & [] & _)].
        - inversion IH as [|? ? Hc Hl]; subst. specialize (IHl Hl).
          rewrite anchor_hrefs_cons.
          destruct (rewrite_hrefs f c) as [c'|] eqn:Ec.
          + destruct (rewrite_hrefs_all f l) as [l'|].
            * split; [discriminate|]. intros (h & Hin & Hf).
              apply in_app_or in Hin as [Hin | Hin].
              -- assert (E : Some c' = None) by (apply Hc; eauto).
                 discriminate.
              -- assert (E : Some l' = None) by (apply IHl; eauto).
                 discriminate.
            * split; [intros _ | reflexivity].
              destruct (proj1 IHl eq_refl) as (h & Hin & Hf).
              exists h. split; [apply in_or_app; now right | exact Hf].
          + split; [intros _ | reflexivity].
            destruct (proj1 Hc eq_refl) as (h & Hin & Hf).
            exists h. split; [apply in_or_app; now left | exact Hf]. }
      destruct (String.eqb name "a").
      + destruct (get_attr "href" attrs) as [href|].
        * destruct (f href) as [[h'|]|] eqn:Ef.
          -- destruct (rewrite_hrefs_all f children) as [c|].
             ++ split; [discriminate|]. intros (h & [<- | Hin] & Hf); [congruence|].
                assert (E : Some c = None) by (apply Hch; eauto).
                discriminate.
             ++ split; [intros _ | reflexivity].
                destruct (proj1 Hch eq_refl) as (h & Hin & Hf).
                exists h. split; [now right | exact Hf].
          -- destruct (rewrite_hrefs_all f children) as [c|].
             ++ split; [discriminate|]. intros (h & [<- | Hin] & Hf); [congruence|].
                assert (E : Some c = None) by (apply Hch; eauto).
                discriminate.
             ++ split; [intros _ | reflexivity].
                destruct (proj1 Hch eq_refl) as (h & Hin & Hf).
                exists h. split; [now right | exact Hf].
          -- split; [intros _ | reflexivity]. exists href. split; [now left | exact Ef].
        * cbn [app]. destruct (rewrite_hrefs_all f children) as [c|].
          -- split; [discriminate|]. intros Hex.
             assert (E : Some c = None) by (apply Hch; exact Hex).
             discriminate.
          -- split; [intros _; now apply Hch | reflexivity].
      + cbn [app]. destruct (rewrite_hrefs_all f children) as [c|].
        * split; [discriminate|]. intros Hex.
          assert (E : Some c = None) by (apply Hch; exact Hex).
          discriminate.
        * split; [intros _; now apply Hch | reflexivity]. }
  induction s as [|n s IH]; cbn [rewrite_hrefs_all].
  - split; [discriminate | now intros (h & [] & _)].
  - rewrite anchor_hrefs_cons.
    destruct (rewrite_hrefs f n) as [n'|] eqn:En.
    + destruct (rewrite_hrefs_all f s) as [s'|].
      * split; [discriminate|]. intros (h & Hin & Hf).
        apply in_app_or in Hin as [Hin | Hin].
        -- assert (E : rewrite_hrefs f n = None) by (apply Hnode; eauto).
           congruence.
        -- assert (E : Some s' = None) by (apply IH; eauto).
           discriminate.
      * split; [intros _ | reflexivity].
        destruct (proj1 IH eq_refl) as (h & Hin & Hf).
        exists h. split; [apply in_or_app; now right | exact Hf].
    + split; [intros _ | reflexivity].
      destruct (proj1 (Hnode n) En) as (h & Hin & Hf).
      exists h. split; [apply in_or_app; now left | exact Hf].
Qed.

End RewriterFacts.

(** ** Facts on the Framer stripper *)
Module FramerFacts.
Import Py PyFacts Soup Framer.

(** *** [str.replace] *)



Lemma startswith_append (p a b : string) :
  startswith p a = true -> startswith p (a +:+ b) = true.
Proof.
  revert a. induction p as [|x p IH]; intros a; [reflexivity|].
  destruct a as [|y a]; [discriminate|]. simpl.
  intros Hs. apply andb_true_iff in Hs as [Hxy Hs]. now rewrite Hxy, IH.
Qed.

Lemma startswith_self_append (p b : string) : startswith p (p +:+ b) = true.
Proof. induction p as [|x p IH]; [reflexivity|]. simpl. now rewrite Ascii.eqb_refl. Qed.

Lemma contains_append_r (x a b : string) :
  contains x b = true -> contains x (a +:+ b) = true.
Proof.
  intros Hb. induction a as [|y a IH]; [exact Hb|].
  simpl. rewrite IH. apply orb_true_r.
Qed.

Lemma contains_append_l (x a b : string) :
  contains x a = true -> contains x (a +:+ b) = true.
Proof.
  induction a as [|y a IH]; cbn [contains]; intros Ha.
  - rewrite orb_false_r in Ha. destruct x; [|discriminate].
    destruct b; reflexivity.
  - apply orb_true_iff in Ha as [Ha | Ha].
    + change (String y a +:+ b) with (String y (a +:+ b)). cbn [contains].
      change (String y (a +:+ b)) with (String y a +:+ b).
      now rewrite (startswith_append _ _ b Ha).
    + change (String y a +:+ b) with (String y (a +:+ b)). cbn [contains].
      rewrite (IH Ha). apply orb_true_r.
Qed.


(** *** The injected style block *)




(** *** The removal loops *)


(** A loop whose test fails on every element changes nothing. *)
Lemma prune_id (p : node -> bool) (n : node) :
  every_element (fun e => negb (p e)) n = true -> prune p n = [n].
Proof.
  induction n as [t|t|name attrs children IH] using Soup.node_ind; try reflexivity.
  cbn [every_element prune]. intros Hn. apply andb_true_iff in Hn as [Hp Hch].
  apply negb_true_iff in Hp. rewrite Hp. do 2 f_equal.
  clear Hp. induction children as [|c l IHl]; [reflexivity|].
  inversion IH as [|? ? Hc Hl]; subst.
  cbn [forallb] in Hch. apply andb_true_iff in Hch as [Hc' Hl'].
  cbn [flat_map]. now rewrite (Hc Hc'), (IHl Hl Hl').
Qed.

Lemma prune_all_id (p : node -> bool) (s : soup) :
  forallb (every_element (fun e => negb (p e))) s = true -> prune_all p s = s.
Proof.
  induction s as [|n s IH]; [reflexivity|]. cbn [forallb]. intros Hs.
  apply andb_true_iff in Hs as [Hn Hs]. unfold prune_all in *. cbn [flat_map].
  now rewrite (prune_id p n Hn), (IH Hs).
Qed.

(** A test that looks at the tag and its attributes only. *)
Definition shape_only (q : node -> bool) : Prop :=
  forall name attrs c1 c2, q (Element name attrs c1) = q (Element name attrs c2).

(** A loop keeps a property of tags and attributes that held before. *)
Lemma prune_keeps (q p : node -> bool) (n : node) :
  shape_only q ->
  every_element q n = true -> forallb (every_element q) (prune p n) = true.
Proof.
  intros Hq. induction n as [t|t|name attrs children IH] using Soup.node_ind;
    try reflexivity.
  cbn [every_element prune]. intros Hn. apply andb_true_iff in Hn as [Hqn Hch].
  destruct (p (Element name attrs children)); [reflexivity|].
  cbn [forallb every_element]. rewrite andb_true_r.
  rewrite (Hq name attrs _ children), Hqn. cbn [andb].
  clear Hqn. induction children as [|c l IHl]; [reflexivity|].
  inversion IH as [|? ? Hc Hl]; subst.
  cbn [forallb] in Hch. apply andb_true_iff in Hch as [Hc' Hl'].
  cbn [flat_map]. rewrite forallb_app, (Hc Hc'), (IHl Hl Hl'). reflexivity.
Qed.

Lemma prune_all_keeps (q p : node -> bool) (s : soup) :
  shape_only q ->
  forallb (every_element q) s = true ->
  forallb (every_element q) (prune_all p s) = true.
Proof.
  intros Hq. induction s as [|n s IH]; [reflexivity|]. cbn [forallb]. intros Hs.
  apply andb_true_iff in Hs as [Hn Hs]. unfold prune_all in *. cbn [flat_map].
  now rewrite forallb_app, (prune_keeps q p n Hq Hn), (IH Hs).
Qed.

(** After a loop with a test on tags and attributes, no element passes
    the test. *)
Lemma prune_removes (p : node -> bool) (n : node) :
  shape_only p ->
  forallb (every_element (fun e => negb (p e))) (prune p n) = true.
Proof.
  intros Hp. induction n as [t|t|name attrs children IH] using Soup.node_ind;
    try reflexivity.
  cbn [prune]. destruct (p (Element name attrs children)) eqn:E; [reflexivity|].
  cbn [forallb every_element]. rewrite andb_true_r.
  rewrite (Hp name attrs _ children), E. cbn [negb andb].
  clear E. induction children as [|c l IHl]; [reflexivity|].
  inversion IH as [|? ? Hc Hl]; subst.
  cbn [flat_map]. rewrite forallb_app, Hc, (IHl Hl). reflexivity.
Qed.

Lemma prune_all_removes (p : node -> bool) (s : soup) :
  shape_only p ->
  forallb (every_element (fun e => negb (p e))) (prune_all p s) = true.
Proof.
  intros Hp. induction s as [|n s IH]; [reflexivity|].
  unfold prune_all in *. cbn [flat_map].
  now rewrite forallb_app, (prune_removes p n Hp), IH.
Qed.




Lemma every_element_impl (q q' : node -> bool) (n : node) :
  (forall e, q e = true -> q' e = true) ->
  every_element q n = true -> every_element q' n = true.
Proof.
  intros Himp. induction n as [t|t|name attrs children IH] using Soup.node_ind;
    try reflexivity.
  cbn [every_element]. intros Hn. apply andb_true_iff in Hn as [Hq Hch].
  rewrite (Himp _ Hq). cbn [andb]. clear Hq.
  induction children as [|c l IHl]; [reflexivity|].
  inversion IH as [|? ? Hc Hl]; subst.
  cbn [forallb] in Hch |- *. apply andb_true_iff in Hch as [Hc' Hl'].
  now rewrite (Hc Hc'), (IHl Hl Hl').
Qed.

Lemma every_element_all_impl (q q' : node -> bool) (s : soup) :
  (forall e, q e = true -> q' e = true) ->
  forallb (every_element q) s = true -> forallb (every_element q') s = true.
Proof.
  intros Himp. induction s as [|n s IH]; [reflexivity|]. cbn [forallb].
  intros Hs. apply andb_true_iff in Hs as [Hn Hs].
  now rewrite (every_element_impl q q' n Himp Hn), (IH Hs).
Qed.

End FramerFacts.

(** ** Facts on the page crawler *)
Module SpiderFacts.
Import Py PathMapper Soup Rewriter BaseSiteSpider.

(** *** Traces *)

Lemma page_gets_app (t1 t2 : list event) :
  page_gets (t1 ++ t2) = page_gets t1 ++ page_gets t2.
Proof. apply flat_map_app. Qed.

Lemma follows_app (p : string) (t1 t2 : list event) :
  follows p (t1 ++ t2) = follows p t1 ++ follows p t2.
Proof. apply flat_map_app. Qed.

Lemma visits_app (t1 t2 : list event) :
  visits (t1 ++ t2) = visits t1 ++ visits t2.
Proof. apply flat_map_app. Qed.

Lemma quiet_events (evs : list event) :
  forallb quiet evs = true ->
  page_gets evs = [] /\ visits evs = [] /\ forall p, follows p evs = [].
Proof.
  induction evs as [|e evs IH]; [now repeat split|]. cbn [forallb].
  intros He. apply andb_true_iff in He as [He Hevs].
  destruct (IH Hevs) as (Hg & Hv & Hf).
  destruct e; try discriminate;
    (split; [exact Hg | split; [exact Hv | exact Hf]]).
Qed.

(** A step that leaves the visited set alone and adds quiet events only. *)
Definition quiet_step (st st' : state) : Prop :=
  visited_pages st' = visited_pages st
  /\ exists evs, trace st' = trace st ++ evs /\ forallb quiet evs = true.

Lemma quiet_step_refl (st : state) : quiet_step st st.
Proof. split; [reflexivity|]. exists []. now rewrite app_nil_r. Qed.

Lemma quiet_step_same (st st' : state) :
  visited_pages st' = visited_pages st -> trace st' = trace st -> quiet_step st st'.
Proof. intros Hv Ht. split; [exact Hv|]. exists []. now rewrite app_nil_r. Qed.

Lemma quiet_step_trans (st1 st2 st3 : state) :
  quiet_step st1 st2 -> quiet_step st2 st3 -> quiet_step st1 st3.
Proof.
  intros [V1 (e1 & T1 & Q1)] [V2 (e2 & T2 & Q2)]. split; [congruence|].
  exists (e1 ++ e2). rewrite T2, T1, <- app_assoc. split; [reflexivity|].
  now rewrite forallb_app, Q1, Q2.
Qed.

Lemma quiet_step_log (e : event) (st0 st : state) :
  quiet e = true -> quiet_step st0 st -> quiet_step st0 (log e st).
Proof.
  intros He Hs. eapply quiet_step_trans; [exact Hs|].
  split; [reflexivity|]. exists [e]. split; [reflexivity|]. cbn. now rewrite He.
Qed.

Lemma quiet_step_set_files (f : gmap string string) (st0 st : state) :
  quiet_step st0 st -> quiet_step st0 (set_files f st).
Proof. intros Hs. eapply quiet_step_trans; [exact Hs|]. now apply quiet_step_same. Qed.

Lemma quiet_step_set_assets (a : gset string) (st0 st : state) :
  quiet_step st0 st -> quiet_step st0 (set_assets a st).
Proof. intros Hs. eapply quiet_step_trans; [exact Hs|]. now apply quiet_step_same. Qed.

Lemma quiet_step_set_page_mapping (m : gmap string string) (st0 st : state) :
  quiet_step st0 st -> quiet_step st0 (set_page_mapping m st).
Proof. intros Hs. eapply quiet_step_trans; [exact Hs|]. now apply quiet_step_same. Qed.

Lemma quiet_step_set_discovered_pages (d : list page_info) (st0 st : state) :
  quiet_step st0 st -> quiet_step st0 (set_discovered_pages d st).
Proof. intros Hs. eapply quiet_step_trans; [exact Hs|]. now apply quiet_step_same. Qed.

Ltac quiet_steps :=
  repeat first
    [ apply quiet_step_log; [reflexivity|]
    | apply quiet_step_set_files
    | apply quiet_step_set_assets
    | apply quiet_step_set_page_mapping
    | apply quiet_step_set_discovered_pages
    | assumption
    | apply quiet_step_refl ].

Ltac split_cases :=
  repeat match goal with
  | |- context [match ?x with _ => _ end] => destruct x eqn:?
  end.

Section WithWorld.
Context `{UrlLib} `{SoupLib} `{World}.
Variable variant : platform.
Variable cfg : config.

Lemma download_asset_quiet (asset_url base_url : string) (st0 st : state) :
  quiet_step st0 st -> quiet_step st0 (download_asset cfg asset_url base_url st).
Proof.
  intros Hs. unfold download_asset. split_cases; quiet_steps.
Qed.

Lemma download_assets_quiet (soup : Soup.soup) (base_url : string) (st0 st : state) :
  quiet_step st0 st -> quiet_step st0 (download_assets cfg soup base_url st).
Proof.
  unfold download_assets. generalize (page_assets soup) as l.
  intros l. revert st. induction l as [|a l IH]; intros st Hs; [exact Hs|].
  cbn [fold_left]. apply IH.
  destruct (nonempty a && negb (bool_decide (a ∈ assets st))); [|exact Hs].
  apply download_asset_quiet. quiet_steps.
Qed.

(** The two ways [scrape_page] ends: at one of its opening tests, or
    after the page is marked and requested, with quiet steps and then,
    in multi-page mode without a selection, the loop over its links. *)
Lemma scrape_page_shape (fuel : nat) (url : string) (st st' : state) :
  scrape_page variant cfg (S fuel) url st = Some st' ->
  (blocked cfg url st = true /\ st' = st)
  \/ (blocked cfg url st = false
      /\ (quiet_step
            (log (PageGet url) (set_visited_pages ({[url]} ∪ visited_pages st) st)) st'
          \/ exists st2 links,
               quiet_step
                 (log (PageGet url) (set_visited_pages ({[url]} ∪ visited_pages st) st))
                 st2
               /\ has_selection cfg = false
               /\ follow_links (scrape_page variant cfg fuel) url links st2 = Some st')).
Proof.
  cbn [scrape_page]. destruct (blocked cfg url st) eqn:Hb.
  - intros [= <-]. now left.
  - intros Hrun. right. split; [reflexivity|].
    repeat match type of Hrun with
    | context [match ?x with _ => _ end] => destruct x eqn:?
    end;
    try solve [injection Hrun as <-; left;
               first [apply download_assets_quiet | idtac]; quiet_steps].
    right. eexists _, _. split; [|split; [|exact Hrun]].
    + apply download_assets_quiet. quiet_steps.
    + match goal with
      | Hm : (_ && negb (has_selection cfg))%bool = true |- _ =>
          apply andb_true_iff in Hm as [_ Hm]; now apply negb_true_iff in Hm
      end.
Qed.

(** *** Mirror mode: at most one request per URL, at most 150 pages *)

Definition mirror_inv (st : state) : Prop :=
  NoDup (page_gets (trace st))
  /\ (forall u, u ∈ page_gets (trace st) -> u ∈ visited_pages st)
  /\ size (visited_pages st) <= 150.

Lemma mirror_inv_quiet (st st' : state) :
  quiet_step st st' -> mirror_inv st -> mirror_inv st'.
Proof.
  intros [Hv (evs & Ht & Hq)] (Hn & Hs & Hb).
  destruct (quiet_events evs Hq) as (Hg & _ & _).
  unfold mirror_inv. rewrite Ht, page_gets_app, Hg, app_nil_r, Hv. auto.
Qed.

Lemma mirror_inv_follow (p c : string) (st : state) :
  mirror_inv st -> mirror_inv (log (Follow p c) st).
Proof.
  intros (Hn & Hs & Hb). unfold mirror_inv. cbn [trace visited_pages log].
  rewrite page_gets_app. cbn. rewrite app_nil_r. auto.
Qed.

Lemma blocked_false (url : string) (st : state) :
  blocked cfg url st = false ->
  (url ∉ visited_pages st) /\ size (visited_pages st) < 150.
Proof.
  unfold blocked. intros Hb.
  apply orb_false_iff in Hb as [Hb H150].
  apply orb_false_iff in Hb as [Hb _]. apply orb_false_iff in Hb as [Hv _].
  apply bool_decide_eq_false in Hv. apply Nat.leb_gt in H150. auto.
Qed.

Lemma size_add_new (url : string) (v : gset string) :
  url ∉ v -> size ({[url]} ∪ v) = S (size v).
Proof.
  intros Hu. rewrite size_union by set_solver. now rewrite size_singleton.
Qed.

Lemma mirror_inv_visit (url : string) (st : state) :
  url ∉ visited_pages st -> size (visited_pages st) < 150 ->
  mirror_inv st ->
  mirror_inv (log (PageGet url) (set_visited_pages ({[url]} ∪ visited_pages st) st)).
Proof.
  intros Hu H150 (Hn & Hs & Hb). unfold mirror_inv. cbn [trace visited_pages log set_visited_pages].
  rewrite page_gets_app. cbn [page_gets flat_map app].
  split; [|split].
  - apply NoDup_app. split; [exact Hn|]. split; [|apply NoDup_singleton].
    intros x Hx Hx'. apply list_elem_of_singleton in Hx'. subst x. auto.
  - intros u Hin. apply elem_of_app in Hin as [Hin | Hin].
    + apply Hs in Hin. set_solver.
    + apply list_elem_of_singleton in Hin. set_solver.
  - rewrite size_add_new by exact Hu. lia.
Qed.

(** What the mirror proofs need of a call: the visited set grows and the
    invariant is kept. *)
Definition mirror_ok (st st' : state) : Prop :=
  visited_pages st ⊆ visited_pages st' /\ (mirror_inv st -> mirror_inv st').

Lemma mirror_ok_refl (st : state) : mirror_ok st st.
Proof. split; [reflexivity | auto]. Qed.

Lemma mirror_ok_trans (st1 st2 st3 : state) :
  mirror_ok st1 st2 -> mirror_ok st2 st3 -> mirror_ok st1 st3.
Proof. intros [S1 I1] [S2 I2]. split; [set_solver | auto]. Qed.

Lemma mirror_ok_quiet (st st' : state) : quiet_step st st' -> mirror_ok st st'.
Proof.
  intros Hq. split; [destruct Hq as [-> _]; reflexivity | now apply mirror_inv_quiet].
Qed.

Lemma follow_links_mirror_ok (visit : string -> state -> option state)
    (url : string) (links : list string) :
  (forall l s s', visit l s = Some s' -> mirror_ok s s') ->
  forall st st', follow_links visit url links st = Some st' -> mirror_ok st st'.
Proof.
  intros Hvisit. unfold follow_links.
  induction links as [|x links IH]; intros st st'; cbn [for_each].
  - intros [= <-]. apply mirror_ok_refl.
  - destruct (bool_decide (x ∈ visited_pages st)); [apply IH|].
    destruct (visit x (log (Follow url x) st)) as [s1|] eqn:Ev; [|discriminate].
    intros Hrest. eapply mirror_ok_trans; [|exact (IH _ _ Hrest)].
    eapply mirror_ok_trans; [|exact (Hvisit _ _ _ Ev)].
    split; [reflexivity | apply mirror_inv_follow].
Qed.

Lemma scrape_page_mirror_ok (fuel : nat) (url : string) (st st' : state) :
  scrape_page variant cfg fuel url st = Some st' -> mirror_ok st st'.
Proof.
  revert url st st'. induction fuel as [|fuel IH]; intros url st st' Hrun;
    [discriminate|].
  apply scrape_page_shape in Hrun as [[_ ->] | [Hb Hrun]]; [apply mirror_ok_refl|].
  apply blocked_false in Hb as [Hu H150].
  assert (Hst1 : mirror_ok st
                 (log (PageGet url) (set_visited_pages ({[url]} ∪ visited_pages st) st))).
  { split; [cbn; apply union_subseteq_r | now apply mirror_inv_visit]. }
  destruct Hrun as [Hq | (st2 & links & Hq & _ & Hloop)].
  - apply (mirror_ok_trans _ _ _ Hst1), mirror_ok_quiet, Hq.
  - apply (mirror_ok_trans _ _ _ Hst1).
    apply (mirror_ok_trans _ _ _ (mirror_ok_quiet _ _ Hq)).
    eapply follow_links_mirror_ok; [|exact Hloop]. intros l s s'. apply IH.
Qed.

Lemma for_each_mirror_ok (body : string -> state -> option state) (l : list string) :
  (forall x s s', body x s = Some s' -> mirror_ok s s') ->
  forall st st', for_each body l st = Some st' -> mirror_ok st st'.
Proof.
  intros Hbody. induction l as [|x l IH]; intros st st'; cbn [for_each].
  - intros [= <-]. apply mirror_ok_refl.
  - destruct (body x st) as [s1|] eqn:Ex; [|discriminate].
    intros Hrest. eapply mirror_ok_trans; [exact (Hbody _ _ _ Ex) | exact (IH _ _ Hrest)].
Qed.

Lemma scrape_mirror_ok (fuel : nat) (st st' : state) :
  scrape variant cfg fuel st = Some st' -> mirror_ok st st'.
Proof.
  unfold scrape.
  destruct (String.eqb (scrape_mode cfg) "single_page"); [apply scrape_page_mirror_ok|].
  destruct (has_selection cfg); [|apply scrape_page_mirror_ok].
  destruct (selected_pages cfg) as [sel|].
  - apply for_each_mirror_ok. intros x s s'. apply scrape_page_mirror_ok.
  - intros [= <-]. apply mirror_ok_refl.
Qed.

(** *** Mirror mode: the crawl returns *)

Lemma follow_links_total (visit : string -> state -> option state) (url : string)
    (links : list string) (n : nat) :
  (forall l s, n <= size (visited_pages s) ->
               exists s', visit l s = Some s' /\ n <= size (visited_pages s')) ->
  forall st, n <= size (visited_pages st) ->
             exists st', follow_links visit url links st = Some st'.
Proof.
  intros Hvisit. unfold follow_links.
  induction links as [|x links IH]; intros st Hn; cbn [for_each]; [eauto|].
  destruct (bool_decide (x ∈ visited_pages st)); [now apply IH|].
  destruct (Hvisit x (log (Follow url x) st) Hn) as (s1 & -> & Hn1). now apply IH.
Qed.

Lemma scrape_page_total (fuel : nat) (url : string) (st : state) :
  1 <= fuel -> 151 <= fuel + size (visited_pages st) ->
  exists st', scrape_page variant cfg fuel url st = Some st'.
Proof.
  revert url st. induction fuel as [|fuel IH]; intros url st Hf H151; [lia|].
  cbn [scrape_page]. destruct (blocked cfg url st) eqn:Hb; [eauto|].
  apply blocked_false in Hb as [Hu H150].
  split_cases; eauto.
  match goal with
  | |- exists st', follow_links _ _ _ ?s2 = Some st' =>
      assert (Hq : quiet_step
                     (log (PageGet url)
                        (set_visited_pages ({[url]} ∪ visited_pages st) st)) s2)
        by (apply download_assets_quiet; quiet_steps)
  end.
  destruct Hq as [Hv _]. cbn [visited_pages log set_visited_pages] in Hv.
  apply (follow_links_total _ _ _ (S (size (visited_pages st)))).
  - intros lnk sx Hs. destruct (IH lnk sx) as [sx' Hs']; [lia | lia|].
    exists sx'. split; [exact Hs'|].
    apply scrape_page_mirror_ok in Hs' as [Hsub _].
    apply subseteq_size in Hsub. lia.
  - rewrite Hv, size_add_new by exact Hu. lia.
Qed.

Lemma for_each_total {A : Type} (body : A -> state -> option state) (l : list A) :
  (forall x s, exists s', body x s = Some s') ->
  forall st, exists st', for_each body l st = Some st'.
Proof.
  intros Hbody. induction l as [|x l IH]; intros st; cbn [for_each]; [eauto|].
  destruct (Hbody x st) as [s1 ->]. apply IH.
Qed.

Lemma scrape_total (st : state) :
  exists st', scrape variant cfg 151 st = Some st'.
Proof.
  unfold scrape.
  destruct (String.eqb (scrape_mode cfg) "single_page");
    [apply scrape_page_total; lia|].
  destruct (has_selection cfg); [|apply scrape_page_total; lia].
  destruct (selected_pages cfg) as [sel|]; [|eauto].
  apply for_each_total. intros x s. apply scrape_page_total; lia.
Qed.

(** *** Discovery mode *)

Definition entered (url : string) (depth : nat) (st : state) : state :=
  log (PageGet url)
    (log (Visit url depth) (set_visited_pages ({[url]} ∪ visited_pages st) st)).

(** The two ways [discover_page_links] ends. *)
Lemma discover_page_links_shape (fuel : nat) (url : string) (depth : nat)
    (st st' : state) :
  discover_page_links (S fuel) url depth st = Some st' ->
  (st' = st /\ (url ∈ visited_pages st \/ 3 < depth))
  \/ ((url ∉ visited_pages st) /\ depth <= 3
      /\ (quiet_step (entered url depth st) st'
          \/ exists st2 links,
               quiet_step (entered url depth st) st2
               /\ length links <= 10
               /\ follow_links
                    (fun link_url => discover_page_links fuel link_url (depth + 1))
                    url links st2 = Some st')).
Proof.
  cbn [discover_page_links].
  destruct (bool_decide (url ∈ visited_pages st)) eqn:Hv.
  - intros [= <-]. left. apply bool_decide_eq_true in Hv. auto.
  - apply bool_decide_eq_false in Hv. cbn [orb].
    destruct (3 <? depth) eqn:Hd.
    + intros [= <-]. left. apply Nat.ltb_lt in Hd. auto.
    + apply Nat.ltb_ge in Hd. intros Hrun. right.
      split; [exact Hv|]. split; [exact Hd|]. unfold entered.
      repeat match type of Hrun with
      | context [match ?x with _ => _ end] => destruct x eqn:?
      end;
      try solve [injection Hrun as <-; left; quiet_steps].
      all: right; eexists _, _; split; [|split; [|exact Hrun]];
        [quiet_steps | rewrite length_firstn; lia].
Qed.

Definition discover_inv (st : state) : Prop :=
  NoDup (page_gets (trace st))
  /\ (forall u, u ∈ page_gets (trace st) -> u ∈ visited_pages st)
  /\ (forall u d, (u, d) ∈ visits (trace st) -> d <= 3)
  /\ (forall p, follows p (trace st) <> [] -> p ∈ visited_pages st)
  /\ (forall p, length (follows p (trace st)) <= 10).

(** A call leaves alone the links followed from the pages visited
    before it. *)
Definition frame (st st' : state) : Prop :=
  visited_pages st ⊆ visited_pages st'
  /\ (forall p, p ∈ visited_pages st -> follows p (trace st') = follows p (trace st)).

Definition discover_ok (st st' : state) : Prop :=
  frame st st' /\ (discover_inv st -> discover_inv st').

Lemma frame_refl (st : state) : frame st st.
Proof. split; [reflexivity | auto]. Qed.

Lemma frame_trans (st1 st2 st3 : state) : frame st1 st2 -> frame st2 st3 -> frame st1 st3.
Proof.
  intros [S1 F1] [S2 F2]. split; [set_solver|].
  intros p Hp. rewrite F2 by set_solver. now apply F1.
Qed.

Lemma frame_quiet (st st' : state) : quiet_step st st' -> frame st st'.
Proof.
  intros [Hv (evs & Ht & Hq)]. destruct (quiet_events evs Hq) as (_ & _ & Hf).
  split; [now rewrite Hv|]. intros p _. now rewrite Ht, follows_app, Hf, app_nil_r.
Qed.

Lemma discover_inv_quiet (st st' : state) :
  quiet_step st st' -> discover_inv st -> discover_inv st'.
Proof.
  intros [Hv (evs & Ht & Hq)] (Hn & Hs & Hd & Hfv & Hf10).
  destruct (quiet_events evs Hq) as (Hg & Hvis & Hf).
  unfold discover_inv. rewrite Ht, page_gets_app, visits_app, Hg, Hvis, !app_nil_r, Hv.
  repeat split; try assumption.
  - intros p. rewrite follows_app, Hf, app_nil_r. apply Hfv.
  - intros p. rewrite follows_app, Hf, app_nil_r. apply Hf10.
Qed.

Lemma discover_ok_refl (st : state) : discover_ok st st.
Proof. split; [apply frame_refl | auto]. Qed.

Lemma discover_ok_trans (st1 st2 st3 : state) :
  discover_ok st1 st2 -> discover_ok st2 st3 -> discover_ok st1 st3.
Proof. intros [F1 I1] [F2 I2]. split; [now apply (frame_trans _ st2) | auto]. Qed.

Lemma follows_entered (p url : string) (depth : nat) (st : state) :
  follows p (trace (entered url depth st)) = follows p (trace st).
Proof.
  unfold entered. cbn [trace log set_visited_pages].
  rewrite !follows_app. cbn. now rewrite !app_nil_r.
Qed.

Lemma discover_ok_entered (url : string) (depth : nat) (st : state) :
  url ∉ visited_pages st -> depth <= 3 -> discover_ok st (entered url depth st).
Proof.
  intros Hu Hd. split.
  - split; [cbn; apply union_subseteq_r|]. intros p _. apply follows_entered.
  - intros (Hn & Hs & Hdep & Hfv & Hf10). unfold discover_inv.
    assert (Hg : page_gets (trace (entered url depth st)) = page_gets (trace st) ++ [url]).
    { unfold entered. cbn [trace log set_visited_pages].
      rewrite !page_gets_app. cbn. now rewrite app_nil_r. }
    assert (Hv : visits (trace (entered url depth st)) = visits (trace st) ++ [(url, depth)]).
    { unfold entered. cbn [trace log set_visited_pages].
      rewrite !visits_app. cbn. now rewrite app_nil_r. }
    rewrite Hg, Hv. repeat split.
    + apply NoDup_app. split; [exact Hn|]. split; [|apply NoDup_singleton].
      intros x Hx Hx'. apply list_elem_of_singleton in Hx'. subst x. auto.
    + intros u Hin. cbn. apply elem_of_app in Hin as [Hin | Hin].
      * apply Hs in Hin. set_solver.
      * apply list_elem_of_singleton in Hin. set_solver.
    + intros u d Hin. apply elem_of_app in Hin as [Hin | Hin]; [eauto|].
      apply list_elem_of_singleton in Hin. congruence.
    + intros p Hp. rewrite follows_entered in Hp. apply Hfv in Hp. cbn. set_solver.
    + intros p. rewrite follows_entered. apply Hf10.
Qed.

Lemma follows_log_follow (p q c : string) (st : state) :
  follows p (trace (log (Follow q c) st))
  = follows p (trace st) ++ (if String.eqb q p then [c] else []).
Proof. cbn [trace log]. rewrite follows_app. cbn. now rewrite app_nil_r. Qed.

(** The loop over the links of the page [p]: at most one link is followed
    for each element of the list. *)
Lemma follow_links_discover (visit : string -> state -> option state)
    (p : string) (links : list string) :
  (forall l s s', visit l s = Some s' -> discover_ok s s') ->
  forall st st',
    follow_links visit p links st = Some st' ->
    p ∈ visited_pages st ->
    discover_inv st ->
    length (follows p (trace st)) + length links <= 10 ->
    discover_inv st'
    /\ visited_pages st ⊆ visited_pages st'
    /\ (forall q, q ∈ visited_pages st -> q <> p ->
                  follows q (trace st') = follows q (trace st)).
Proof.
  intros Hvisit. unfold follow_links.
  induction links as [|x links IH]; intros st st'; cbn [for_each length].
  - intros [= <-] _ Hinv _. split; [exact Hinv | split; [reflexivity | auto]].
  - intros Hrun Hp Hinv Hlen.
    destruct (bool_decide (x ∈ visited_pages st)).
    { apply IH; [exact Hrun | exact Hp | exact Hinv | lia]. }
    destruct (visit x (log (Follow p x) st)) as [s1|] eqn:Ev; [|discriminate].
    destruct (Hvisit _ _ _ Ev) as [[Hsub Hfr] Hkeep].
    assert (Hinv0 : discover_inv (log (Follow p x) st)).
    { destruct Hinv as (Hn & Hs & Hdep & Hfv & Hf10). unfold discover_inv.
      cbn [visited_pages log].
      replace (page_gets (trace (log (Follow p x) st))) with (page_gets (trace st))
        by (cbn [trace log]; rewrite page_gets_app; cbn; now rewrite app_nil_r).
      replace (visits (trace (log (Follow p x) st))) with (visits (trace st))
        by (cbn [trace log]; rewrite visits_app; cbn; now rewrite app_nil_r).
      repeat split; try assumption.
      - intros q. rewrite follows_log_follow.
        destruct (String.eqb p q) eqn:E.
        + apply String.eqb_eq in E. now subst q.
        + rewrite app_nil_r. apply Hfv.
      - intros q. rewrite follows_log_follow.
        destruct (String.eqb p q) eqn:E.
        + apply String.eqb_eq in E. subst q. rewrite length_app. cbn. lia.
        + rewrite app_nil_r. apply Hf10. }
    cbn [visited_pages log] in Hsub, Hfr.
    assert (Hp1 : follows p (trace s1) = follows p (trace st) ++ [x]).
    { rewrite (Hfr p Hp), follows_log_follow. now rewrite String.eqb_refl. }
    destruct (IH s1 st' Hrun) as (Hinv' & Hsub' & Hfr').
    + set_solver.
    + now apply Hkeep.
    + rewrite Hp1, length_app. cbn. lia.
    + split; [exact Hinv'|]. split; [set_solver|].
      intros q Hq Hne. rewrite Hfr' by (set_solver || exact Hne).
      rewrite (Hfr q Hq), follows_log_follow.
      replace (String.eqb p q) with false; [now rewrite app_nil_r|].
      symmetry. apply String.eqb_neq. congruence.
Qed.

(** The same loop without the invariant: what it leaves alone. *)
Lemma follow_links_frame (visit : string -> state -> option state)
    (p : string) (links : list string) :
  (forall l s s', visit l s = Some s' -> frame s s') ->
  forall st st',
    follow_links visit p links st = Some st' ->
    visited_pages st ⊆ visited_pages st'
    /\ (forall q, q ∈ visited_pages st -> q <> p ->
                  follows q (trace st') = follows q (trace st)).
Proof.
  intros Hvisit. unfold follow_links.
  induction links as [|x links IH]; intros st st'; cbn [for_each].
  - intros [= <-]. auto.
  - destruct (bool_decide (x ∈ visited_pages st)); [apply IH|].
    destruct (visit x (log (Follow p x) st)) as [s1|] eqn:Ev; [|discriminate].
    intros Hrest. destruct (Hvisit _ _ _ Ev) as [Hs1 Hf1].
    destruct (IH _ _ Hrest) as [Hs2 Hf2].
    cbn [visited_pages log] in Hs1, Hf1.
    split; [set_solver|]. intros q Hq Hne.
    rewrite Hf2 by (set_solver || exact Hne).
    rewrite (Hf1 q Hq), follows_log_follow.
    replace (String.eqb p q) with false; [now rewrite app_nil_r|].
    symmetry. apply String.eqb_neq. congruence.
Qed.

Lemma follows_quiet (p : string) (st st' : state) :
  quiet_step st st' -> follows p (trace st') = follows p (trace st).
Proof.
  intros [_ (evs & Ht & Hq)]. destruct (quiet_events evs Hq) as (_ & _ & Hf).
  now rewrite Ht, follows_app, Hf, app_nil_r.
Qed.

Lemma discover_page_links_ok (fuel : nat) (url : string) (depth : nat) (st st' : state) :
  discover_page_links fuel url depth st = Some st' -> discover_ok st st'.
Proof.
  revert url depth st st'. induction fuel as [|fuel IH]; intros url depth st st' Hrun;
    [discriminate|].
  apply discover_page_links_shape in Hrun
    as [[-> _] | (Hu & Hd & Hrun)]; [apply discover_ok_refl|].
  pose proof (discover_ok_entered url depth st Hu Hd) as Hent.
  destruct Hrun as [Hq | (st2 & links & Hq & Hlen & Hloop)].
  - apply (discover_ok_trans _ _ _ Hent).
    split; [now apply frame_quiet | now apply discover_inv_quiet].
  - assert (Hin2 : url ∈ visited_pages st2).
    { destruct Hq as [-> _]. cbn. set_solver. }
    assert (Hsub2 : visited_pages st ⊆ visited_pages st2).
    { destruct Hq as [-> _]. cbn. set_solver. }
    assert (Hsame : forall p, follows p (trace st2) = follows p (trace st)).
    { intros p. rewrite (follows_quiet p _ _ Hq). apply follows_entered. }
    destruct (follow_links_frame _ url links
                (fun l s s' Hr => proj1 (IH l (depth + 1) s s' Hr)) _ _ Hloop)
      as [Hsub' Hfr'].
    split.
    + split; [set_solver|]. intros q Hq'.
      assert (Hne : q <> url) by (intros ->; contradiction).
      rewrite Hfr' by (set_solver || exact Hne). apply Hsame.
    + intros Hinv.
      assert (Hinv2 : discover_inv st2).
      { apply (discover_inv_quiet _ _ Hq). now apply Hent. }
      assert (Hzero : follows url (trace st2) = []).
      { rewrite Hsame. destruct Hinv as (_ & _ & _ & Hfv & _).
        destruct (follows url (trace st)) eqn:E; [reflexivity|].
        exfalso. apply Hu, Hfv. rewrite E. discriminate. }
      apply (follow_links_discover _ url links
               (fun l s s' Hr => IH l (depth + 1) s s' Hr) _ _ Hloop Hin2 Hinv2).
      rewrite Hzero. cbn. lia.
Qed.

(** *** Discovery mode: the crawl returns *)

Lemma discover_page_links_total (fuel : nat) (url : string) (depth : nat) (st : state) :
  1 <= fuel -> 5 <= fuel + depth ->
  exists st', discover_page_links fuel url depth st = Some st'.
Proof.
  revert url depth st. induction fuel as [|fuel IH]; intros url depth st Hf H5; [lia|].
  cbn [discover_page_links].
  destruct (bool_decide (url ∈ visited_pages st)); [cbn; eauto|]. cbn [orb].
  destruct (3 <? depth) eqn:Hd; [eauto|]. apply Nat.ltb_ge in Hd.
  split_cases; eauto.
  all: unfold follow_links; apply for_each_total;
    intros lnk sx; destruct (bool_decide (lnk ∈ visited_pages sx)); [eauto|];
    apply IH; lia.
Qed.

Lemma mirror_inv_initial : mirror_inv initial_state.
Proof.
  split; [apply NoDup_nil_2|]. split; [intros u Hu; inversion Hu|].
  cbn [visited_pages initial_state]. rewrite size_empty. lia.
Qed.

Lemma discover_inv_initial : discover_inv initial_state.
Proof.
  split; [apply NoDup_nil_2|]. split; [intros u Hu; inversion Hu|].
  split; [intros u d Hu; inversion Hu|].
  split; [intros p Hp; now cbn in Hp | intros p; cbn; lia].
Qed.

(** *** The trace only grows *)

Definition extends (st st' : state) : Prop := exists evs, trace st' = trace st ++ evs.

Lemma extends_refl (st : state) : extends st st.
Proof. exists []. now rewrite app_nil_r. Qed.

Lemma extends_trans (st1 st2 st3 : state) : extends st1 st2 -> extends st2 st3 -> extends st1 st3.
Proof. intros [e1 E1] [e2 E2]. exists (e1 ++ e2). now rewrite E2, E1, app_assoc. Qed.

Lemma extends_quiet (st st' : state) : quiet_step st st' -> extends st st'.
Proof. intros [_ (evs & Ht & _)]. now exists evs. Qed.

Lemma extends_log (e : event) (st : state) : extends st (log e st).
Proof. now exists [e]. Qed.

Lemma follow_links_extends (visit : string -> state -> option state) (p : string)
    (links : list string) :
  (forall l s s', visit l s = Some s' -> extends s s') ->
  forall st st', follow_links visit p links st = Some st' -> extends st st'.
Proof.
  intros Hvisit. unfold follow_links.
  induction links as [|x links IH]; intros st st'; cbn [for_each].
  - intros [= <-]. apply extends_refl.
  - destruct (bool_decide (x ∈ visited_pages st)); [apply IH|].
    destruct (visit x (log (Follow p x) st)) as [s1|] eqn:Ev; [|discriminate].
    intros Hrest. eapply extends_trans; [apply extends_log|].
    eapply extends_trans; [exact (Hvisit _ _ _ Ev) | exact (IH _ _ Hrest)].
Qed.

Lemma scrape_page_extends (fuel : nat) (url : string) (st st' : state) :
  scrape_page variant cfg fuel url st = Some st' -> extends st st'.
Proof.
  revert url st st'. induction fuel as [|fuel IH]; intros url st st' Hrun;
    [discriminate|].
  apply scrape_page_shape in Hrun as [[_ ->] | [_ Hrun]]; [apply extends_refl|].
  assert (He : extends st
                 (log (PageGet url) (set_visited_pages ({[url]} ∪ visited_pages st) st)))
    by (now exists [PageGet url]).
  destruct Hrun as [Hq | (st2 & links & Hq & _ & Hloop)].
  - exact (extends_trans _ _ _ He (extends_quiet _ _ Hq)).
  - apply (extends_trans _ _ _ He), (extends_trans _ _ _ (extends_quiet _ _ Hq)).
    eapply follow_links_extends; [|exact Hloop]. intros l s s'. apply IH.
Qed.

Lemma discover_page_links_extends (fuel : nat) (url : string) (depth : nat)
    (st st' : state) :
  discover_page_links fuel url depth st = Some st' -> extends st st'.
Proof.
  revert url depth st st'. induction fuel as [|fuel IH]; intros url depth st st' Hrun;
    [discriminate|].
  apply discover_page_links_shape in Hrun
    as [[-> _] | (_ & _ & Hrun)]; [apply extends_refl|].
  assert (He : extends st (entered url depth st))
    by (exists [Visit url depth; PageGet url]; unfold entered; cbn;
        now rewrite <- app_assoc).
  destruct Hrun as [Hq | (st2 & links & Hq & _ & Hloop)].
  - exact (extends_trans _ _ _ He (extends_quiet _ _ Hq)).
  - apply (extends_trans _ _ _ He), (extends_trans _ _ _ (extends_quiet _ _ Hq)).
    eapply follow_links_extends; [|exact Hloop]. intros l s s'. apply IH.
Qed.

Lemma extends_page_gets (st st' : state) (u : string) :
  extends st st' -> u ∈ page_gets (trace st) -> u ∈ page_gets (trace st').
Proof.
  intros [evs ->] Hu. rewrite page_gets_app. apply elem_of_app. now left.
Qed.

(** *** A crawl over an explicit selection requests every selected page *)

Lemma scrape_page_selected (url : string) (st : state) :
  has_selection cfg = true ->
  blocked cfg url st = false ->
  exists st',
    scrape_page variant cfg 151 url st = Some st'
    /\ page_gets (trace st') = page_gets (trace st) ++ [url]
    /\ visited_pages st' = {[url]} ∪ visited_pages st.
Proof.
  intros Hsel Hb.
  destruct (scrape_page_total 151 url st) as [st' Hrun]; [lia | lia|].
  exists st'. split; [exact Hrun|].
  apply scrape_page_shape in Hrun as [[Hb' _] | [_ Hrun]]; [congruence|].
  destruct Hrun as [Hq | (st2 & links & _ & Hns & _)]; [|congruence].
  destruct Hq as [Hv (evs & Ht & Hquiet)].
  destruct (quiet_events evs Hquiet) as (Hg & _ & _).
  split; [|exact Hv].
  rewrite Ht, page_gets_app, Hg, app_nil_r. cbn [trace log set_visited_pages].
  rewrite page_gets_app. reflexivity.
Qed.

Lemma selection_loop (sel : gset string) (l : list string) (st : state) :
  String.eqb (scrape_mode cfg) "single_page" = false ->
  selected_pages cfg = Some sel ->
  has_selection cfg = true ->
  NoDup l ->
  (forall x, x ∈ l -> x ∈ sel /\ x ∉ visited_pages st) ->
  size (visited_pages st) + length l <= 150 ->
  exists st',
    for_each (scrape_page variant cfg 151) l st = Some st'
    /\ page_gets (trace st') = page_gets (trace st) ++ l
    /\ visited_pages st' = list_to_set l ∪ visited_pages st.
Proof.
  intros Hmode Hsel Hhas. revert st.
  induction l as [|x l IH]; intros st Hnd Hin Hsize; cbn [for_each].
  - exists st. split; [reflexivity|]. rewrite app_nil_r. split; [reflexivity|].
    cbn. set_solver.
  - apply NoDup_cons in Hnd as [Hx Hnd].
    destruct (Hin x) as [Hxs Hxv]; [left|].
    assert (Hb : blocked cfg x st = false).
    { unfold blocked, in_selection. rewrite Hmode, Hhas, Hsel.
      rewrite (bool_decide_eq_false_2 _ Hxv), (bool_decide_eq_true_2 _ Hxs).
      cbn [orb andb negb]. apply Nat.leb_gt. cbn [length] in Hsize. lia. }
    destruct (scrape_page_selected x st Hhas Hb) as (s1 & -> & Hg1 & Hv1).
    destruct (IH s1 Hnd) as (st' & Hrun & Hg & Hv).
    + intros y Hy. destruct (Hin y) as [Hys Hyv]; [now right|].
      split; [exact Hys|]. rewrite Hv1. intros Hy'.
      apply elem_of_union in Hy' as [Hy' | Hy']; [|contradiction].
      apply elem_of_singleton in Hy'. subst y. contradiction.
    + rewrite Hv1, size_add_new by exact Hxv. cbn [length] in Hsize. lia.
    + exists st'. split; [exact Hrun|]. split.
      * rewrite Hg, Hg1, <- app_assoc. reflexivity.
      * rewrite Hv, Hv1. cbn. set_solver.
Qed.

End WithWorld.
End SpiderFacts.

(** * The claims *)

Section PathMapperClaims.
Import Py PyFacts UrlParse UrlFacts PathMapper PathFacts.
Context `{UrlLib}.

(** C1.  [get_clean_path] is a function of the URL alone (a pure
    definition); it gives the stated value on the example URL; cutting the
    URL at its first [?] or [#] does not change the result; a path that is
    empty or [/] gives [index.html]; otherwise the result, split at [/],
    is the list of non-empty path segments with the last one replaced by
    its [.html] name, so the folders are kept; the file name always ends in
    [.html]: a segment without a dot gets [.html] appended, a segment
    ending in [.html] is kept, and any other extension is replaced, from
    the first dot on. *)
Theorem C1_get_clean_path :
  get_clean_path "https://example.com/blog/post-1?utm=x#top" = "blog/post-1.html"
  /\ (forall url, get_clean_path url = get_clean_path (strip_fragment_query url))
  /\ (forall url r, urlparse url = Some r ->
        path r = "" \/ path r = "/" -> get_clean_path url = "index.html")
  /\ (forall url r, urlparse url = Some r ->
        forall segments,
          segments = List.filter nonempty (split "/" (strip is_slash (path r))) ->
          segments <> [] ->
          split "/" (get_clean_path url)
          = removelast segments ++ [html_name (List.last segments "")])
  /\ (forall url, endswith ".html" (basename (get_clean_path url)) = true)
  /\ (forall seg,
        (has_char "." seg = false -> html_name seg = seg +:+ ".html")
        /\ (endswith ".html" seg = true -> html_name seg = seg)
        /\ (has_char "." seg = true -> endswith ".html" seg = false ->
            html_name seg = before "." seg +:+ ".html"
            /\ has_char "." (before "." seg) = false)).
Proof.
  split; [vm_compute; reflexivity|].
  split.
  { intros url. destruct (strip_fragment_query_split url) as [Hu [E | (c & t & Hc & E)]].
    - now rewrite <- E.
    - rewrite E at 1. unfold get_clean_path.
      pose proof (urlparse_tail (strip_fragment_query url) t c Hu Hc) as Ht.
      destruct (urlparse (strip_fragment_query url)) as [r|].
      + destruct Ht as (r' & -> & _ & _ & ->). reflexivity.
      + now rewrite Ht. }
  split.
  { intros url r Hr Hp. unfold get_clean_path. rewrite Hr.
    destruct Hp as [-> | ->]; reflexivity. }
  split.
  { intros url r Hr segments -> Hne. unfold get_clean_path. rewrite Hr.
    rewrite clean_of_path_segments.
    pose proof (segments_of_split (strip is_slash (path r))) as Hseg.
    destruct (List.filter nonempty (split "/" (strip is_slash (path r))))
      as [|s segs]; [congruence|].
    apply join_segments_free; [now destruct (removelast (s :: segs))|].
    apply Forall_app. split; [now apply removelast_segments|].
    constructor; [|constructor].
    apply html_name_segment. now apply last_segment. }
  split.
  { intros url. unfold get_clean_path.
    destruct (urlparse url) as [r|]; [|reflexivity].
    destruct (clean_of_path_shape (path r)) as (dirs & file & -> & _ & [_ Hf] & He).
    now rewrite basename_join. }
  intros seg. unfold html_name. split; [|split].
  - intros Hnd. rewrite Hnd. simpl.
    destruct (endswith ".html" seg) eqn:E; [|reflexivity].
    exfalso.
    assert (Hdot : forall s, endswith ".html" s = true -> has_char "." s = true).
    { clear. induction s as [|a s IH]; simpl; [discriminate|]. intros Hs.
      apply orb_true_iff in Hs as [Hs | Hs].
      - apply andb_true_iff in Hs as [Ha _]. rewrite Ha. reflexivity.
      - rewrite (IH Hs). apply orb_true_r. }
    rewrite (Hdot _ E) in Hnd. discriminate.
  - intros ->. now rewrite andb_false_r.
  - intros -> ->. split; [reflexivity | apply before_without].
Qed.

End PathMapperClaims.

(** C1 at [https://example.com/shop/item.php?id=3]. *)
Lemma C1_get_clean_path_witness :
  PathMapper.get_clean_path (H:=example_lib) "https://example.com/shop/item.php?id=3"
  = "shop/item.html"
  /\ PathMapper.get_clean_path (H:=example_lib) "https://example.com/" = "index.html"
  /\ Py.split "/" (PathMapper.get_clean_path (H:=example_lib) "https://example.com/shop/item.php?id=3")
     = ["shop"; "item.html"].
Proof.
  destruct (@C1_get_clean_path example_lib) as (_ & Hq & Hroot & Hseg & _ & _).
  split; [|split].
  - rewrite Hq. vm_compute. reflexivity.
  - eapply Hroot; [vm_compute; reflexivity | right; reflexivity].
  - erewrite Hseg; [|vm_compute; reflexivity|reflexivity|vm_compute; discriminate].
    vm_compute. reflexivity.
Defined.

Section RelativePathClaims.
Import Py PyFacts UrlParse UrlFacts PathMapper PathFacts.
Context `{UrlLib}.


End RelativePathClaims.



Section InternalLinkClaims.
Import Py PyFacts UrlParse UrlFacts PathMapper PathFacts.
Context `{UrlLib}.

Lemma http_link_not_special (link : string) :
  startswith "http" link = true ->
  nonempty link = true /\ is_special_link link = false.
Proof.
  destruct link as [|a link]; [discriminate|]. cbn [startswith].
  intros Hl. apply andb_true_iff in Hl as [Ha _].
  apply Ascii.eqb_eq in Ha. subst a. split; reflexivity.
Qed.

(** C6 (amended).  [is_internal_link] is false for every link that starts
    with [mailto:], [tel:], [#] or [javascript:]; for a link that starts
    with [http] it is true exactly when both URLs parse, the authority of
    the link equals the authority of the current page and no domain of the
    denylist occurs in the authority of the link; every other non-empty
    link that does not start with [//] is classified internal, and the
    denylist is not consulted for it. *)
Theorem C6_is_internal_link :
  (forall link cur, is_special_link link = true -> is_internal_link link cur = false)
  /\ (forall link cur,
        startswith "http" link = true ->
        (is_internal_link link cur = true <->
         exists l c, urlparse link = Some l /\ urlparse cur = Some c
                     /\ netloc c = netloc l
                     /\ existsb (fun domain => contains domain (netloc l))
                          external_domains = false))
  /\ (forall link cur,
        link <> "" -> is_special_link link = false ->
        startswith "http" link = false -> startswith "//" link = false ->
        is_internal_link link cur = true).
Proof.
  split; [|split].
  - intros link cur Hs. unfold is_internal_link. rewrite Hs. now rewrite orb_true_r.
  - intros link cur Hh. destruct (http_link_not_special link Hh) as [Hne Hns].
    unfold is_internal_link. rewrite Hne, Hns, Hh. cbn [negb orb].
    destruct (urlparse cur) as [c|], (urlparse link) as [l|].
    + destruct (existsb (fun domain => contains domain (netloc l)) external_domains) eqn:Hd.
      * split; [discriminate|]. intros (l' & c' & [= <-] & [= <-] & _ & Hd'). congruence.
      * rewrite String.eqb_eq. split.
        -- intros E. now exists l, c.
        -- now intros (l' & c' & [= <-] & [= <-] & E & _).
    + split; [discriminate | now intros (l' & c' & [=] & _)].
    + split; [discriminate | now intros (l' & c' & _ & [=] & _)].
    + split; [discriminate | now intros (l' & c' & [=] & _)].
  - intros link cur Hne Hns Hh _. unfold is_internal_link.
    apply nonempty_true in Hne. now rewrite Hne, Hns, Hh.
Qed.

End InternalLinkClaims.

(** C6 at the links [https://example.com/about] and [/about] of the page
    [https://example.com/]. *)
Lemma C6_is_internal_link_witness :
  PathMapper.is_internal_link (H:=example_lib) "mailto:me@example.com" "https://example.com/" = false
  /\ PathMapper.is_internal_link (H:=example_lib) "https://example.com/about" "https://example.com/" = true
  /\ PathMapper.is_internal_link (H:=example_lib) "/about" "https://example.com/" = true.
Proof.
  destruct (@C6_is_internal_link example_lib) as (Hs & Hh & Hr).
  split; [|split].
  - apply Hs. reflexivity.
  - apply Hh; [reflexivity|].
    eexists _, _. repeat split; vm_compute; reflexivity.
  - apply Hr; [discriminate | reflexivity..].
Defined.

(** C6 as stated fails on a relative link of a page whose own host is in
    the denylist: [/about] on [https://www.youtube.com/feed] resolves to
    [https://www.youtube.com/about], whose authority contains the denylisted
    [youtube.com], and is classified internal. *)
Lemma C6_counterexample :
  PathMapper.is_internal_link (H:=example_lib) "/about" "https://www.youtube.com/feed" = true
  /\ urljoin (UrlLib:=example_lib) "https://www.youtube.com/feed" "/about"
     = Some "https://www.youtube.com/about"
  /\ option_map UrlParse.netloc
       (UrlParse.urlparse (H:=example_lib) "https://www.youtube.com/about")
     = Some "www.youtube.com"
  /\ existsb (fun domain => Py.contains domain "www.youtube.com")
       PathMapper.external_domains = true.
Proof. repeat split; vm_compute; reflexivity. Qed.

Section RewriterClaims.
Import Py PyFacts UrlParse PathMapper Soup Rewriter RewriterFacts.
Context `{UrlLib} `{SoupLib}.

(** C10 (amended).  [process_html_content] returns a string on every
    input: every exception of its body is caught.  When the base URL does
    not parse, the input is returned unchanged.  When the parser raises or
    the rewriting of one of the links raises, the result is the output of
    the two textual substitutions, never a partly link-rewritten
    document; it is the input itself when the input contains no absolute
    URL of the page's own origin.  Otherwise the result is the serialised
    document with every link rewritten. *)
Theorem C10_process_html_content (html base_url : string) :
  (urlparse base_url = None -> process_html_content html base_url = html)
  /\ (forall b, urlparse base_url = Some b ->
        (soup_parse (prepass (netloc b) html) = None
         \/ exists soup href,
              soup_parse (prepass (netloc b) html) = Some soup
              /\ In href (anchor_hrefs soup)
              /\ new_href base_url (get_clean_path base_url) href = None) ->
        process_html_content html base_url = prepass (netloc b) html
        /\ (contains ("https://" +:+ netloc b) html = false ->
            contains ("http://" +:+ netloc b) html = false ->
            process_html_content html base_url = html))
  /\ (forall b soup soup', urlparse base_url = Some b ->
        soup_parse (prepass (netloc b) html) = Some soup ->
        rewrite_hrefs_all (new_href base_url (get_clean_path base_url)) soup = Some soup' ->
        process_html_content html base_url = soup_str soup').
Proof.
  unfold process_html_content. split; [|split].
  - now intros ->.
  - intros b -> Hfail.
    assert (Hdoc : rewrite_document (prepass (netloc b) html) base_url = None).
    { unfold rewrite_document. destruct Hfail as [-> | (soup & href & -> & Hin & Hf)]; [reflexivity|].
      replace (rewrite_hrefs_all (new_href base_url (get_clean_path base_url)) soup)
        with (@None Soup.soup); [reflexivity|].
      symmetry. apply rewrite_hrefs_all_none. eauto. }
    rewrite Hdoc. split; [reflexivity|]. intros H1 H2. now apply prepass_id.
  - intros b soup soup' -> Hp Hr. unfold rewrite_document. now rewrite Hp, Hr.
Qed.

End RewriterClaims.

(** C10 on a page of [https://example.com] with a link to its own origin
    and a link whose URL [urlparse] rejects. *)
Lemma C10_process_html_content_witness :
  Rewriter.process_html_content (H:=example_lib) (H0:=ExampleSoup.example_soup)
    "<a href='https://example.com/x'>x</a><a href='http://[bad'>y</a>"
    "https://example.com/page"
  = "<a href='./x'>x</a><a href='http://[bad'>y</a>".
Proof.
  destruct (@C10_process_html_content example_lib ExampleSoup.example_soup
              "<a href='https://example.com/x'>x</a><a href='http://[bad'>y</a>"
              "https://example.com/page") as (_ & Hfail & _).
  refine (proj1 (Hfail _ eq_refl _)).
  right. exists ExampleSoup.two_links, "http://[bad".
  split; [reflexivity|]. split; [right; left; reflexivity | reflexivity].
Defined.

(** C10 as stated fails when the exception comes after the textual
    substitutions: the second link of this page makes [urlparse] raise, and
    the page comes back with its first link already collapsed to [./x]. *)
Lemma C10_counterexample :
  UrlParse.urlparse (H:=example_lib) "http://[bad" = None
  /\ Rewriter.new_href (H:=example_lib) "https://example.com/page"
       (PathMapper.get_clean_path (H:=example_lib) "https://example.com/page")
       "http://[bad" = None
  /\ Rewriter.process_html_content (H:=example_lib) (H0:=ExampleSoup.example_soup)
       "<a href='https://example.com/x'>x</a><a href='http://[bad'>y</a>"
       "https://example.com/page"
     = "<a href='./x'>x</a><a href='http://[bad'>y</a>"
  /\ Rewriter.process_html_content (H:=example_lib) (H0:=ExampleSoup.example_soup)
       "<a href='https://example.com/x'>x</a><a href='http://[bad'>y</a>"
       "https://example.com/page"
     <> "<a href='https://example.com/x'>x</a><a href='http://[bad'>y</a>".
Proof. repeat split; try (vm_compute; reflexivity). vm_compute. discriminate. Qed.

(** ** What the removal loops keep *)
Module KeptFacts.
Import Py PyFacts Soup Framer FramerFacts FramerKept.






















End KeptFacts.

Section FramerClaims.
Import Py PyFacts Soup Framer FramerFacts FramerKept KeptFacts.
Context `{SoupLib}.


End FramerClaims.


(** * Further properties of the crawler *)

Module CrawlFacts.
Import Py PathMapper Soup Rewriter BaseSiteSpider SpiderFacts.

(** A duplicate-free list of members of a set is no longer than the set. *)
Lemma NoDup_length_size (l : list string) (X : gset string) :
  NoDup l -> (forall u, u ∈ l -> u ∈ X) -> length l <= size X.
Proof.
  intros Hn Hs. rewrite <- (size_list_to_set (C:=gset string) l) by exact Hn.
  apply subseteq_size. intros u Hu. apply elem_of_list_to_set in Hu. auto.
Qed.

Section WithWorld.
Context `{UrlLib} `{SoupLib} `{World}.
Variable variant : platform.
Variable cfg : config.

(** [download_asset] leaves the set of references alone. *)
Lemma download_asset_assets (asset_url base_url : string) (st : state) :
  assets (download_asset cfg asset_url base_url st) = assets st.
Proof. unfold download_asset. split_cases; reflexivity. Qed.

Definition assets_step (base_url : string) (st : state) (asset_url : string) : state :=
  if nonempty asset_url && negb (bool_decide (asset_url ∈ assets st))
  then download_asset cfg asset_url base_url (set_assets ({[asset_url]} ∪ assets st) st)
  else st.

Lemma assets_step_grows (base_url : string) (st : state) (a : string) :
  assets st ⊆ assets (assets_step base_url st a)
  /\ (nonempty a = true -> a ∈ assets (assets_step base_url st a)).
Proof.
  unfold assets_step. destruct (nonempty a) eqn:Hn; cbn [andb].
  - destruct (bool_decide (a ∈ assets st)) eqn:Hd; cbn [negb].
    + apply bool_decide_eq_true in Hd. split; [reflexivity | auto].
    + rewrite download_asset_assets. cbn [assets set_assets]. split; [|intros _]; set_solver.
  - split; [reflexivity | discriminate].
Qed.

Lemma assets_loop_grows (base_url : string) (l : list string) (st : state) :
  assets st ⊆ assets (fold_left (assets_step base_url) l st)
  /\ (forall a, a ∈ l -> nonempty a = true ->
                a ∈ assets (fold_left (assets_step base_url) l st)).
Proof.
  revert st. induction l as [|x l IH]; intros st; cbn [fold_left].
  - split; [reflexivity|]. intros a Ha. inversion Ha.
  - destruct (IH (assets_step base_url st x)) as [Hsub Hin].
    destruct (assets_step_grows base_url st x) as [Hsub1 Hin1].
    split; [set_solver|]. intros a Ha Hne.
    apply elem_of_cons in Ha as [-> | Ha]; [apply Hsub, Hin1, Hne | now apply Hin].
Qed.

Lemma assets_loop_known (base_url : string) (l : list string) (st : state) :
  (forall a, a ∈ l -> nonempty a = true -> a ∈ assets st) ->
  fold_left (assets_step base_url) l st = st.
Proof.
  induction l as [|x l IH]; intros Hk; cbn [fold_left]; [reflexivity|].
  assert (Hx : assets_step base_url st x = st).
  { unfold assets_step. destruct (nonempty x) eqn:Hn; [|reflexivity].
    assert (Hin : x ∈ assets st) by (apply Hk; [left | exact Hn]).
    rewrite (bool_decide_eq_true_2 _ Hin). reflexivity. }
  rewrite Hx. apply IH. intros a Ha. apply Hk. now right.
Qed.

End WithWorld.
End CrawlFacts.

Section CrawlerProperties.
Import Py PathMapper Soup Rewriter BaseSiteSpider SpiderFacts CrawlFacts.
Context `{UrlLib} `{SoupLib} `{World}.
Variable variant : platform.
Variable cfg : config.

(** X1.  Within one crawl of [scrape] from a fresh spider no URL is
    requested twice as a page, and every requested page is in
    [visited_pages] at the end, whatever the site answers. *)
Theorem scrape_requests_each_page_once (fuel : nat) (st' : state) :
  scrape variant cfg fuel initial_state = Some st' ->
  NoDup (page_gets (trace st'))
  /\ (forall u, u ∈ page_gets (trace st') -> u ∈ visited_pages st').
Proof.
  intros Hrun. apply scrape_mirror_ok in Hrun as [_ Hinv].
  destruct (Hinv mirror_inv_initial) as (Hn & Hs & _). auto.
Qed.

(** X2.  A crawl of [scrape] from a fresh spider comes to an end on every
    site (151 units of fuel are enough), with at most 150 URLs in
    [visited_pages] and at most 150 page requests. *)
Theorem scrape_returns_within_page_limit :
  exists st',
    scrape variant cfg 151 initial_state = Some st'
    /\ size (visited_pages st') <= 150
    /\ length (page_gets (trace st')) <= 150.
Proof.
  destruct (scrape_total variant cfg initial_state) as [st' Hrun].
  exists st'. split; [exact Hrun|].
  apply scrape_mirror_ok in Hrun as [_ Hinv].
  destruct (Hinv mirror_inv_initial) as (Hn & Hs & Hb).
  split; [exact Hb|].
  pose proof (NoDup_length_size _ _ Hn Hs). lia.
Qed.

(** X3.  [discover_pages] from a fresh spider comes to an end on every
    site (5 units of fuel are enough): no page is entered at a depth
    greater than 3, at most 10 links are followed from any page, and no URL
    is requested twice. *)
Theorem discover_pages_bounded :
  exists pages st',
    discover_pages cfg 5 initial_state = Some (pages, st')
    /\ (forall u d, (u, d) ∈ visits (trace st') -> d <= 3)
    /\ (forall p, length (follows p (trace st')) <= 10)
    /\ NoDup (page_gets (trace st'))
    /\ pages = discovered_pages st'.
Proof.
  unfold discover_pages.
  destruct (discover_page_links_total 5 (start_url cfg) 0 initial_state)
    as [st' Hrun]; [lia | lia|].
  rewrite Hrun. exists (discovered_pages st'), st'. split; [reflexivity|].
  apply discover_page_links_ok in Hrun as [_ Hinv].
  destruct (Hinv discover_inv_initial) as (Hn & _ & Hd & _ & Hf). auto.
Qed.

(** X4.  A spider given an explicit selection of pages in multi-page mode
    requests every selected page, each exactly once, and nothing else;
    the number of selected pages is bounded by the page limit of 150
    only. *)
Theorem scrape_selection_requests_every_page (sel : gset string) :
  String.eqb (scrape_mode cfg) "single_page" = false ->
  selected_pages cfg = Some sel ->
  sel <> ∅ ->
  size sel <= 150 ->
  exists st',
    scrape variant cfg 151 initial_state = Some st'
    /\ page_gets (trace st') = elements sel
    /\ visited_pages st' = sel.
Proof.
  intros Hmode Hsel Hne Hsize.
  assert (Hhas : has_selection cfg = true).
  { unfold has_selection. rewrite Hsel. now apply bool_decide_eq_true_2. }
  unfold scrape. rewrite Hmode, Hhas, Hsel.
  destruct (selection_loop variant cfg sel (elements sel) initial_state Hmode Hsel Hhas)
    as (st' & Hrun & Hg & Hv).
  - apply NoDup_elements.
  - intros x Hx. apply elem_of_elements in Hx. split; [exact Hx|]. cbn. set_solver.
  - cbn [visited_pages initial_state]. rewrite size_empty. exact Hsize.
  - exists st'. split; [exact Hrun|]. split; [exact Hg|].
    rewrite Hv. cbn [visited_pages initial_state].
    rewrite list_to_set_elements_L. set_solver.
Qed.

(** X5.  In single-page mode [scrape] requests the start URL and no other
    page; it requests nothing at all when a selection is given that does
    not hold the start URL. *)
Theorem scrape_single_page_requests_start_only (fuel : nat) (st' : state) :
  scrape_mode cfg = "single_page" ->
  scrape variant cfg fuel initial_state = Some st' ->
  page_gets (trace st')
  = (if has_selection cfg && negb (in_selection (start_url cfg) cfg)
     then [] else [start_url cfg]).
Proof.
  intros Hmode. unfold scrape. rewrite Hmode.
  change (String.eqb "single_page" "single_page") with true. cbv iota.
  destruct fuel as [|fuel]; [discriminate|]. cbn [scrape_page].
  assert (Hb : blocked cfg (start_url cfg) initial_state
               = has_selection cfg && negb (in_selection (start_url cfg) cfg)).
  { unfold blocked. cbn [visited_pages initial_state].
    assert (Hne : start_url cfg ∉ (∅ : gset string)) by apply not_elem_of_empty.
    rewrite (bool_decide_eq_false_2 _ Hne).
    rewrite String.eqb_refl, size_empty. cbn [negb andb orb].
    change (150 <=? 0) with false.
    now rewrite andb_false_r, orb_false_r. }
  rewrite Hb. destruct (has_selection cfg && negb (in_selection (start_url cfg) cfg)).
  - intros [= <-]. reflexivity.
  - rewrite Hmode. change (String.eqb "single_page" "multi_page") with false.
    cbn [andb]. intros Hrun.
    assert (Hq : quiet_step
                   (log (PageGet (start_url cfg))
                      (set_visited_pages ({[start_url cfg]} ∪ ∅) initial_state)) st').
    { cbn [visited_pages initial_state] in Hrun.
      repeat match type of Hrun with
      | context [match ?x with _ => _ end] => destruct x eqn:?
      end;
      injection Hrun as <-; first [apply download_assets_quiet | idtac]; quiet_steps. }
    destruct Hq as [_ (evs & -> & Hquiet)].
    destruct (quiet_events evs Hquiet) as (Hg & _ & _).
    rewrite page_gets_app, Hg, app_nil_r. reflexivity.
Qed.

(** X6.  [download_assets] never asks twice for a reference it has seen:
    run again for the same document, from whatever page, it changes
    nothing, since a reference is looked up in [assets] as it is written in
    the document, not as the URL it stands for. *)
Theorem download_assets_idempotent (soup : Soup.soup) (base1 base2 : string) (st : state) :
  download_assets cfg soup base2 (download_assets cfg soup base1 st)
  = download_assets cfg soup base1 st.
Proof.
  change (download_assets cfg soup base2) with
    (fold_left (assets_step cfg base2) (page_assets soup)).
  change (download_assets cfg soup base1 st) with
    (fold_left (assets_step cfg base1) (page_assets soup) st).
  apply assets_loop_known. apply assets_loop_grows.
Qed.

End CrawlerProperties.

(** X1 on the example site: the start page links to [/a] twice and to
    [/b] once; three pages are requested, each once. *)
Lemma scrape_requests_each_page_once_witness :
  exists st',
    BaseSiteSpider.scrape (H:=example_lib) (H0:=ExampleSoup.example_soup)
      (H1:=ExampleWorld.site) ExampleWorld.plain ExampleWorld.mirror_job 151
      BaseSiteSpider.initial_state = Some st'
    /\ page_gets (BaseSiteSpider.trace st')
       = ["https://example.com/"; "https://example.com/a"; "https://example.com/b"]
    /\ NoDup (page_gets (BaseSiteSpider.trace st')).
Proof.
  assert (E : exists st',
             BaseSiteSpider.scrape (H:=example_lib) (H0:=ExampleSoup.example_soup)
               (H1:=ExampleWorld.site) ExampleWorld.plain ExampleWorld.mirror_job 151
               BaseSiteSpider.initial_state = Some st'
             /\ page_gets (BaseSiteSpider.trace st')
                = ["https://example.com/"; "https://example.com/a";
                   "https://example.com/b"]).
  { vm_compute. eexists. split; reflexivity. }
  destruct E as (st' & Hrun & Hg). exists st'. split; [exact Hrun|]. split; [exact Hg|].
  exact (proj1 (@scrape_requests_each_page_once example_lib ExampleSoup.example_soup
                  ExampleWorld.site ExampleWorld.plain ExampleWorld.mirror_job 151 st' Hrun)).
Defined.

(** X4 on a selection of 26 pages: all 26 are requested. *)
Lemma scrape_selection_requests_every_page_witness :
  exists st',
    BaseSiteSpider.scrape (H:=example_lib) (H0:=ExampleSoup.example_soup)
      (H1:=ExampleWorld.site) ExampleWorld.plain ExampleWorld.selected_job 151
      BaseSiteSpider.initial_state = Some st'
    /\ length (page_gets (BaseSiteSpider.trace st')) = 26.
Proof.
  destruct (@scrape_selection_requests_every_page example_lib ExampleSoup.example_soup
              ExampleWorld.site ExampleWorld.plain ExampleWorld.selected_job
              (list_to_set ExampleWorld.selection_26))
    as (st' & Hrun & Hg & _).
  - reflexivity.
  - reflexivity.
  - apply (bool_decide_unpack _). vm_compute. exact I.
  - apply Nat.leb_le. vm_compute. reflexivity.
  - exists st'. split; [exact Hrun|]. rewrite Hg. vm_compute. reflexivity.
Defined.

(** X5 on the example site: the two links of the start page are not
    followed. *)
Lemma scrape_single_page_requests_start_only_witness :
  exists st',
    BaseSiteSpider.scrape (H:=example_lib) (H0:=ExampleSoup.example_soup)
      (H1:=ExampleWorld.site) ExampleWorld.plain ExampleWorld.single_job 151
      BaseSiteSpider.initial_state = Some st'
    /\ page_gets (BaseSiteSpider.trace st') = ["https://example.com/"].
Proof.
  assert (E : exists st',
             BaseSiteSpider.scrape (H:=example_lib) (H0:=ExampleSoup.example_soup)
               (H1:=ExampleWorld.site) ExampleWorld.plain ExampleWorld.single_job 151
               BaseSiteSpider.initial_state = Some st').
  { vm_compute. eexists. reflexivity. }
  destruct E as (st' & Hrun). exists st'. split; [exact Hrun|].
  exact (@scrape_single_page_requests_start_only example_lib ExampleSoup.example_soup
           ExampleWorld.site ExampleWorld.plain ExampleWorld.single_job 151 st'
           eq_refl Hrun).
Defined.

(** * Properties of the general scraper *)

Module GeneralFacts.
Import Py PyFacts UrlParse PathMapper Soup GeneralScraper.

(** *** Strings *)

Lemma length_append (a b : string) :
  String.length (a +:+ b) = String.length a + String.length b.
Proof. induction a as [|x a IH]; simpl; [reflexivity | now rewrite IH]. Qed.

Lemma rcut_spec (c : ascii) (s : string) :
  s = fst (rcut c s) +:+ snd (rcut c s)
  /\ has_char c (snd (rcut c s)) = false
  /\ (fst (rcut c s) = "" \/ exists h, fst (rcut c s) = h +:+ String c "").
Proof.
  induction s as [|a s IH]; [now repeat split; try left|].
  cbn [rcut]. destruct (rcut c s) as [h t]. cbn [fst snd] in IH.
  destruct IH as (Hs & Ht & Hh). destruct h as [|x h].
  - destruct (Ascii.eqb a c) eqn:Eac; cbn [fst snd].
    + apply Ascii.eqb_eq in Eac. subst a. split; [now rewrite Hs|].
      split; [exact Ht|]. right. now exists "".
    + split; [now rewrite Hs|]. split; [|now left].
      cbn [has_char]. now rewrite Eac, Ht.
  - cbn [fst snd]. split; [now rewrite Hs|]. split; [exact Ht|]. right.
    destruct Hh as [Hh | [h' Hh]]; [discriminate|].
    exists (String a h'). now rewrite Hh.
Qed.

Lemma init_snoc (h : string) (c : ascii) : init (h +:+ String c "") = h.
Proof.
  induction h as [|a h IH]; [reflexivity|].
  change (String a h +:+ String c "") with (String a (h +:+ String c "")).
  cbn [init]. rewrite IH. destruct h; reflexivity.
Qed.

Lemma take_length (n : nat) (s : string) :
  String.length (take n s) <= n /\ String.length (take n s) <= String.length s.
Proof.
  revert s. induction n as [|n IH]; intros [|a s]; cbn [take String.length]; try lia.
  destruct (IH s). lia.
Qed.

Lemma all_chars_take (p : ascii -> bool) (n : nat) (s : string) :
  all_chars p s = true -> all_chars p (take n s) = true.
Proof.
  revert s. induction n as [|n IH]; intros [|a s]; cbn [take all_chars]; try reflexivity.
  intros Hs. apply andb_true_iff in Hs as [-> Hs]. now apply IH.
Qed.

Lemma sanitize_length (s : string) : String.length (sanitize s) = String.length s.
Proof. induction s as [|a s IH]; cbn [sanitize String.length]; congruence. Qed.

Lemma sanitize_safe (s : string) :
  all_chars (fun c => negb (unsafe_filename_char c)) (sanitize s) = true.
Proof.
  induction s as [|a s IH]; [reflexivity|]. cbn [sanitize all_chars].
  rewrite IH, andb_true_r.
  destruct (unsafe_filename_char a) eqn:E; [reflexivity | now rewrite E].
Qed.

Lemma endswith_iff (suf s : string) :
  endswith suf s = true <-> exists pre, s = pre +:+ suf.
Proof.
  split.
  - induction s as [|a s IH]; cbn [endswith]; intros Hs.
    + rewrite orb_false_r in Hs. apply String.eqb_eq in Hs. now exists "".
    + apply orb_true_iff in Hs as [Hs | Hs].
      * apply String.eqb_eq in Hs. now exists "".
      * destruct (IH Hs) as [pre ->]. now exists (String a pre).
  - intros [pre ->]. apply endswith_append, endswith_self.
Qed.

Lemma splitext_join (p : string) :
  fst (splitext p) +:+ snd (splitext p) = p
  /\ (snd (splitext p) = ""
      \/ exists e, snd (splitext p) = "." +:+ e
                   /\ has_char "." e = false /\ has_char "/" e = false).
Proof.
  unfold splitext.
  destruct (rcut_spec "/" p) as (Hp & Hbase & _).
  destruct (rcut "/" p) as [dir base]. cbn [fst snd] in Hp, Hbase.
  destruct (rcut_spec "." base) as (Hb & Ht & Hh).
  destruct (rcut "." base) as [h t]. cbn [fst snd] in Hb, Ht, Hh.
  destruct h as [|x h]; [cbn [fst snd]; split; [apply append_empty_r | now left]|].
  destruct Hh as [Hh | [h' Hh]]; [discriminate|]. rewrite Hh, init_snoc.
  destruct (all_chars (fun c => Ascii.eqb c ".") h'); cbn [fst snd];
    [split; [apply append_empty_r | now left]|].
  split.
  - rewrite Hp, Hb, Hh, !append_assoc. reflexivity.
  - right. exists t. split; [reflexivity|]. split; [exact Ht|].
    rewrite Hb, has_char_append in Hbase. now apply orb_false_iff in Hbase as [_ ?].
Qed.

Lemma contains_self_append (x b : string) : contains x (x +:+ b) = true.
Proof.
  pose proof (FramerFacts.startswith_self_append x b) as Hs.
  destruct (x +:+ b); cbn [contains]; now rewrite Hs.
Qed.

Lemma mem_elem_of (x : string) (l : list string) : mem x l = true <-> x ∈ l.
Proof.
  unfold mem. rewrite existsb_exists. split.
  - intros (y & Hy & E). apply String.eqb_eq in E. subst y. now apply list_elem_of_In.
  - intros Hx. exists x. split; [now apply list_elem_of_In | apply String.eqb_refl].
Qed.

Lemma get_attr_in (key v : string) (l : list (string * string)) :
  Soup.get_attr key l = Some v -> In v (map snd l).
Proof.
  induction l as [|[k w] l IH]; [discriminate|]. cbn [Soup.get_attr map snd].
  destruct (String.eqb k key); [intros [= ->]; now left | intros Hv; right; auto].
Qed.

(** *** Traces *)

Lemma asset_gets_app (t1 t2 : list event) :
  asset_gets (t1 ++ t2) = asset_gets t1 ++ asset_gets t2.
Proof. apply flat_map_app. Qed.

(** *** The loop of [discover_pages] *)

Section WithWorld.
Context `{UrlLib} `{SoupLib} `{World}.

Definition loop_inv (visited : gset string) (pages : list page) (st : state) : Prop :=
  NoDup (page_gets (trace st))
  /\ (forall u, u ∈ page_gets (trace st) -> u ∈ visited)
  /\ length pages <= 100
  /\ (forall pg, pg ∈ pages -> page_url pg ∈ page_gets (trace st))
  /\ NoDup (map page_url pages).

Lemma page_gets_log (url : string) (st : state) :
  page_gets (trace (log (PageGet url) st)) = page_gets (trace st) ++ [url].
Proof. cbn [trace log]. now rewrite SpiderFacts.page_gets_app. Qed.

Lemma loop_inv_visit (url : string) (visited : gset string) (pages : list page)
    (st : state) :
  url ∉ visited -> loop_inv visited pages st ->
  loop_inv ({[url]} ∪ visited) pages (log (PageGet url) st).
Proof.
  intros Hu (Hn & Hs & Hl & Hp & Hd). unfold loop_inv. rewrite page_gets_log.
  split; [|split; [|split; [exact Hl | split; [|exact Hd]]]].
  - apply NoDup_app. split; [exact Hn|]. split; [|apply NoDup_singleton].
    intros x Hx Hx'. apply list_elem_of_singleton in Hx'. subst x. auto.
  - intros u Hin. apply elem_of_app in Hin as [Hin | Hin].
    + apply Hs in Hin. set_solver.
    + apply list_elem_of_singleton in Hin. set_solver.
  - intros pg Hpg. apply elem_of_app. left. now apply Hp.
Qed.

Lemma loop_inv_page (url : string) (visited : gset string) (pages : list page)
    (st : state) (pg : page) :
  url ∉ visited -> length pages < 100 -> page_url pg = url ->
  loop_inv visited pages st ->
  loop_inv ({[url]} ∪ visited) (pages ++ [pg]) (log (PageGet url) st).
Proof.
  intros Hu H100 Hpg Hinv.
  pose proof (loop_inv_visit url visited pages st Hu Hinv) as (Hn & Hs & _ & Hp & Hd).
  destruct Hinv as (_ & Hs0 & _ & Hp0 & _).
  split; [exact Hn|]. split; [exact Hs|]. split; [rewrite length_app; cbn; lia|].
  split.
  - intros q Hq. apply elem_of_app in Hq as [Hq | Hq]; [now apply Hp|].
    apply list_elem_of_singleton in Hq. subst q. rewrite Hpg, page_gets_log.
    apply elem_of_app. right. now apply list_elem_of_singleton.
  - rewrite map_app. apply NoDup_app. split; [exact Hd|].
    split; [|cbn; apply NoDup_singleton].
    intros x Hx Hx'. cbn in Hx'. apply list_elem_of_singleton in Hx'. subst x.
    apply list_elem_of_fmap in Hx as (q & Hq1 & Hq2).
    apply Hu, Hs0. rewrite <- Hpg, Hq1. now apply Hp0.
Qed.

Lemma discover_loop_inv (fuel : nat) (base_domain : string) :
  forall to_visit visited pages st pages' st',
    discover_loop fuel base_domain to_visit visited pages st = Some (pages', st') ->
    loop_inv visited pages st ->
    exists visited', loop_inv visited' pages' st'.
Proof.
  induction fuel as [|fuel IH]; intros to_visit visited pages st pages' st';
    [discriminate|].
  cbn [discover_loop]. destruct to_visit as [|url rest].
  { intros [= <- <-] Hinv. eauto. }
  destruct (100 <=? length pages) eqn:E100.
  { intros [= <- <-] Hinv. eauto. }
  apply Nat.leb_gt in E100.
  destruct (bool_decide (url ∈ visited)) eqn:Ev; [apply IH|].
  apply bool_decide_eq_false in Ev.
  destruct (http_get url) as [status content_type content| |];
    try (intros Hrun Hinv; apply (IH _ _ _ _ _ _ Hrun); now apply loop_inv_visit).
  destruct (negb (status =? 200) || negb (contains "text/html" content_type));
    try (intros Hrun Hinv; apply (IH _ _ _ _ _ _ Hrun); now apply loop_inv_visit).
  destruct (soup_parse content) as [soup|];
    try (intros Hrun Hinv; apply (IH _ _ _ _ _ _ Hrun); now apply loop_inv_visit).
  destruct (urlparse url) as [parsed|];
    try (intros Hrun Hinv; apply (IH _ _ _ _ _ _ Hrun); now apply loop_inv_visit).
  intros Hrun Hinv. apply (IH _ _ _ _ _ _ Hrun). now apply loop_inv_page.
Qed.

Lemma discover_loop_total (base_domain : string) (k : nat) :
  forall pages, 100 - length pages <= k ->
    forall to_visit visited st,
      exists fuel r, discover_loop fuel base_domain to_visit visited pages st = Some r.
Proof.
  induction k as [|k IHk]; intros pages Hk to_visit;
    induction to_visit as [|url rest IHrest]; intros visited st;
    try (exists 1; eexists; reflexivity).
  - exists 1. eexists. cbn [discover_loop].
    replace (100 <=? length pages) with true by (symmetry; apply Nat.leb_le; lia).
    reflexivity.
  - destruct (100 <=? length pages) eqn:E100.
    { exists 1. eexists. cbn [discover_loop]. rewrite E100. reflexivity. }
    destruct (bool_decide (url ∈ visited)) eqn:Ev.
    { destruct (IHrest visited st) as (f & r & Hr). exists (S f), r.
      cbn [discover_loop]. now rewrite E100, Ev. }
    assert (Hskip : exists f r,
               discover_loop f base_domain rest ({[url]} ∪ visited) pages
                 (log (PageGet url) st) = Some r) by apply IHrest.
    destruct (http_get url) as [status content_type content| |] eqn:Eg.
    2,3: destruct Hskip as (f & r & Hr); exists (S f), r;
         cbn [discover_loop]; now rewrite E100, Ev, Eg.
    destruct (negb (status =? 200) || negb (contains "text/html" content_type)) eqn:Eok.
    { destruct Hskip as (f & r & Hr). exists (S f), r.
      cbn [discover_loop]. now rewrite E100, Ev, Eg, Eok. }
    destruct (soup_parse content) as [soup|] eqn:Es.
    2: { destruct Hskip as (f & r & Hr). exists (S f), r.
         cbn [discover_loop]. now rewrite E100, Ev, Eg, Eok, Es. }
    destruct (urlparse url) as [parsed|] eqn:Ep.
    2: { destruct Hskip as (f & r & Hr). exists (S f), r.
         cbn [discover_loop]. now rewrite E100, Ev, Eg, Eok, Es, Ep. }
    apply Nat.leb_gt in E100.
    match goal with
    | |- exists fuel r, discover_loop fuel _ _ _ _ _ = _ =>
        assert (Hgo : forall pg,
                   exists f r,
                     discover_loop f base_domain
                       (add_links base_domain url (anchor_hrefs soup) ({[url]} ∪ visited) rest)
                       ({[url]} ∪ visited) (pages ++ [pg]) (log (PageGet url) st) = Some r)
          by (intros pg; apply IHk; rewrite length_app; cbn; lia)
    end.
    edestruct Hgo as (f & r & Hr). exists (S f), r.
    cbn [discover_loop]. apply Nat.leb_gt in E100. rewrite E100, Ev, Eg, Eok, Es, Ep.
    exact Hr.
Qed.

End WithWorld.
End GeneralFacts.

Section GeneralProperties.
Import Py PyFacts UrlParse PathMapper Soup GeneralScraper GeneralFacts.
Context `{UrlLib} `{SoupLib} `{World} `{GeneralLib}.

(** X7.  [clean_filename] gives a name without any of the characters
    [< > : / | ? *], double quote, backslash and space; it is never longer
    than its argument; it is made of a part of at most 50 characters and
    an extension, which is empty or a dot followed by characters among
    which there is no dot. *)
Theorem clean_filename_safe (filename : string) :
  all_chars (fun c => negb (unsafe_filename_char c)) (clean_filename filename) = true
  /\ String.length (clean_filename filename) <= String.length filename
  /\ exists name ext,
       clean_filename filename = name +:+ ext
       /\ String.length name <= 50
       /\ (ext = "" \/ exists e, ext = "." +:+ e /\ has_char "." e = false).
Proof.
  unfold clean_filename.
  destruct (splitext_join (sanitize filename)) as [Hj Hext].
  pose proof (sanitize_safe filename) as Hsafe.
  pose proof (sanitize_length filename) as Hlen.
  destruct (splitext (sanitize filename)) as [name ext]. cbn [fst snd] in *.
  rewrite <- Hj, all_chars_append in Hsafe. apply andb_true_iff in Hsafe as [Hn He].
  rewrite <- Hj, length_append in Hlen.
  assert (Hshape : ext = "" \/ exists e, ext = "." +:+ e /\ has_char "." e = false).
  { destruct Hext as [-> | (e & -> & Hd & _)]; [now left | right; eauto]. }
  destruct (50 <? String.length name) eqn:E.
  - destruct (take_length 50 name) as [H50 Hle].
    rewrite all_chars_append, (all_chars_take _ _ _ Hn), He, length_append.
    split; [reflexivity|]. split; [lia|]. exists (take 50 name), ext. auto.
  - apply Nat.ltb_ge in E. rewrite all_chars_append, Hn, He, length_append.
    split; [reflexivity|]. split; [lia|]. exists name, ext. auto.
Qed.

(** X8.  The extension [get_file_extension] gives is empty or a dot
    followed by one of the sixteen extensions the scraper knows, whether it
    is read from the path of the URL or from the content type. *)
Theorem get_file_extension_known (url content_type ext : string) :
  get_file_extension url content_type = Some ext ->
  ext = "" \/ exists x, In x valid_exts /\ ext = "." +:+ x.
Proof.
  unfold get_file_extension. destruct (urlparse url) as [parsed|]; [|discriminate].
  assert (Hmap : forall key e, get_attr key content_map = Some e ->
                               exists x, In x valid_exts /\ e = "." +:+ x).
  { intros key e Hk. apply get_attr_in in Hk.
    assert (Hall : Forall (fun e => exists x, In x valid_exts /\ e = "." +:+ x)
                     (map snd content_map)).
    { unfold content_map, valid_exts. cbn [map snd].
      repeat (apply List.Forall_cons;
              [eexists; split; [|reflexivity]; cbn [In];
               repeat (first [left; reflexivity | right])|]).
      apply List.Forall_nil. }
    rewrite List.Forall_forall in Hall. now apply Hall. }
  assert (Htype : (if nonempty content_type
                   then Some match get_attr (strip is_space (before ";" content_type))
                                     content_map with
                             | Some e => e
                             | None => ""
                             end
                   else Some "") = Some ext ->
                  ext = "" \/ exists x, In x valid_exts /\ ext = "." +:+ x).
  { destruct (nonempty content_type); [|intros [= <-]; now left].
    destruct (get_attr _ content_map) as [e|] eqn:Ee; intros [= <-]; [|now left].
    right. eapply Hmap, Ee. }
  destruct (has_char "." (path parsed)); [|exact Htype].
  destruct (mem _ valid_exts) eqn:Em; [|exact Htype].
  intros [= <-]. right. eexists. split; [|reflexivity].
  apply mem_elem_of in Em. now apply list_elem_of_In.
Qed.

(** The ways a call of [download_resource] ends. *)
Lemma download_resource_cases (url base_path subfolder p : string) (st st' : state) :
  download_resource url base_path subfolder st = (p, st') ->
  (downloaded_files st !! url = Some p /\ st' = st)
  \/ (downloaded_files st !! url = None
      /\ p = url
      /\ files st' = files st
      /\ downloaded_files st' = downloaded_files st
      /\ exists evs,
           trace st' = trace st ++ evs
           /\ asset_gets evs = (if startswith "data:" url then [] else [url])
           /\ page_gets evs = [])
  \/ (downloaded_files st !! url = None
      /\ exists content_type body,
           http_get url = Response 200 content_type body
           /\ resource_path url content_type subfolder = Some p
           /\ downloaded_files st' = <[url := p]> (downloaded_files st)
           /\ files st' = <[BaseSiteSpider.path_join base_path p := body]> (files st)
           /\ trace st'
              = trace st
                ++ [AssetGet url;
                    MakeDirs (dirname (BaseSiteSpider.path_join base_path p));
                    WriteFile (BaseSiteSpider.path_join base_path p)]).
Proof.
  unfold download_resource.
  destruct (downloaded_files st !! url) as [cached|] eqn:Ec.
  { intros [= <- <-]. left. auto. }
  destruct (startswith "data:" url) eqn:Ed.
  { intros [= <- <-]. right. left. repeat (split; [reflexivity|]).
    exists []. now rewrite app_nil_r. }
  assert (Hsoft : forall evs,
             asset_gets evs = [url] -> page_gets evs = [] ->
             forall s, files s = files st -> downloaded_files s = downloaded_files st ->
                       trace s = trace st ++ evs ->
                       (url, s) = (p, st') ->
                       (None = Some p /\ st' = st)
                       \/ (None = None (A:=string) /\ p = url /\ files st' = files st
                           /\ downloaded_files st' = downloaded_files st
                           /\ exists evs,
                                trace st' = trace st ++ evs
                                /\ asset_gets evs = [url] /\ page_gets evs = [])
                       \/ (None = None (A:=string)
                           /\ exists content_type body,
                                http_get url = Response 200 content_type body
                                /\ resource_path url content_type subfolder = Some p
                                /\ downloaded_files st' = <[url := p]> (downloaded_files st)
                                /\ files st'
                                   = <[BaseSiteSpider.path_join base_path p := body]> (files st)
                                /\ trace st'
                                   = trace st
                                     ++ [AssetGet url;
                                         MakeDirs (dirname (BaseSiteSpider.path_join base_path p));
                                         WriteFile (BaseSiteSpider.path_join base_path p)])).
  { intros evs Ha Hg s Hf Hd Ht [= <- <-]. right. left.
    repeat (split; [reflexivity || assumption|]). exists evs. auto. }
  destruct (http_get url) as [status content_type body| |] eqn:Eget;
    try (apply (Hsoft [AssetGet url]); reflexivity).
  destruct (status =? 200) eqn:Es; cbn [negb];
    [|apply (Hsoft [AssetGet url]); reflexivity].
  apply Nat.eqb_eq in Es. subst status.
  destruct (resource_path url content_type subfolder) as [relative_path|] eqn:Er;
    [|apply (Hsoft [AssetGet url]); reflexivity].
  destruct (makedirs_ok (dirname (BaseSiteSpider.path_join base_path relative_path)));
    cbn [negb]; [|apply (Hsoft [AssetGet url]); reflexivity].
  destruct (write_ok (BaseSiteSpider.path_join base_path relative_path)); cbn [negb].
  - intros [= <- <-]. right. right. split; [reflexivity|].
    exists content_type, body. repeat (split; [reflexivity || assumption|]).
    cbn [trace log set_files set_downloaded_files]. now rewrite <- !app_assoc.
  - apply (Hsoft [AssetGet url;
                  MakeDirs (dirname (BaseSiteSpider.path_join base_path relative_path))]);
      try reflexivity.
    cbn [trace log]. now rewrite <- app_assoc.
Qed.

(** X9.  The three ways a call of [download_resource] ends.  A URL of the
    cache gives the recorded path, with no request and no change.  A
    download that fails in any way (a [data:] URL, a time-out, a client
    error, a status other than 200, a URL that does not parse, a directory
    or a file that cannot be written) gives back the URL itself and leaves
    the files and the cache as they were, after at most one request.  A
    download that succeeds makes one request, writes the body of the
    response under the path it returns and records that path for the
    URL. *)
Theorem download_resource_outcome (url base_path subfolder p : string) (st st' : state) :
  download_resource url base_path subfolder st = (p, st') ->
  (downloaded_files st !! url = Some p /\ st' = st)
  \/ (downloaded_files st !! url = None
      /\ p = url
      /\ files st' = files st
      /\ downloaded_files st' = downloaded_files st
      /\ exists evs,
           trace st' = trace st ++ evs
           /\ asset_gets evs = (if startswith "data:" url then [] else [url])
           /\ page_gets evs = [])
  \/ (downloaded_files st !! url = None
      /\ exists content_type body,
           http_get url = Response 200 content_type body
           /\ resource_path url content_type subfolder = Some p
           /\ downloaded_files st' = <[url := p]> (downloaded_files st)
           /\ files st' = <[BaseSiteSpider.path_join base_path p := body]> (files st)
           /\ trace st'
              = trace st
                ++ [AssetGet url;
                    MakeDirs (dirname (BaseSiteSpider.path_join base_path p));
                    WriteFile (BaseSiteSpider.path_join base_path p)]).
Proof. apply download_resource_cases. Qed.

(** What a call does to an entry of the cache and to the requests for
    its URL. *)
Lemma download_resource_keeps (url base_path subfolder p u c : string) (st st' : state) :
  download_resource url base_path subfolder st = (p, st') ->
  downloaded_files st !! u = Some c ->
  downloaded_files st' !! u = Some c
  /\ (exists evs, trace st' = trace st ++ evs /\ u ∉ asset_gets evs)
  /\ (url = u -> p = c).
Proof.
  intros Hrun Hu.
  apply download_resource_cases in Hrun
    as [[Hc ->] | [(Hc & -> & _ & Hd & evs & Ht & Ha & _) | (Hc & ct & body & _ & _ & Hd & _ & Ht)]].
  - split; [exact Hu|]. split; [exists []; rewrite app_nil_r; split; [reflexivity | apply not_elem_of_nil]|].
    intros ->. congruence.
  - assert (Hne : url <> u) by congruence.
    split; [now rewrite Hd|]. split; [|contradiction].
    exists evs. split; [exact Ht|]. rewrite Ha.
    destruct (startswith "data:" url); [apply not_elem_of_nil|].
    intros Hin. apply list_elem_of_singleton in Hin. congruence.
  - assert (Hne : url <> u) by congruence.
    split; [rewrite Hd; now rewrite lookup_insert_ne|]. split; [|contradiction].
    eexists. split; [exact Ht|]. cbn. intros Hin.
    apply list_elem_of_singleton in Hin. congruence.
Qed.

(** X10.  A URL whose download has been recorded is never requested
    again: through any run of calls of [download_resource] its entry in
    the cache stays as it is, no request is made for it, and every call
    for it gives the recorded path. *)
Theorem cached_resource_not_requested_again (u c base_path : string)
    (urls ps : list string) (st st' : state) :
  downloaded_files st !! u = Some c ->
  download_all urls base_path st = (ps, st') ->
  downloaded_files st' !! u = Some c
  /\ (exists evs, trace st' = trace st ++ evs /\ u ∉ asset_gets evs)
  /\ length ps = length urls
  /\ (forall i, urls !! i = Some u -> ps !! i = Some c).
Proof.
  revert ps st. induction urls as [|url urls IH]; intros ps st Hu; cbn [download_all].
  - intros [= <- <-]. split; [exact Hu|].
    split; [exists []; rewrite app_nil_r; split; [reflexivity | apply not_elem_of_nil]|].
    split; [reflexivity|]. intros i Hi. now rewrite lookup_nil in Hi.
  - destruct (download_resource url base_path "assets" st) as [p st1] eqn:E1.
    destruct (download_all urls base_path st1) as [ps1 st2] eqn:E2.
    intros [= <- <-].
    destruct (download_resource_keeps _ _ _ _ _ _ _ _ E1 Hu) as (Hu1 & (ev1 & Ht1 & Ha1) & Hp).
    destruct (IH _ _ Hu1 E2) as (Hu2 & (ev2 & Ht2 & Ha2) & Hlen & Hps).
    split; [exact Hu2|]. split; [|split].
    + exists (ev1 ++ ev2). rewrite Ht2, Ht1, <- app_assoc. split; [reflexivity|].
      rewrite asset_gets_app. intros Hin. apply elem_of_app in Hin as [Hin | Hin]; auto.
    + cbn [length]. now rewrite Hlen.
    + intros [|i]; cbn.
      * intros [= ->]. now rewrite (Hp eq_refl).
      * apply Hps.
Qed.

(** X11.  Whatever is stored goes into one of the folders [fonts], [css],
    [js], [images] or the subfolder given, under a name that holds the
    digest of the URL. *)
Theorem resource_path_folder (url content_type subfolder p : string) :
  resource_path url content_type subfolder = Some p ->
  exists folder filename,
    p = folder +:+ "/" +:+ filename
    /\ In folder ["fonts"; "css"; "js"; "images"; subfolder]
    /\ contains ("_" +:+ md5_hex8 url) filename = true.
Proof.
  unfold resource_path.
  destruct (get_file_extension url content_type) as [ext|]; [|discriminate].
  destruct (url_to_filename url) as [filename|] eqn:Ef; [|discriminate].
  assert (Hc : contains ("_" +:+ md5_hex8 url) filename = true).
  { unfold url_to_filename in Ef. destruct (urlparse url) as [parsed|]; [|discriminate].
    destruct (splitext _) as [name e] in Ef. injection Ef as <-.
    apply FramerFacts.contains_append_r.
    change (String "_" (md5_hex8 url +:+ e)) with (("_" +:+ md5_hex8 url) +:+ e).
    apply contains_self_append. }
  match goal with
  | |- context [if ?b then filename +:+ ext else filename] =>
      set (name := if b then filename +:+ ext else filename);
      assert (Hn : contains ("_" +:+ md5_hex8 url) name = true)
        by (unfold name; destruct b; [now apply FramerFacts.contains_append_l | exact Hc])
  end.
  clearbody name. intros [= <-].
  repeat match goal with
  | |- context [if ?b then _ else _] => destruct b
  end.
  1: exists "fonts". 2: exists "css". 3: exists "js". 4: exists "images".
  5: exists subfolder.
  all: exists name; split; [reflexivity|]; split; [|exact Hn];
    cbn [In]; repeat (first [left; reflexivity | right]).
Qed.

(** X12.  [is_same_domain] accepts a URL exactly when its authority is
    the base domain or ends with a dot followed by the base domain; with
    no base domain set it accepts everything. *)
Theorem is_same_domain_spec (base_domain url : string) (parsed : ParseResult) :
  urlparse url = Some parsed ->
  is_same_domain "" url = Some true
  /\ (base_domain <> "" ->
      (is_same_domain base_domain url = Some true
       <-> netloc parsed = base_domain
           \/ exists sub, netloc parsed = sub +:+ "." +:+ base_domain)).
Proof.
  intros Hp. split; [reflexivity|]. intros Hne. unfold is_same_domain.
  replace (nonempty base_domain) with true
    by (symmetry; now apply PathFacts.nonempty_true).
  cbn [negb]. rewrite Hp. split.
  - intros [= Hs]. apply orb_true_iff in Hs as [Hs | Hs].
    + left. now apply String.eqb_eq.
    + right. apply endswith_iff in Hs as [pre ->]. now exists pre.
  - intros [-> | [sub ->]].
    + now rewrite String.eqb_refl.
    + f_equal. apply orb_true_iff. right. apply endswith_iff. now exists sub.
Qed.

(** X13.  The discovery of the general scraper comes to an end on every
    site; no URL is requested twice; at most 100 pages are listed, each
    under a URL of its own that has been requested.  A start URL that does
    not parse raises before any request. *)
Theorem discover_pages_terminates_bounded (start_url : string) :
  exists fuel r st',
    discover_pages fuel start_url initial_state = Some (r, st')
    /\ NoDup (page_gets (trace st'))
    /\ match r with
       | None => urlparse start_url = None /\ st' = initial_state
       | Some pages =>
           length pages <= 100
           /\ NoDup (map page_url pages)
           /\ (forall pg, pg ∈ pages -> page_url pg ∈ page_gets (trace st'))
       end.
Proof.
  unfold discover_pages. destruct (urlparse start_url) as [parsed|] eqn:Ep.
  - destruct (discover_loop_total (netloc parsed) 100 [] ltac:(cbn; lia)
                [start_url] ∅ initial_state) as (fuel & [pages st'] & Hrun).
    exists fuel, (Some pages), st'. rewrite Hrun. split; [reflexivity|].
    destruct (discover_loop_inv _ _ _ _ _ _ _ _ Hrun) as (v & Hn & _ & Hl & Hp & Hd).
    + split; [apply NoDup_nil_2|]. split; [intros u Hu; inversion Hu|].
      split; [cbn; lia|]. split; [intros pg Hpg; inversion Hpg | apply NoDup_nil_2].
    + auto.
  - exists 1, None, initial_state. split; [reflexivity|].
    split; [apply NoDup_nil_2 | auto].
Qed.

Section Site.
Variable scrape_page : string -> string -> string -> state -> option string * state.

Lemma scrape_pages_length (urls : list string) :
  forall i total output_dir scraped_files st scraped_files' st',
    scrape_pages scrape_page urls i total output_dir scraped_files st
    = (scraped_files', st') ->
    length scraped_files' <= length scraped_files + length urls.
Proof.
  induction urls as [|url urls IH]; intros i total output_dir scraped_files st
    scraped_files' st'; cbn [scrape_pages].
  - intros [= <- <-]. cbn. lia.
  - destruct (scrape_page url output_dir _ st) as [[html_file|] st1]; intros Hrun;
      apply IH in Hrun; rewrite ?length_app in Hrun; cbn [length] in *; lia.
Qed.

Lemma choose_pages_length (fuel : nat) (url scrape_mode : string)
    (selected_pages : option (list string)) (st st' : state) (urls : list string) :
  choose_pages fuel url scrape_mode selected_pages st = Some (PagesToScrape urls, st') ->
  length urls <= 25 /\ (scrape_mode = "single_page" -> urls = [url]).
Proof.
  unfold choose_pages. destruct (String.eqb scrape_mode "single_page") eqn:Em.
  - intros [= <- <-]. cbn. split; [lia | reflexivity].
  - apply String.eqb_neq in Em.
    assert (Hd : match discover_pages fuel url st with
                 | Some (Some discovered, st0) =>
                     Some (PagesToScrape (map page_url (firstn 25 discovered)), st0)
                 | Some (None, st0) => Some (DiscoveryRaised, st0)
                 | None => None
                 end = Some (PagesToScrape urls, st') ->
                 length urls <= 25 /\ (scrape_mode = "single_page" -> urls = [url])).
    { destruct (discover_pages fuel url st) as [[[discovered|] st0]|]; try discriminate.
      intros [= <- <-]. rewrite length_map, length_firstn. split; [lia | contradiction]. }
    destruct selected_pages as [[|x l]|]; try exact Hd.
    destruct (25 <? length (x :: l)) eqn:E25; [discriminate|].
    destruct (forallb parses (x :: l)); [|discriminate].
    intros [= <- <-]. apply Nat.ltb_ge in E25. split; [exact E25 | contradiction].
Qed.

(** X14.  A selection of more than 25 pages in a mode other than
    single-page is turned down by [scrape_site] before any page is
    requested: the result is a failure, no file is written and nothing is
    recorded; when the output directory can be made and the start URL
    parses, the message is the one about the maximum of 25 pages, and the
    directory made at the start is all that has happened. *)
Theorem scrape_site_rejects_large_selection (fuel : nat) (url scrape_mode job_id : string)
    (selected : list string) (st : state) :
  String.eqb scrape_mode "single_page" = false ->
  25 < length selected ->
  exists r st',
    scrape_site scrape_page fuel url scrape_mode (Some selected) job_id st = Some (r, st')
    /\ success r = false
    /\ files st' = files st
    /\ downloaded_files st' = downloaded_files st
    /\ (trace st' = trace st
        \/ trace st' = trace st ++ [MakeDirs ("app/static/" +:+ job_id)])
    /\ (makedirs_ok ("app/static/" +:+ job_id) = true ->
        urlparse url <> None ->
        r = failure MaximumPagesAllowed
        /\ trace st' = trace st ++ [MakeDirs ("app/static/" +:+ job_id)]).
Proof.
  intros Hmode Hlen. unfold scrape_site, choose_pages. rewrite Hmode.
  destruct (makedirs_ok ("app/static/" +:+ job_id)); cbn [negb].
  2: { eexists _, _. split; [reflexivity|]. repeat (split; [reflexivity|]).
       split; [now left | discriminate]. }
  destruct (urlparse url) as [parsed|].
  2: { eexists _, _. split; [reflexivity|]. repeat (split; [reflexivity|]).
       split; [now right | congruence]. }
  destruct selected as [|x l]; [cbn in Hlen; lia|].
  apply Nat.ltb_lt in Hlen. rewrite Hlen.
  eexists _, _. split; [reflexivity|]. repeat (split; [reflexivity|]).
  split; [now right | auto].
Qed.

(** X15.  When [scrape_site] reports [n] scraped pages, [n] is at most 25
    (at most 1 in single-page mode), the result is a success that names
    the archive of the job, and the last two things done are the writing
    of the archive and the removal of the output directory. *)
Theorem scrape_site_page_count (fuel n : nat) (url scrape_mode job_id : string)
    (selected_pages : option (list string)) (st st' : state) (r : site_result) :
  scrape_site scrape_page fuel url scrape_mode selected_pages job_id st = Some (r, st') ->
  result_message r = SuccessfullyScraped n ->
  n <= 25
  /\ (scrape_mode = "single_page" -> n <= 1)
  /\ success r = true
  /\ result_file_path r = Some ("app/static/" +:+ job_id +:+ ".zip")
  /\ exists tr,
       trace st'
       = tr ++ [WriteFile ("app/static/" +:+ job_id +:+ ".zip");
                RemoveTree ("app/static/" +:+ job_id)].
Proof.
  unfold scrape_site.
  destruct (makedirs_ok ("app/static/" +:+ job_id)); cbn [negb];
    [|intros [= <- <-]; discriminate].
  destruct (urlparse url) as [parsed|]; [|intros [= <- <-]; discriminate].
  destruct (choose_pages fuel url scrape_mode selected_pages _)
    as [[[| | |urls] st1]|] eqn:Ec; try discriminate;
    try (intros [= <- <-]; discriminate).
  apply choose_pages_length in Ec as [H25 Hsingle].
  destruct (scrape_pages scrape_page urls 0 (length urls) _ [] st1)
    as [scraped_files st2] eqn:Es.
  apply scrape_pages_length in Es. cbn [length] in Es.
  destruct (write_ok ("app/static/" +:+ job_id +:+ ".zip")); cbn [negb];
    [|intros [= <- <-]; discriminate].
  intros [= <- <-]. cbn [result_message success result_file_path].
  intros [= <-]. split; [lia|]. split.
  - intros Hm. rewrite (Hsingle Hm) in Es. cbn in Es. lia.
  - split; [reflexivity|]. split; [reflexivity|].
    exists (trace st2). cbn [trace log]. now rewrite <- app_assoc.
Qed.

End Site.
End GeneralProperties.

(** X9 on the example resources: the style sheet is stored, the script
    whose request times out comes back as its URL. *)
Lemma download_resource_outcome_witness :
  (exists st',
      GeneralScraper.download_resource (H:=example_lib) (H1:=ExampleAssets.site)
        (H2:=ExampleAssets.digest) "https://example.com/site.css" "out" "assets"
        GeneralScraper.initial_state
      = ("css/site_0f3a9c21.css", st')
      /\ GeneralScraper.files st' !! "out/css/site_0f3a9c21.css"
         = Some "body { margin: 0 }")
  /\ (exists st',
        GeneralScraper.download_resource (H:=example_lib) (H1:=ExampleAssets.site)
          (H2:=ExampleAssets.digest) "https://example.com/app.js" "out" "assets"
          GeneralScraper.initial_state
        = ("https://example.com/app.js", st')
        /\ GeneralScraper.files st' = ∅).
Proof.
  split.
  - destruct (GeneralScraper.download_resource (H:=example_lib) (H1:=ExampleAssets.site)
                (H2:=ExampleAssets.digest) "https://example.com/site.css" "out" "assets"
                GeneralScraper.initial_state) as [p st'] eqn:E.
    assert (Hp : p = "css/site_0f3a9c21.css")
      by (apply (f_equal fst) in E; vm_compute in E; now symmetry).
    subst p. exists st'. split; [reflexivity|].
    destruct (download_resource_outcome _ _ _ _ _ _ E)
      as [[Hc _] | [(_ & Hp & _) | (_ & ct & body & Hget & _ & _ & Hf & _)]].
    + vm_compute in Hc. discriminate.
    + discriminate.
    + rewrite Hf. vm_compute in Hget. injection Hget as <- <-.
      apply lookup_insert_eq.
  - destruct (GeneralScraper.download_resource (H:=example_lib) (H1:=ExampleAssets.site)
                (H2:=ExampleAssets.digest) "https://example.com/app.js" "out" "assets"
                GeneralScraper.initial_state) as [p st'] eqn:E.
    assert (Hp : p = "https://example.com/app.js")
      by (apply (f_equal fst) in E; vm_compute in E; now symmetry).
    subst p. exists st'. split; [reflexivity|].
    destruct (download_resource_outcome _ _ _ _ _ _ E)
      as [[Hc _] | [(_ & _ & Hf & _) | (_ & ct & body & Hget & _)]].
    + vm_compute in Hc. discriminate.
    + exact Hf.
    + vm_compute in Hget. discriminate.
Defined.

(** X10 on the example resources: after the style sheet has been stored,
    a run over the style sheet, the script and the style sheet again asks
    for the script only. *)
Lemma cached_resource_not_requested_again_witness :
  exists st ps st',
    GeneralScraper.downloaded_files st !! "https://example.com/site.css"
    = Some "css/site_0f3a9c21.css"
    /\ GeneralScraper.download_all (H:=example_lib) (H1:=ExampleAssets.site)
         (H2:=ExampleAssets.digest)
         ["https://example.com/site.css"; "https://example.com/app.js";
          "https://example.com/site.css"] "out" st = (ps, st')
    /\ ps !! 2 = Some "css/site_0f3a9c21.css"
    /\ GeneralScraper.downloaded_files st' !! "https://example.com/site.css"
       = Some "css/site_0f3a9c21.css".
Proof.
  set (st := snd (GeneralScraper.download_resource (H:=example_lib)
                    (H1:=ExampleAssets.site) (H2:=ExampleAssets.digest)
                    "https://example.com/site.css" "out" "assets"
                    GeneralScraper.initial_state)).
  assert (Hc : GeneralScraper.downloaded_files st !! "https://example.com/site.css"
               = Some "css/site_0f3a9c21.css") by (vm_compute; reflexivity).
  destruct (GeneralScraper.download_all (H:=example_lib) (H1:=ExampleAssets.site)
              (H2:=ExampleAssets.digest)
              ["https://example.com/site.css"; "https://example.com/app.js";
               "https://example.com/site.css"] "out" st) as [ps st'] eqn:E.
  exists st, ps, st'. split; [exact Hc|]. split; [exact E|].
  destruct (cached_resource_not_requested_again _ _ _ _ _ _ _ Hc E)
    as (Hc' & _ & _ & Hps).
  split; [apply Hps; reflexivity | exact Hc'].
Defined.

(** X8 on the example image: the extension comes from the content
    type. *)
Lemma get_file_extension_known_witness :
  GeneralScraper.get_file_extension (H:=example_lib) "https://example.com/logo" "image/png"
  = Some ".png"
  /\ (".png" = "" \/ exists x, In x GeneralScraper.valid_exts /\ ".png" = "." +:+ x).
Proof.
  assert (E : GeneralScraper.get_file_extension (H:=example_lib)
                "https://example.com/logo" "image/png" = Some ".png")
    by (vm_compute; reflexivity).
  split; [exact E|]. exact (@get_file_extension_known example_lib _ _ _ E).
Defined.

(** X11 on the example image, served as [image/png] under a URL without
    extension. *)
Lemma resource_path_folder_witness :
  GeneralScraper.resource_path (H:=example_lib) (H2:=ExampleAssets.digest)
    "https://example.com/logo" "image/png" "assets" = Some "images/logo_0f3a9c21.png"
  /\ exists folder filename,
       "images/logo_0f3a9c21.png" = folder +:+ "/" +:+ filename
       /\ In folder ["fonts"; "css"; "js"; "images"; "assets"]
       /\ Py.contains "_0f3a9c21" filename = true.
Proof.
  assert (E : GeneralScraper.resource_path (H:=example_lib) (H2:=ExampleAssets.digest)
                "https://example.com/logo" "image/png" "assets"
              = Some "images/logo_0f3a9c21.png") by (vm_compute; reflexivity).
  split; [exact E|].
  exact (@resource_path_folder example_lib ExampleAssets.digest _ _ _ _ E).
Defined.

(** X12: a subdomain is accepted, a host that merely ends with the same
    letters is not. *)
Lemma is_same_domain_spec_witness :
  GeneralScraper.is_same_domain (H:=example_lib) "example.com"
    "https://shop.example.com/x" = Some true
  /\ GeneralScraper.is_same_domain (H:=example_lib) "example.com"
       "https://badexample.com/x" = Some false.
Proof.
  split; [|vm_compute; reflexivity].
  assert (E : exists parsed,
             UrlParse.urlparse (H:=example_lib) "https://shop.example.com/x" = Some parsed
             /\ UrlParse.netloc parsed = "shop.example.com").
  { vm_compute. eexists. split; reflexivity. }
  destruct E as (parsed & Hp & Hn).
  destruct (@is_same_domain_spec example_lib "example.com" _ parsed Hp) as [_ Hiff].
  apply Hiff; [discriminate|]. right. exists "shop". exact Hn.
Defined.

(** X14 on a selection of 26 pages. *)
Lemma scrape_site_rejects_large_selection_witness :
  exists st',
    GeneralScraper.scrape_site (H:=example_lib) (H0:=ExampleSoup.example_soup)
      (H1:=ExampleAssets.site) ExampleAssets.plain_page 10 "https://example.com/"
      "multi_page" (Some ExampleWorld.selection_26) "job" GeneralScraper.initial_state
    = Some (GeneralScraper.failure GeneralScraper.MaximumPagesAllowed, st')
    /\ GeneralScraper.trace st' = [MakeDirs "app/static/job"].
Proof.
  destruct (@scrape_site_rejects_large_selection example_lib ExampleSoup.example_soup
              ExampleAssets.site ExampleAssets.plain_page 10 "https://example.com/"
              "multi_page" "job" ExampleWorld.selection_26 GeneralScraper.initial_state)
    as (r & st' & Hrun & _ & _ & _ & _ & Hmsg).
  - reflexivity.
  - vm_compute. lia.
  - destruct Hmsg as [-> Ht]; [reflexivity | vm_compute; discriminate|].
    exists st'. split; [exact Hrun | exact Ht].
Defined.

(** X15 on the example site in multi-page mode without a selection: two
    pages are found and scraped. *)
Lemma scrape_site_page_count_witness :
  exists r st',
    GeneralScraper.scrape_site (H:=example_lib) (H0:=ExampleSoup.example_soup)
      (H1:=ExampleAssets.site) ExampleAssets.plain_page 10 "https://example.com/"
      "multi_page" None "job" GeneralScraper.initial_state = Some (r, st')
    /\ GeneralScraper.result_message r = GeneralScraper.SuccessfullyScraped 2
    /\ GeneralScraper.success r = true
    /\ GeneralScraper.result_file_path r = Some "app/static/job.zip".
Proof.
  assert (E : exists r st',
             GeneralScraper.scrape_site (H:=example_lib) (H0:=ExampleSoup.example_soup)
               (H1:=ExampleAssets.site) ExampleAssets.plain_page 10 "https://example.com/"
               "multi_page" None "job" GeneralScraper.initial_state = Some (r, st')
             /\ GeneralScraper.result_message r = GeneralScraper.SuccessfullyScraped 2).
  { vm_compute. eexists _, _. split; reflexivity. }
  destruct E as (r & st' & Hrun & Hmsg). exists r, st'.
  split; [exact Hrun|]. split; [exact Hmsg|].
  destruct (scrape_site_page_count _ _ _ _ _ _ _ _ _ _ Hrun Hmsg) as (_ & _ & Hs & Hf & _).
  split; [exact Hs | exact Hf].
Defined.

(** * Properties of the helpers and of the URL check *)

Module HelperFacts.
Import Py PyFacts PathMapper.

Lemma replace_char_without (c d : ascii) (s : string) :
  Ascii.eqb d c = false -> has_char c (BaseSiteSpider.replace_char c d s) = false.
Proof.
  intros Hd. induction s as [|a s IH]; [reflexivity|].
  cbn [BaseSiteSpider.replace_char has_char]. rewrite IH, orb_false_r.
  destruct (Ascii.eqb a c) eqn:E; [exact Hd | exact E].
Qed.

Lemma replace_char_keeps (x c d : ascii) (s : string) :
  Ascii.eqb d x = false -> has_char x s = false ->
  has_char x (BaseSiteSpider.replace_char c d s) = false.
Proof.
  intros Hd. induction s as [|a s IH]; [reflexivity|].
  cbn [BaseSiteSpider.replace_char has_char]. intros Hs.
  apply orb_false_iff in Hs as [Ha Hs]. rewrite (IH Hs), orb_false_r.
  destruct (Ascii.eqb a c); [exact Hd | exact Ha].
Qed.

Lemma replace_char_nonempty (c d : ascii) (s : string) :
  s <> "" -> BaseSiteSpider.replace_char c d s <> "".
Proof. destruct s; [congruence | discriminate]. Qed.

Lemma lstrip_head (p : ascii -> bool) (s : string) :
  match lstrip p s with
  | String a _ => p a = false
  | EmptyString => True
  end.
Proof.
  induction s as [|a s IH]; [exact I|]. cbn [lstrip].
  destruct (p a) eqn:E; [exact IH | exact E].
Qed.

Lemma rstrip_idempotent (p : ascii -> bool) (s : string) :
  rstrip p (rstrip p s) = rstrip p s.
Proof.
  induction s as [|a s IH]; [reflexivity|]. cbn [rstrip].
  destruct (rstrip p s) as [|b r] eqn:E.
  - destruct (p a) eqn:Ea; [reflexivity|]. cbn [rstrip]. now rewrite Ea.
  - cbn [rstrip]. change (match rstrip p r with
                          | "" => if p b then "" else String b ""
                          | String a0 s0 => String b (String a0 s0)
                          end) with (rstrip p (String b r)).
    now rewrite IH.
Qed.

Lemma lstrip_fixed (p : ascii -> bool) (a : ascii) (s : string) :
  p a = false -> lstrip p (String a s) = String a s.
Proof. intros Ha. cbn [lstrip]. now rewrite Ha. Qed.

End HelperFacts.

Section HelperProperties.
Import Py PyFacts UrlParse PathMapper HelperFacts.
Context `{UrlLib}.

(** X16.  [get_page_name] gives a name that is not empty and holds neither
    a slash nor a dot, whatever the path of the URL. *)
Theorem get_page_name_flat (url name : string) :
  Utils.get_page_name url = Some name ->
  name <> "" /\ has_char "/" name = false /\ has_char "." name = false.
Proof.
  unfold Utils.get_page_name. destruct (urlparse url) as [parsed|]; [|discriminate].
  destruct (strip is_slash (path parsed)) as [|a p] eqn:Ep; cbn [nonempty negb].
  - intros [= <-]. repeat split; discriminate || reflexivity.
  - assert (Hflat : forall q, q <> "" ->
              let flat := BaseSiteSpider.replace_char "." "_"
                            (BaseSiteSpider.replace_char "/" "_" q) in
              flat <> "" /\ has_char "/" flat = false /\ has_char "." flat = false).
    { intros q Hq flat. split; [|split].
      - apply replace_char_nonempty, replace_char_nonempty, Hq.
      - apply replace_char_keeps; [reflexivity|]. now apply replace_char_without.
      - now apply replace_char_without. }
    intros [= <-]. exact (Hflat (String a p) ltac:(discriminate)).
Qed.

(** X17.  The link test of the spider is the link test of [utils.py] made
    stricter: every link the spider takes for internal is internal for the
    helper too (which knows no list of foreign domains and catches no
    exception). *)
Theorem spider_internal_link_is_helper_internal (link current_url : string) :
  PathMapper.is_internal_link link current_url = true ->
  Utils.is_internal_link link current_url = Some true.
Proof.
  unfold PathMapper.is_internal_link, Utils.is_internal_link.
  destruct (nonempty link); cbn [negb orb]; [|discriminate].
  destruct (is_special_link link); [discriminate|].
  destruct (startswith "http" link); [|reflexivity].
  destruct (urlparse current_url) as [cur|]; [|discriminate].
  destruct (urlparse link) as [lnk|]; [|discriminate].
  destruct (existsb _ external_domains); [discriminate|]. now intros ->.
Qed.

(** X18.  [clean_asset_path] never gives a path that starts with a slash,
    and turns a protocol-relative reference into an [https] URL. *)
Theorem clean_asset_path_relative (asset_path : string) :
  startswith "/" (Utils.clean_asset_path asset_path) = false
  /\ Utils.clean_asset_path ("//" +:+ asset_path) = "https://" +:+ asset_path.
Proof.
  split; [|reflexivity]. unfold Utils.clean_asset_path.
  match goal with |- startswith "/" (lstrip is_slash ?s) = false =>
    pose proof (lstrip_head is_slash s) as Hh; destruct (lstrip is_slash s) as [|a r]
  end; [reflexivity|].
  cbn [startswith]. unfold is_slash in Hh. rewrite Ascii.eqb_sym, Hh. reflexivity.
Qed.

(** X19.  What [sanitize_url] lets through starts with [http://] or
    [https://], has no white space at either end and at most 2048
    characters, and passes the check again unchanged. *)
Theorem sanitize_url_fixpoint (url clean : string) :
  Main.sanitize_url url = Main.Sanitized clean ->
  (startswith "http://" clean || startswith "https://" clean) = true
  /\ String.length clean <= 2048
  /\ strip Main.is_whitespace clean = clean
  /\ Main.sanitize_url clean = Main.Sanitized clean.
Proof.
  unfold Main.sanitize_url.
  destruct (startswith "http://" (strip Main.is_whitespace url)
            || startswith "https://" (strip Main.is_whitespace url)) eqn:Es;
    cbn [negb]; [|discriminate].
  destruct (2048 <? String.length (strip Main.is_whitespace url)) eqn:El; [discriminate|].
  intros [= <-].
  assert (Hfix : strip Main.is_whitespace (strip Main.is_whitespace url)
                 = strip Main.is_whitespace url).
  { unfold strip at 1.
    assert (Hl : lstrip Main.is_whitespace (strip Main.is_whitespace url)
                 = strip Main.is_whitespace url).
    { destruct (strip Main.is_whitespace url) as [|a s]; [reflexivity|].
      apply lstrip_fixed.
      apply orb_true_iff in Es as [Es | Es]; cbn [startswith] in Es;
        apply andb_true_iff in Es as [Ea _]; apply Ascii.eqb_eq in Ea; subst a;
        reflexivity. }
    rewrite Hl. unfold strip. apply rstrip_idempotent. }
  split; [exact Es|]. split; [now apply Nat.ltb_ge in El|]. split; [exact Hfix|].
  now rewrite Hfix, Es, El.
Qed.

End HelperProperties.

(** X16 on a URL with two path segments and an extension. *)
Lemma get_page_name_flat_witness :
  Utils.get_page_name (H:=example_lib) "https://example.com/blog/post.v1/" = Some "blog_post_v1"
  /\ Py.has_char "/" "blog_post_v1" = false /\ Py.has_char "." "blog_post_v1" = false.
Proof.
  assert (E : Utils.get_page_name (H:=example_lib) "https://example.com/blog/post.v1/"
              = Some "blog_post_v1") by (vm_compute; reflexivity).
  split; [exact E|].
  exact (proj2 (@get_page_name_flat example_lib _ _ E)).
Defined.

(** X17 on a link to another page of the same host. *)
Lemma spider_internal_link_is_helper_internal_witness :
  Utils.is_internal_link (H:=example_lib) "https://example.com/about" "https://example.com/"
  = Some true.
Proof.
  apply (@spider_internal_link_is_helper_internal example_lib).
  vm_compute. reflexivity.
Defined.

(** X19 on a URL typed with blanks around it. *)
Lemma sanitize_url_fixpoint_witness :
  Main.sanitize_url "  https://example.com/a " = Main.Sanitized "https://example.com/a"
  /\ Main.sanitize_url "https://example.com/a" = Main.Sanitized "https://example.com/a".
Proof.
  assert (E : Main.sanitize_url "  https://example.com/a "
              = Main.Sanitized "https://example.com/a") by (vm_compute; reflexivity).
  split; [exact E|].
  exact (proj2 (proj2 (proj2 (sanitize_url_fixpoint _ _ E)))).
Defined.

(** * Properties of the platform variants *)

Module BadgeFacts.
Import Py PyFacts Soup PlatformBadge FramerFacts.


Lemma is_badge_div_shape (c : string) : shape_only (is_badge_div c).
Proof. intros name attrs c1 c2. reflexivity. Qed.

Lemma not_badge_div_shape (c : string) : shape_only (fun e => negb (is_badge_div c e)).
Proof. intros name attrs c1 c2. reflexivity. Qed.

Definition class_loop (classes : list string) (s : soup) : soup :=
  fold_left (fun s c => prune_all (is_badge_div c) s) classes s.

Lemma class_loop_keeps (q : node -> bool) (classes : list string) :
  shape_only q ->
  forall s, forallb (every_element q) s = true ->
            forallb (every_element q) (class_loop classes s) = true.
Proof.
  intros Hq. induction classes as [|x l IH]; intros s Hs; [exact Hs|].
  cbn [class_loop fold_left]. apply IH. now apply prune_all_keeps.
Qed.

Lemma class_loop_removes (classes : list string) (c : string) :
  In c classes ->
  forall s, forallb (every_element (fun e => negb (is_badge_div c e)))
              (class_loop classes s) = true.
Proof.
  induction classes as [|x l IH]; intros Hin s; [destruct Hin|].
  cbn [class_loop fold_left]. destruct Hin as [-> | Hin]; [|now apply IH].
  apply (class_loop_keeps _ l (not_badge_div_shape c)).
  apply prune_all_removes, is_badge_div_shape.
Qed.

Lemma class_loop_id (classes : list string) (s : soup) :
  (forall c, In c classes ->
             forallb (every_element (fun e => negb (is_badge_div c e))) s = true) ->
  class_loop classes s = s.
Proof.
  induction classes as [|x l IH]; intros Hs; [reflexivity|].
  cbn [class_loop fold_left]. rewrite (prune_all_id _ s) by (apply Hs; now left).
  apply IH. intros c Hc. apply Hs. now right.
Qed.

End BadgeFacts.

Section PlatformProperties.
Import Py PyFacts Soup PlatformBadge FramerFacts BadgeFacts.
Context `{SoupLib}.
Variable v : variant.


(** X21.  The result of [remove_platform_badge] is the serialised parsed
    document after the two removal loops.  After them no [div] element
    with one of the badge classes of the variant is left; and a document
    in which no element is such a [div] or a promotional link comes out of
    the loops unchanged. *)
Theorem platform_badge_divs_removed (html out : string) :
  remove_platform_badge v html = Some out ->
  exists soup,
    soup_parse (inject_css (css_to_inject v) html) = Some soup
    /\ out = soup_str (strip_badges v soup)
    /\ (forall c, In c (badge_classes v) ->
          forallb (every_element (fun e => negb (is_badge_div c e)))
            (strip_badges v soup) = true)
    /\ (forallb (every_element
                   (fun e => negb (existsb (fun c => is_badge_div c e) (badge_classes v))
                             && negb (is_platform_link v e))) soup = true ->
        strip_badges v soup = soup).
Proof.
  unfold remove_platform_badge.
  destruct (soup_parse (inject_css (css_to_inject v) html)) as [soup|]; [|discriminate].
  intros [= <-]. exists soup. split; [reflexivity|]. split; [reflexivity|].
  change (strip_badges v soup)
    with (prune_all (is_platform_link v) (class_loop (badge_classes v) soup)).
  split.
  - intros c Hc. apply (prune_all_keeps _ _ _ (not_badge_div_shape c)).
    now apply class_loop_removes.
  - intros Hs. rewrite class_loop_id.
    + apply prune_all_id. eapply every_element_all_impl; [|exact Hs].
      intros e He. now apply andb_true_iff in He as [_ He].
    + intros c Hc. eapply every_element_all_impl; [|exact Hs].
      intros e He. apply andb_true_iff in He as [He _].
      apply negb_true_iff in He. apply negb_true_iff.
      destruct (is_badge_div c e) eqn:Ec; [|reflexivity].
      rewrite <- He. symmetry. apply existsb_exists. eauto.
Qed.

End PlatformProperties.


(** X21 for the Wix variant: the badge and the promotional link go, the
    other link to the platform and the paragraph stay. *)
Lemma platform_badge_divs_removed_witness :
  exists out,
    WixSpider.remove_platform_badge (H:=ExampleAssets.wix_soup) ExampleAssets.wix_markup
    = Some out
    /\ out = Framer.nl +:+ "<style>" +:+ ExampleAssets.wix_rules +:+ "</style>"
             +:+ Framer.nl
             +:+ "<a href=" +:+ Framer.dq +:+ "https://www.wix.com/blog" +:+ Framer.dq
             +:+ ">Our blog</a><p>Welcome</p>"
    /\ exists soup,
         out = ExampleSoup.render_all (PlatformBadge.strip_badges WixSpider.variant soup)
         /\ forallb (Soup.every_element
                       (fun e => negb (PlatformBadge.is_badge_div "wix-badge" e)))
              (PlatformBadge.strip_badges WixSpider.variant soup) = true.
Proof.
  assert (E : exists out,
             PlatformBadge.remove_platform_badge (H:=ExampleAssets.wix_soup)
               WixSpider.variant ExampleAssets.wix_markup = Some out
             /\ out = Framer.nl +:+ "<style>" +:+ ExampleAssets.wix_rules +:+ "</style>"
                      +:+ Framer.nl
                      +:+ "<a href=" +:+ Framer.dq +:+ "https://www.wix.com/blog"
                      +:+ Framer.dq +:+ ">Our blog</a><p>Welcome</p>").
  { vm_compute. eexists. split; reflexivity. }
  destruct E as (out & Hrun & Hout). exists out. split; [exact Hrun|]. split; [exact Hout|].
  destruct (@platform_badge_divs_removed ExampleAssets.wix_soup WixSpider.variant _ _ Hrun)
    as (soup & _ & Hstr & Hdiv & _).
  exists soup. split; [exact Hstr|]. apply Hdiv. left. reflexivity.
Defined.

(** * Further properties of the spider's helpers *)

Module LinkFacts.
Import Py PyFacts UrlParse PathMapper PathFacts BaseSiteSpider.

Lemma strip_fragment_query_free (url : string) :
  has_char "#" (strip_fragment_query url) = false
  /\ has_char "?" (strip_fragment_query url) = false.
Proof.
  unfold strip_fragment_query. split; [|apply before_without].
  apply before_free, before_without.
Qed.

(** Neither form of a character under [str.title] is a dash, an
    underscore or a slash, unless the character is. *)
Lemma title_char_without (c a : ascii) :
  In c ["-"; "_"; "/"]%char -> Ascii.eqb a c = false ->
  has_char c (title_char a) = false /\ Ascii.eqb (lower_char a) c = false.
Proof.
  intros [<- | [<- | [<- | []]]];
    destruct a as [[] [] [] [] [] [] [] []]; vm_compute; intros E;
    first [split; reflexivity | discriminate E].
Qed.

Lemma title_from_without (c : ascii) (after_cased : bool) (s : string) :
  In c ["-"; "_"; "/"]%char -> has_char c s = false ->
  has_char c (title_from after_cased s) = false.
Proof.
  intros Hc. revert after_cased. induction s as [|a s IH]; intros after_cased;
    [reflexivity|].
  cbn [has_char title_from]. intros Hs. apply orb_false_iff in Hs as [Ha Hs].
  destruct (title_char_without c a Hc Ha) as [Ht Hl].
  rewrite PyFacts.has_char_append, (IH _ Hs), orb_false_r.
  destruct after_cased; [|exact Ht]. cbn [has_char]. now rewrite Hl.
Qed.

Section WithLib.
Context `{UrlLib}.

Lemma collect_links_spec (base_url : string) (skip : string -> bool)
    (hrefs : list string) :
  forall internal_links links,
    collect_links base_url skip hrefs internal_links = Some links ->
    NoDup internal_links ->
    NoDup links
    /\ (forall l, l ∈ links ->
                  l ∈ internal_links
                  \/ (skip l = false /\ has_char "#" l = false /\ has_char "?" l = false
                      /\ exists href full_url,
                           href ∈ hrefs /\ is_internal_link href base_url = true
                           /\ urljoin base_url href = Some full_url
                           /\ l = strip_fragment_query full_url)).
Proof.
  induction hrefs as [|href rest IH]; intros internal_links links; cbn [collect_links].
  - intros [= <-] Hn. split; [exact Hn | auto].
  - assert (Hrest : collect_links base_url skip rest internal_links = Some links ->
                    NoDup internal_links ->
                    NoDup links
                    /\ (forall l, l ∈ links ->
                          l ∈ internal_links
                          \/ (skip l = false /\ has_char "#" l = false
                              /\ has_char "?" l = false
                              /\ exists href0 full_url,
                                   href0 ∈ href :: rest
                                   /\ is_internal_link href0 base_url = true
                                   /\ urljoin base_url href0 = Some full_url
                                   /\ l = strip_fragment_query full_url))).
    { intros Hrun Hn. destruct (IH _ _ Hrun Hn) as [Hnd Hl]. split; [exact Hnd|].
      intros l Hin. destruct (Hl l Hin) as [? | (? & ? & ? & h & f & Hh & ?)]; [now left|].
      right. repeat (split; [assumption|]). exists h, f. split; [now right | assumption]. }
    destruct (is_internal_link href base_url) eqn:Ei; [|exact Hrest].
    destruct (urljoin base_url href) as [full_url|] eqn:Ej; [|discriminate].
    destruct (mem (strip_fragment_query full_url) internal_links) eqn:Em;
      cbn [orb]; [exact Hrest|].
    destruct (skip (strip_fragment_query full_url)) eqn:Es; [exact Hrest|].
    intros Hrun Hn.
    assert (Hnew : strip_fragment_query full_url ∉ internal_links).
    { intros Hin. apply GeneralFacts.mem_elem_of in Hin. congruence. }
    destruct (IH _ _ Hrun) as [Hnd Hl].
    { apply NoDup_app. split; [exact Hn|]. split; [|apply NoDup_singleton].
      intros x Hx Hx'. apply list_elem_of_singleton in Hx'. now subst x. }
    split; [exact Hnd|]. intros l Hin.
    destruct (Hl l Hin) as [Hold | (? & ? & ? & h & f & Hh & ?)].
    + apply elem_of_app in Hold as [Hold | Hold]; [now left|].
      apply list_elem_of_singleton in Hold. subst l. right.
      destruct (strip_fragment_query_free full_url) as [Hf Hq].
      repeat (split; [assumption|]). exists href, full_url.
      split; [now left | auto].
    + right. repeat (split; [assumption|]). exists h, f. split; [now right | assumption].
Qed.

End WithLib.
End LinkFacts.

Section SpiderHelperProperties.
Import Py PyFacts UrlParse PathMapper PathFacts Soup BaseSiteSpider SpiderFacts LinkFacts.
Context `{UrlLib} `{SoupLib} `{World}.
Variable cfg : config.

(** X22.  The list of links that [scrape_internal_links] and
    [discover_page_links] build from a page has no duplicates; every entry
    is the joined URL of a link of the page that passes [is_internal_link],
    cut before its fragment and its query, so it holds neither [#] nor
    [?]. *)
Theorem collect_links_clean (base_url : string) (skip : string -> bool)
    (hrefs links : list string) :
  collect_links base_url skip hrefs [] = Some links ->
  NoDup links
  /\ (forall l, l ∈ links ->
                skip l = false /\ has_char "#" l = false /\ has_char "?" l = false
                /\ exists href full_url,
                     href ∈ hrefs /\ is_internal_link href base_url = true
                     /\ urljoin base_url href = Some full_url
                     /\ l = strip_fragment_query full_url).
Proof.
  intros Hrun. destruct (collect_links_spec _ _ _ _ _ Hrun (NoDup_nil_2 (A:=string))) as [Hn Hl].
  split; [exact Hn|]. intros l Hin.
  destruct (Hl l Hin) as [Hnil | Hok]; [inversion Hnil | exact Hok].
Qed.

(** X23.  The page title made from a URL holds no dash, no underscore and
    no slash. *)
Theorem get_page_name_from_url_clean (url : string) :
  has_char "-" (get_page_name_from_url url) = false
  /\ has_char "_" (get_page_name_from_url url) = false
  /\ has_char "/" (get_page_name_from_url url) = false.
Proof.
  unfold get_page_name_from_url. destruct (urlparse url) as [parsed|];
    [|repeat split; reflexivity].
  destruct (negb (nonempty (strip is_slash (path parsed)))); [repeat split; reflexivity|].
  unfold title_case.
  assert (Hseg : has_char "/" (List.last (split "/" (strip is_slash (path parsed))) "Page")
                 = false).
  { pose proof (split_parts_free "/" (strip is_slash (path parsed))) as Hall.
    pose proof (split_not_nil "/" (strip is_slash (path parsed))) as Hne.
    rewrite List.Forall_forall in Hall. apply Hall.
    destruct (exists_last Hne) as (l' & z & ->).
    rewrite last_last. apply in_or_app. right. now left. }
  split; [|split]; apply title_from_without; try (cbn; tauto).
  - apply HelperFacts.replace_char_keeps; [reflexivity|].
    now apply HelperFacts.replace_char_without.
  - now apply HelperFacts.replace_char_without.
  - apply HelperFacts.replace_char_keeps; [reflexivity|].
    now apply HelperFacts.replace_char_keeps.
Qed.

(** X24.  [download_asset] touches the files and the record of events
    only.  Either no file is written, or exactly one: then the reference
    stood for a URL that was answered by a 200, and the file holds the body
    of that response. *)
Theorem download_asset_effect (asset_url base_url : string) (st : state) :
  let st' := download_asset cfg asset_url base_url st in
  visited_pages st' = visited_pages st
  /\ assets st' = assets st
  /\ page_mapping st' = page_mapping st
  /\ discovered_pages st' = discovered_pages st
  /\ (files st' = files st
      \/ exists full_url content_type content local_path,
           asset_full_url cfg asset_url base_url = Some full_url
           /\ http_get full_url = Response 200 content_type content
           /\ files st' = <[path_join (output_dir cfg) local_path := content]> (files st)).
Proof.
  unfold download_asset.
  destruct (asset_full_url cfg asset_url base_url) as [full_url|] eqn:Ef;
    [|cbn; auto 6].
  destruct (http_get full_url) as [status content_type content| |] eqn:Eg;
    try (cbn; auto 6).
  destruct (status =? 200) eqn:Es; [|cbn; auto 6].
  apply Nat.eqb_eq in Es. subst status.
  match goal with
  | |- context [match ?lp with Some _ => _ | None => _ end] =>
      destruct lp as [local_path|]
  end; [|cbn; auto 6].
  destruct (makedirs_ok _); [|cbn; auto 6].
  destruct (write_ok _); [|cbn; auto 6].
  cbn. repeat (split; [reflexivity|]). right.
  exists full_url, content_type, content, local_path. auto.
Qed.

(** X25.  A page whose request is not answered by a 200 is marked as
    visited, so it is not asked for again in this crawl, and nothing is
    written or recorded for it. *)
Theorem scrape_page_failed_request (variant : platform) (fuel : nat) (url : string)
    (st : state) :
  blocked cfg url st = false ->
  (forall content_type body, http_get url <> Response 200 content_type body) ->
  exists st',
    scrape_page variant cfg (S fuel) url st = Some st'
    /\ visited_pages st' = {[url]} ∪ visited_pages st
    /\ trace st' = trace st ++ [PageGet url]
    /\ files st' = files st
    /\ page_mapping st' = page_mapping st
    /\ scrape_page variant cfg (S fuel) url st' = Some st'.
Proof.
  intros Hb Hget. cbn [scrape_page]. rewrite Hb.
  set (st1 := log (PageGet url) (set_visited_pages ({[url]} ∪ visited_pages st) st)).
  assert (Hagain : blocked cfg url st1 = true).
  { unfold blocked. cbn [visited_pages st1 log set_visited_pages].
    rewrite bool_decide_eq_true_2 by set_solver. reflexivity. }
  destruct (http_get url) as [status content_type body| |] eqn:Eg;
    try solve [exists st1; rewrite Hagain; repeat split].
  destruct (status =? 200) eqn:Es; cbn [negb].
  - apply Nat.eqb_eq in Es. subst status. now destruct (Hget content_type body).
  - exists st1. rewrite Hagain. repeat split.
Qed.

End SpiderHelperProperties.

(** X22 on the links of the example start page: [/a], [/b] and [/a#top]
    give two URLs. *)
Lemma collect_links_clean_witness :
  BaseSiteSpider.collect_links (H:=example_lib) "https://example.com/" (fun _ => false)
    ["/a"; "/b"; "/a#top"] []
  = Some ["https://example.com/a"; "https://example.com/b"]
  /\ NoDup ["https://example.com/a"; "https://example.com/b"].
Proof.
  assert (E : BaseSiteSpider.collect_links (H:=example_lib) "https://example.com/"
                (fun _ => false) ["/a"; "/b"; "/a#top"] []
              = Some ["https://example.com/a"; "https://example.com/b"])
    by (vm_compute; reflexivity).
  split; [exact E|].
  exact (proj1 (@collect_links_clean example_lib _ _ _ _ E)).
Defined.

(** X25 on the page of the example site whose request times out. *)
Lemma scrape_page_failed_request_witness :
  exists st',
    BaseSiteSpider.scrape_page (H:=example_lib) (H0:=ExampleSoup.example_soup)
      (H1:=ExampleWorld.site) ExampleWorld.plain ExampleWorld.mirror_job 1
      "https://example.com/b" BaseSiteSpider.initial_state = Some st'
    /\ BaseSiteSpider.trace st' = [PageGet "https://example.com/b"]
    /\ BaseSiteSpider.files st' = ∅.
Proof.
  destruct (@scrape_page_failed_request example_lib ExampleSoup.example_soup
              ExampleWorld.site ExampleWorld.mirror_job ExampleWorld.plain 0
              "https://example.com/b" BaseSiteSpider.initial_state)
    as (st' & Hrun & _ & Ht & Hf & _).
  - vm_compute. reflexivity.
  - intros content_type body. vm_compute. discriminate.
  - exists st'. split; [exact Hrun|]. split; [exact Ht | exact Hf].
Defined.

(** * Properties of the link rewriter and of the discovery queue *)

Section RewriterProperties.
Import Py PyFacts UrlParse PathMapper PathFacts Soup Rewriter RewriterFacts.
Context `{UrlLib} `{SoupLib}.



(** The links that the loop leaves as they are. *)
Lemma new_href_untouched (base_url current_page_path href : string) :
  (is_special_link href = true
   \/ (startswith "/" href = false /\ startswith "http://" href = false
       /\ startswith "https://" href = false)
   \/ (startswith "/" href = false
       /\ exists l b, urlparse href = Some l /\ urlparse base_url = Some b
                      /\ netloc l <> netloc b)) ->
  new_href base_url current_page_path href = Some None.
Proof.
  unfold new_href, is_special_link. intros [Hs | [(Hslash & Hh & Hhs) | (Hslash & l & b & Hl & Hb & Hn)]].
  - destruct (startswith "mailto:" href), (startswith "tel:" href),
      (startswith "javascript:" href), (startswith "#" href);
      try reflexivity; discriminate.
  - rewrite Hslash, Hh, Hhs.
    destruct (startswith "mailto:" href || startswith "tel:" href
              || startswith "javascript:" href); [reflexivity|].
    destruct (startswith "#" href); reflexivity.
  - rewrite Hslash, Hl, Hb.
    apply String.eqb_neq in Hn. rewrite Hn.
    destruct (startswith "mailto:" href || startswith "tel:" href
              || startswith "javascript:" href); [reflexivity|].
    destruct (startswith "#" href); [reflexivity|].
    destruct (startswith "http://" href || startswith "https://" href); reflexivity.
Qed.

Lemma get_set_attr (key value : string) (attrs : list (string * string)) :
  get_attr key (set_attr key value attrs) = Some value.
Proof.
  induction attrs as [|[k v] rest IH]; cbn [set_attr get_attr].
  - now rewrite String.eqb_refl.
  - destruct (String.eqb k key) eqn:E; cbn [get_attr]; rewrite E;
      [reflexivity | exact IH].
Qed.

(** The link loop keeps the anchors and their order; the [href] of each is
    left as it is where [f] leaves it, and is the value that [f] gives
    otherwise. *)
Lemma rewrite_hrefs_all_hrefs (f : string -> option (option string)) (s s' : soup) :
  rewrite_hrefs_all f s = Some s' ->
  Forall2 (fun href new => (f href = Some None /\ new = href) \/ f href = Some (Some new))
    (anchor_hrefs s) (anchor_hrefs s').
Proof.
  assert (Hnode : forall n n',
    rewrite_hrefs f n = Some n' ->
    Forall2 (fun href new => (f href = Some None /\ new = href) \/ f href = Some (Some new))
      (anchor_hrefs [n]) (anchor_hrefs [n'])).
  { induction n as [t|t|name attrs children IH] using Soup.node_ind.
    - intros n' [= <-]. constructor.
    - intros n' [= <-]. constructor.
    - intros n'. rewrite rewrite_hrefs_element.
      assert (Hch : forall c',
        rewrite_hrefs_all f children = Some c' ->
        Forall2 (fun href new => (f href = Some None /\ new = href)
                                 \/ f href = Some (Some new))
          (anchor_hrefs children) (anchor_hrefs c')).
      { clear -IH. induction children as [|c l IHl]; intros c'; cbn [rewrite_hrefs_all].
        - intros [= <-]. constructor.
        - inversion IH as [|? ? Hc Hl]; subst.
          destruct (rewrite_hrefs f c) as [c1|] eqn:Ec; [|discriminate].
          destruct (rewrite_hrefs_all f l) as [l1|] eqn:El; [|discriminate].
          intros [= <-]. rewrite (anchor_hrefs_cons c), (anchor_hrefs_cons c1).
          apply Forall2_app; [now apply Hc | now apply IHl]. }
      destruct (String.eqb name "a") eqn:En.
      + destruct (get_attr "href" attrs) as [href|] eqn:Eh.
        * destruct (f href) as [[new|]|] eqn:Ef; [| |discriminate].
          -- destruct (rewrite_hrefs_all f children) as [c1|] eqn:Ec; [|discriminate].
             intros [= <-]. rewrite !anchor_hrefs_element, En, Eh, get_set_attr.
             cbn [app]. constructor; [now right | now apply Hch].
          -- destruct (rewrite_hrefs_all f children) as [c1|] eqn:Ec; [|discriminate].
             intros [= <-]. rewrite !anchor_hrefs_element, En, Eh.
             cbn [app]. constructor; [now left | now apply Hch].
        * destruct (rewrite_hrefs_all f children) as [c1|] eqn:Ec; [|discriminate].
          intros [= <-]. rewrite !anchor_hrefs_element, En, Eh. cbn [app].
          now apply Hch.
      + destruct (rewrite_hrefs_all f children) as [c1|] eqn:Ec; [|discriminate].
        intros [= <-]. rewrite !anchor_hrefs_element, En. cbn [app].
        now apply Hch. }
  revert s'. induction s as [|n s IH]; intros s'; cbn [rewrite_hrefs_all].
  - intros [= <-]. constructor.
  - destruct (rewrite_hrefs f n) as [n1|] eqn:En; [|discriminate].
    destruct (rewrite_hrefs_all f s) as [s1|] eqn:Es; [|discriminate].
    intros [= <-]. rewrite (anchor_hrefs_cons n), (anchor_hrefs_cons n1).
    apply Forall2_app; [now apply Hnode | now apply IH].
Qed.

(** A run of [process_html_content] whose parsing and link loop raise
    nothing: the result is the serialised document, parsed from the text
    after the two substitutions, with the loop applied. *)
Lemma process_html_content_run (html base_url out : string) (b : ParseResult) :
  urlparse base_url = Some b ->
  rewrite_document (prepass (netloc b) html) base_url = Some out ->
  process_html_content html base_url = out
  /\ exists soup soup',
       soup_parse (prepass (netloc b) html) = Some soup
       /\ rewrite_hrefs_all (new_href base_url (get_clean_path base_url)) soup = Some soup'
       /\ out = soup_str soup'.
Proof.
  intros Hb Hdoc. unfold process_html_content. rewrite Hb. cbn zeta. rewrite Hdoc.
  split; [reflexivity|]. unfold rewrite_document in Hdoc.
  destruct (soup_parse (prepass (netloc b) html)) as [soup|]; [|discriminate].
  cbn zeta in Hdoc.
  destruct (rewrite_hrefs_all (new_href base_url (get_clean_path base_url)) soup)
    as [soup'|] eqn:Er; [|discriminate].
  injection Hdoc as <-. exists soup, soup'. auto.
Qed.


(** X27.  In such a run every anchor of the document, as parsed from the
    text after the two substitutions, keeps its [href] when the value
    starts with [mailto:], [tel:], [javascript:] or [#], when it is a
    relative reference that starts neither with a slash nor with [http://]
    or [https://], and when it is an absolute link to another authority.
    The substitutions change the text of a link that holds the origin of
    the page; when the document holds the origin nowhere, the parsed
    document is that of the input. *)
Theorem untouched_links (html base_url out : string) (b : ParseResult) :
  urlparse base_url = Some b ->
  rewrite_document (prepass (netloc b) html) base_url = Some out ->
  process_html_content html base_url = out
  /\ exists soup soup',
       soup_parse (prepass (netloc b) html) = Some soup
       /\ rewrite_hrefs_all (new_href base_url (get_clean_path base_url)) soup = Some soup'
       /\ out = soup_str soup'
       /\ Forall2
            (fun href new =>
               (is_special_link href = true
                \/ (startswith "/" href = false /\ startswith "http://" href = false
                    /\ startswith "https://" href = false)
                \/ (startswith "/" href = false
                    /\ exists l, urlparse href = Some l /\ netloc l <> netloc b)) ->
               new = href)
            (anchor_hrefs soup) (anchor_hrefs soup')
       /\ (contains ("https://" +:+ netloc b) html = false ->
           contains ("http://" +:+ netloc b) html = false ->
           soup_parse html = Some soup).
Proof.
  intros Hb Hdoc.
  destruct (process_html_content_run html base_url out b Hb Hdoc)
    as (Hout & soup & soup' & Hp & Hr & Hs).
  split; [exact Hout|]. exists soup, soup'. repeat (split; [assumption|]).
  split.
  - pose proof (rewrite_hrefs_all_hrefs _ _ _ Hr) as HF.
    induction HF as [|href new l l' Hstep _ IH]; constructor; [|exact IH].
    intros Hcase. destruct Hstep as [[_ ->] | Hnew]; [reflexivity|].
    assert (E : new_href base_url (get_clean_path base_url) href = Some None).
    { apply new_href_untouched.
      destruct Hcase as [Hsp | [Hrel | (Hslash & l0 & Hl & Hn)]];
        [now left | now (right; left) |].
      right. right. split; [exact Hslash|]. exists l0, b. auto. }
    congruence.
  - intros H1 H2. now rewrite (RewriterFacts.prepass_id _ _ H1 H2) in Hp.
Qed.

End RewriterProperties.


(** X27 on a page with a mail link, a relative link, a link to another
    host and an absolute link to the site itself: the first three come out
    as they went in; the last one was rewritten in the text by the two
    substitutions and is left by the loop in that form. *)
Lemma untouched_links_witness :
  Rewriter.process_html_content (H:=example_lib) (H0:=ExampleAssets.links_soup)
    ExampleAssets.links_markup "https://example.com/blog/post-1"
  = "<a href=" +:+ Framer.dq +:+ "mailto:hi@example.com" +:+ Framer.dq +:+ ">mail</a>"
    +:+ "<a href=" +:+ Framer.dq +:+ "about.html" +:+ Framer.dq +:+ ">about</a>"
    +:+ "<a href=" +:+ Framer.dq +:+ "https://other.org/x" +:+ Framer.dq +:+ ">other</a>"
    +:+ "<a href=" +:+ Framer.dq +:+ "./docs/api/intro" +:+ Framer.dq +:+ ">docs</a>"
  /\ Rewriter.prepass "example.com" ExampleAssets.links_markup
     = ExampleAssets.links_substituted.
Proof.
  assert (Hb : exists b,
            UrlParse.urlparse (H:=example_lib) "https://example.com/blog/post-1" = Some b
            /\ UrlParse.netloc b = "example.com")
    by (vm_compute; eexists; split; reflexivity).
  destruct Hb as (b & Hb & Hn).
  assert (Hdoc : Rewriter.rewrite_document (H:=example_lib) (H0:=ExampleAssets.links_soup)
                   (Rewriter.prepass (UrlParse.netloc b) ExampleAssets.links_markup)
                   "https://example.com/blog/post-1"
                 = Some ("<a href=" +:+ Framer.dq +:+ "mailto:hi@example.com" +:+ Framer.dq
                         +:+ ">mail</a>"
                         +:+ "<a href=" +:+ Framer.dq +:+ "about.html" +:+ Framer.dq
                         +:+ ">about</a>"
                         +:+ "<a href=" +:+ Framer.dq +:+ "https://other.org/x" +:+ Framer.dq
                         +:+ ">other</a>"
                         +:+ "<a href=" +:+ Framer.dq +:+ "./docs/api/intro" +:+ Framer.dq
                         +:+ ">docs</a>"))
    by (rewrite Hn; vm_compute; reflexivity).
  destruct (@untouched_links example_lib ExampleAssets.links_soup _ _ _ b Hb Hdoc)
    as (Hout & _).
  split; [exact Hout | vm_compute; reflexivity].
Defined.

Section QueueProperties.
Import Py PyFacts UrlParse PathMapper GeneralScraper GeneralFacts.
Context `{UrlLib}.

(** X28.  The links of a page that the discovery of the general scraper
    puts on its queue: the queue keeps what it held and stays free of
    duplicates; every URL added is the joined URL of a link of the page,
    is of the same domain, has not been visited, holds no [#] and none of
    [.pdf], [.doc], [.zip], [.exe]. *)
Theorem add_links_queue (base_domain url : string) (hrefs : list string)
    (visited : gset string) (to_visit : list string) :
  NoDup to_visit ->
  exists added,
    add_links base_domain url hrefs visited to_visit = to_visit ++ added
    /\ NoDup (to_visit ++ added)
    /\ forall x, x ∈ added ->
         (x ∉ visited)
         /\ is_same_domain base_domain x = Some true
         /\ has_char "#" x = false
         /\ existsb (fun ext => contains ext (lower x)) [".pdf"; ".doc"; ".zip"; ".exe"]
            = false
         /\ exists href, href ∈ hrefs /\ urljoin url href = Some x.
Proof.
  revert to_visit. induction hrefs as [|href rest IH]; intros to_visit Hn; cbn [add_links].
  - exists []. rewrite app_nil_r. split; [reflexivity|]. split; [exact Hn|].
    intros x Hx. inversion Hx.
  - assert (Hstop : exists added,
               to_visit = to_visit ++ added
               /\ NoDup (to_visit ++ added)
               /\ forall x, x ∈ added ->
                    (x ∉ visited)
                    /\ is_same_domain base_domain x = Some true
                    /\ has_char "#" x = false
                    /\ existsb (fun ext => contains ext (lower x))
                         [".pdf"; ".doc"; ".zip"; ".exe"] = false
                    /\ exists href0, href0 ∈ href :: rest /\ urljoin url href0 = Some x).
    { exists []. rewrite app_nil_r. split; [reflexivity|]. split; [exact Hn|].
      intros x Hx. inversion Hx. }
    assert (Hskip : exists added,
               add_links base_domain url rest visited to_visit = to_visit ++ added
               /\ NoDup (to_visit ++ added)
               /\ forall x, x ∈ added ->
                    (x ∉ visited)
                    /\ is_same_domain base_domain x = Some true
                    /\ has_char "#" x = false
                    /\ existsb (fun ext => contains ext (lower x))
                         [".pdf"; ".doc"; ".zip"; ".exe"] = false
                    /\ exists href0, href0 ∈ href :: rest /\ urljoin url href0 = Some x).
    { destruct (IH to_visit Hn) as (added & E & Hnd & Hall). exists added.
      split; [exact E|]. split; [exact Hnd|]. intros x Hx.
      destruct (Hall x Hx) as (? & ? & ? & ? & h & Hh & ?).
      repeat (split; [assumption|]). exists h. split; [now right | assumption]. }
    destruct (urljoin url href) as [absolute_url|] eqn:Ej; [|exact Hstop].
    destruct (is_same_domain base_domain absolute_url) as [same|] eqn:Es; [|exact Hstop].
    destruct (same && negb (bool_decide (absolute_url ∈ visited))
              && negb (mem absolute_url to_visit)
              && negb (existsb (fun ext => contains ext (lower absolute_url))
                         [".pdf"; ".doc"; ".zip"; ".exe"])
              && negb (has_char "#" absolute_url)) eqn:Ec; [|exact Hskip].
    apply andb_true_iff in Ec as [Ec Hhash]. apply andb_true_iff in Ec as [Ec Hext].
    apply andb_true_iff in Ec as [Ec Hmem]. apply andb_true_iff in Ec as [Hsame Hvis].
    apply negb_true_iff in Hhash, Hext, Hmem, Hvis. subst same.
    apply bool_decide_eq_false in Hvis.
    assert (Hnew : absolute_url ∉ to_visit).
    { intros Hin. apply mem_elem_of in Hin. congruence. }
    destruct (IH (to_visit ++ [absolute_url])) as (added & E & Hnd & Hall).
    { apply NoDup_app. split; [exact Hn|]. split; [|apply NoDup_singleton].
      intros x Hx Hx'. apply list_elem_of_singleton in Hx'. now subst x. }
    exists (absolute_url :: added). rewrite <- app_assoc in E, Hnd.
    split; [exact E|]. split; [exact Hnd|]. intros x Hx.
    apply elem_of_cons in Hx as [-> | Hx].
    + repeat (split; [assumption|]). exists href. split; [now left | exact Ej].
    + destruct (Hall x Hx) as (? & ? & ? & ? & h & Hh & ?).
      repeat (split; [assumption|]). exists h. split; [now right | assumption].
Qed.

End QueueProperties.

(** X28 on the links of the example start page, with [/b] already on the
    queue. *)
Lemma add_links_queue_witness :
  GeneralScraper.add_links (H:=example_lib) "example.com" "https://example.com/"
    ["/a"; "/b"; "/a#top"] ∅ ["https://example.com/b"]
  = ["https://example.com/b"; "https://example.com/a"]
  /\ NoDup ["https://example.com/b"; "https://example.com/a"].
Proof.
  destruct (@add_links_queue example_lib "example.com" "https://example.com/"
              ["/a"; "/b"; "/a#top"] ∅ ["https://example.com/b"])
    as (added & E & Hnd & _).
  - apply NoDup_singleton.
  - assert (Ha : GeneralScraper.add_links (H:=example_lib) "example.com"
                   "https://example.com/" ["/a"; "/b"; "/a#top"] ∅
                   ["https://example.com/b"]
                 = ["https://example.com/b"; "https://example.com/a"])
      by (vm_compute; reflexivity).
    split; [exact Ha|]. rewrite <- Ha, E. exact Hnd.
Defined.
